(** * Human-in-the-loop approval gate and task orchestrator

    A shallow embedding of [agent.py] (durable mode, DynamoDB backed) and of
    [agent_without_dynamo/agent_without_dynamo.py] (memory-only mode), with
    the properties of the interruption/resumption state machine.

    Layout: Python values and dictionaries, the approval gate as a program
    over the engine's effects, the durable orchestrator, the memory-only
    orchestrator, then the theorems. *)

From Stdlib Require Import ZArith Ascii String.
From stdpp Require Import gmap strings list fin_maps.

Local Open Scope string_scope.
Local Open Scope Z_scope.
Local Open Scope list_scope.

(** ** Python values *)

(** [str.lower()]: the letters A-Z are mapped to a-z. Strings are sequences
    of bytes; every other byte is kept, so [lower s = "t"] holds exactly for
    the one-character strings t and T, as for Python's Unicode lower-casing. *)
Definition lower_char (c : ascii) : ascii :=
  let n := N_of_ascii c in
  if ((65 <=? n) && (n <=? 90))%N then ascii_of_N (n + 32) else c.

Fixpoint lower (s : string) : string :=
  match s with
  | EmptyString => EmptyString
  | String c s' => String (lower_char c) (lower s')
  end.

(** Truthiness of a [str]: the empty string is falsy. *)
Definition truthy (s : string) : bool := negb (String.eqb s "").

(** Truthiness of an [Optional[str]]: [None] and the empty string are falsy. *)
Definition truthy_opt (o : option string) : bool :=
  match o with
  | Some s => truthy s
  | None => false
  end.

(** [x in xs] for a list of strings. *)
Definition str_in (x : string) (xs : list string) : bool :=
  existsb (String.eqb x) xs.

(** A Python [dict] with [str] keys: insertion ordered, assignment to a key
    that is present keeps its position. *)
Definition pydict (V : Type) : Type := list (string * V).

Fixpoint dict_get {V} (d : pydict V) (k : string) : option V :=
  match d with
  | [] => None
  | (k', v) :: d' => if String.eqb k k' then Some v else dict_get d' k
  end.

Fixpoint dict_set {V} (d : pydict V) (k : string) (v : V) : pydict V :=
  match d with
  | [] => [(k, v)]
  | (k', v') :: d' =>
      if String.eqb k k' then (k', v) :: d' else (k', v') :: dict_set d' k v
  end.

Definition dict_keys {V} (d : pydict V) : list string := map fst d.

(** ** Configuration *)

Definition DANGEROUS_TOOLS : list string :=
  ["delete_files"; "execute_command"; "modify_database"].

(** ** Interrupts and engine results (the engine's side of the interface) *)

(** The [reason] of an interrupt. The gate always raises a dictionary with
    the keys tool, input and message; the orchestrator still tests
    [isinstance(reason, dict)], so any other payload is kept as a case. *)
Inductive Reason : Type :=
| ReasonDict (tool : option string) (input : string) (message : string)
| ReasonOther (payload : string).

Record Interrupt : Type := mkInterrupt {
  i_id : string;
  i_name : string;
  i_reason : Reason
}.

Record AgentResult : Type := mkAgentResult {
  stop_reason : string;
  interrupts : list Interrupt;
  message : string
}.

(** One entry of the list handed back to the engine on the fast path:
    [{"interruptResponse": {"interruptId": ..., "response": ...}}]. *)
Record InterruptResponse : Type := mkInterruptResponse {
  interruptId : string;
  response : string
}.

(** ** The approval gate *)

Module Gate.

(** [BeforeToolCallEvent]: the part of [event.tool_use] the hook reads. *)
Record BeforeToolCallEvent : Type := mkEvent {
  tool_use_name : string;
  tool_use_input : string
}.

(** What the hook asks of its surroundings: the engine's key-value scratch
    area ([event.agent.state]), the hook's own pre-approved answers, the
    engine's interrupt mechanism and the cancellation flag of the event. *)
Inductive gateE : Type -> Type :=
| StateGet (key : string) : gateE (option string)
| StateSet (key value : string) : gateE unit
| PreApprovedGet (tool : string) : gateE (option string)
| InterruptE (name : string) (reason : Reason) : gateE string
| CancelTool (msg : string) : gateE unit.

(** Hook bodies: finite trees of such requests. *)
Inductive gate (A : Type) : Type :=
| Ret (a : A)
| Vis {X : Type} (e : gateE X) (k : X -> gate A).

Arguments Ret {A} a.
Arguments Vis {A X} e k.

Definition trigger {X} (e : gateE X) : gate X := Vis e Ret.

Fixpoint bind {A B} (m : gate A) (f : A -> gate B) : gate B :=
  match m with
  | Ret a => f a
  | Vis e k => Vis e (fun x => bind (k x) f)
  end.

Notation "'let*' x ':=' m 'in' k" := (bind m (fun x => k))
  (at level 10, x name, m at level 100, k at level 200).

Definition trust_key (app_name tool_name : string) : string :=
  app_name +:+ "-" +:+ tool_name +:+ "-trust".

Definition approval_name (app_name tool_name : string) : string :=
  app_name +:+ "-" +:+ tool_name +:+ "-approval".

Definition denied_message (tool_name : string) : string :=
  "User denied execution of '" +:+ tool_name +:+ "'".

Definition approval_reason (event : BeforeToolCallEvent) : Reason :=
  ReasonDict (Some (tool_use_name event)) (tool_use_input event)
    ("Tool '" +:+ tool_use_name event +:+ "' requires human approval before execution").

(** The three-way branch on an answer, written twice in [agent.py] (for the
    pre-approved answer and for the answer of the interrupt) and once in the
    memory-only file. *)
Definition process_approval (app_name tool_name approval : string) : gate unit :=
  if String.eqb (lower approval) "t" then
    trigger (StateSet (trust_key app_name tool_name) "trusted")
  else if negb (String.eqb (lower approval) "y") then
    trigger (CancelTool (denied_message tool_name))
  else Ret tt.

(** What running a hook body against a concrete engine gives. *)
Record env : Type := mkEnv {
  agent_state : gmap string string;
  cancel_tool : option string
}.

Inductive access : Type :=
| ReadState (key : string)
| WriteState (key value : string)
| ReadPreApproved (tool : string)
| RaisedInterrupt (name : string)
| SetCancel (msg : string).

Inductive outcome (A : Type) : Type :=
| Returned (a : A) (e : env)
| Suspended (name : string) (reason : Reason) (e : env).

Arguments Returned {A} a e.
Arguments Suspended {A} name reason e.

(** [pre] is the hook's pre-approved map; [answers] is the engine's interrupt
    state: the response registered for an interrupt name, if the run is a
    resumption carrying one. Without a response [event.interrupt] raises and
    the hook body is abandoned. The second component lists every access in
    order. *)
Fixpoint run {A} (p : gate A) (pre : pydict string)
    (answers : string -> option string) (e : env) : outcome A * list access :=
  match p with
  | Ret a => (Returned a e, [])
  | Vis ev k =>
      match ev in gateE X return (X -> gate A) -> outcome A * list access with
      | StateGet key => fun k =>
          let '(o, l) := run (k (agent_state e !! key)) pre answers e in
          (o, ReadState key :: l)
      | StateSet key value => fun k =>
          let e' := mkEnv (<[key := value]> (agent_state e)) (cancel_tool e) in
          let '(o, l) := run (k tt) pre answers e' in
          (o, WriteState key value :: l)
      | PreApprovedGet tool => fun k =>
          let '(o, l) := run (k (dict_get pre tool)) pre answers e in
          (o, ReadPreApproved tool :: l)
      | InterruptE name reason => fun k =>
          match answers name with
          | Some a =>
              let '(o, l) := run (k a) pre answers e in
              (o, RaisedInterrupt name :: l)
          | None => (Suspended name reason e, [RaisedInterrupt name])
          end
      | CancelTool msg => fun k =>
          let e' := mkEnv (agent_state e) (Some msg) in
          let '(o, l) := run (k tt) pre answers e' in
          (o, SetCancel msg :: l)
      end k
  end.

End Gate.

(** ** The host's liveness signal *)

(** Modelled from the spec: the host runtime ([BedrockAgentCoreApp]) is not
    part of the repository. [add_async_task] registers an asynchronous unit
    of work and returns its identifier, [complete_async_task] marks it
    complete; the process counts as busy while a registered unit is not
    complete. The calls are logged in order. *)
Inductive host_call : Type :=
| AddAsyncTask (name session : string) (task_id : Z)
| CompleteAsyncTask (task_id : Z).

Record Host : Type := mkHost {
  next_task_id : Z;
  host_calls : list host_call
}.

Definition add_async_task (name session : string) (h : Host) : Z * Host :=
  (next_task_id h,
   mkHost (next_task_id h + 1)
          (host_calls h ++ [AddAsyncTask name session (next_task_id h)])).

Definition complete_async_task (task_id : Z) (h : Host) : Host :=
  mkHost (next_task_id h) (host_calls h ++ [CompleteAsyncTask task_id]).

(** How often [complete_async_task] was called for a task. *)
Definition is_completion (task_id : Z) (c : host_call) : bool :=
  match c with
  | CompleteAsyncTask t => Z.eqb t task_id
  | AddAsyncTask _ _ _ => false
  end.

Definition completions (task_id : Z) (h : Host) : nat :=
  length (List.filter (is_completion task_id) (host_calls h)).

(** ** Requests *)

(** The request payload: a field is [None] when the key is absent. *)
Record Payload : Type := mkPayload {
  p_prompt : option string;
  p_interrupt_id : option string;
  p_response : option string;
  p_approver : option string;
  p_reason : option string
}.

(** [datetime.now()] as the code uses it: the ISO text and the epoch seconds. *)
Record Clock : Type := mkClock {
  isoformat : string;
  timestamp : Z
}.

(** What a call of the engine gives: a result, together with the content of
    the handle's scratch area afterwards, or an exception. *)
Inductive engine_run : Type :=
| Yields (state' : gmap string string) (result : AgentResult)
| Raises (e : string).

(** ** Replies *)

(** Replies. The constant text under the key message of the successful
    replies is left out. *)
Inductive error_detail : Type :=
| NoDetail
| PendingList (pending : list Interrupt)
| OneInterrupt (id name : string) (reason : option Reason).

Inductive Reply : Type :=
| ReplyError (error : string) (detail : error_detail)
| ReplyStarted (session_id : string) (task_id : Z)
| ReplyApproved (session_id interrupt_id response : string)
| ReplyRejected (session_id interrupt_id reason : string)
| ReplyResuming (session_id : string) (task_id : Z)
    (pre_approved : option (list string)).

Definition is_error (r : Reply) : bool :=
  match r with
  | ReplyError _ _ => true
  | _ => false
  end.

(** What the engine is called with. *)
Inductive agent_input : Type :=
| Prompt (text : string)
| Responses (responses : list InterruptResponse).

(** [payload.get(key, d)] *)
Definition default_str (d : string) (o : option string) : string :=
  match o with
  | Some s => s
  | None => d
  end.

(** ** The entry point's request *)

(** The payload keys read by [handler] itself, beside those of [Payload];
    [RequestContext] is the transport's context object. *)
Record Request : Type := mkRequest {
  rq_action : option string;
  rq_session_id : option string;
  rq_filter_session_id : option string;
  rq_payload : Payload
}.

Record RequestContext : Type := mkContext {
  ctx_session_id : option string
}.

(** [payload.get("session_id") or context.session_id or str(uuid.uuid4())]:
    the first truthy value, the generated one when neither is. *)
Definition resolve_session_id (rq : Request) (ctx : RequestContext) (uuid : string)
    : string :=
  if truthy_opt (rq_session_id rq) then default_str "" (rq_session_id rq)
  else if truthy_opt (ctx_session_id ctx) then default_str "" (ctx_session_id ctx)
  else uuid.

(** ** Durable mode: [agent.py] *)

Module Durable.
Import Gate.

(** *** The hook *)

Record ApprovalHook : Type := mkHook {
  app_name : string;
  session_id : string;
  pre_approved_tools : pydict string
}.

Definition is_trusted (v : option string) : bool :=
  match v with
  | Some s => String.eqb s "trusted"
  | None => false
  end.

Definition approve (self : ApprovalHook) (event : BeforeToolCallEvent) : gate unit :=
  let tool_name := tool_use_name event in
  if negb (str_in tool_name DANGEROUS_TOOLS) then Ret tt
  else
    let* trusted := trigger (StateGet (trust_key (app_name self) tool_name)) in
    if is_trusted trusted then Ret tt
    else
      let* pre := trigger (PreApprovedGet tool_name) in
      match pre with
      | Some approval => process_approval (app_name self) tool_name approval
      | None =>
          let* approval :=
            trigger (InterruptE (approval_name (app_name self) tool_name)
                                (approval_reason event)) in
          process_approval (app_name self) tool_name approval
      end.

(** The hook run against an engine whose event starts with the tool not
    cancelled. *)
Definition run_hook (self : ApprovalHook) (event : BeforeToolCallEvent)
    (answers : string -> option string) (st : gmap string string)
    : outcome unit * list access :=
  run (approve self event) (pre_approved_tools self) answers (mkEnv st None).

(** The engine handle as far as the orchestrator and the gate see it: the
    hook it was built with and its key-value scratch area. *)
Record Agent : Type := mkAgent {
  hooks : ApprovalHook;
  state : gmap string string
}.

(** *** The table *)

Record SavedState : Type := mkSavedState {
  prompt : string;
  saved_interrupts : list Interrupt
}.

Inductive TaskResult : Type :=
| ResultMessage (msg reason : string)
| ResultError (error : string).

(** Attribute values. The attributes reason, state and result hold
    [json.dumps] of a payload and are only read back through [json.loads];
    the encoded text is represented by the payload it encodes. *)
Inductive attr : Type :=
| AttrS (s : string)
| AttrN (n : Z)
| AttrReason (r : Reason)
| AttrState (s : SavedState)
| AttrResult (r : TaskResult).

(** An item is a map from attribute names to values; the table maps the key
    (session_id, interrupt_id) to its item. *)
Abbreviation item := (gmap string attr).
Abbreviation table := (gmap (string * string) (gmap string attr)).

Definition seven_days : Z := 7 * 86400.

(** [table.put_item]: the item replaces whatever is stored under its key.
    The table refuses an item whose key attribute is the empty string, and
    the closure that made the call then takes its except branch; this
    definition is the accepted write, the one with a non-empty session id
    and a non-empty interrupt id. *)
Definition save_pending_approval (now : Clock) (session_id interrupt_id name : string)
    (reason : Reason) (t : table) : table :=
  <[(session_id, interrupt_id) :=
      <["session_id" := AttrS session_id]>
      (<["interrupt_id" := AttrS interrupt_id]>
      (<["name" := AttrS name]>
      (<["reason" := AttrReason reason]>
      (<["status" := AttrS "pending"]>
      (<["created_at" := AttrS (isoformat now)]>
      (<["ttl" := AttrN (timestamp now + seven_days)]> ∅))))))]> t.

(** [table.update_item] with a SET expression and no condition: the named
    attributes are written into the item with that key, and an item holding
    only the key is created first when there is none. *)
Definition update_approval_status (now : Clock)
    (session_id interrupt_id status response approver : string) (t : table) : table :=
  let old : item :=
    match t !! (session_id, interrupt_id) with
    | Some it => it
    | None => <["session_id" := AttrS session_id]>
              (<["interrupt_id" := AttrS interrupt_id]> ∅)
    end in
  <[(session_id, interrupt_id) :=
      <["status" := AttrS status]>
      (<["response" := AttrS response]>
      (<["approver" := AttrS approver]>
      (<["updated_at" := AttrS (isoformat now)]> old)))]> t.

Definition attr_str (a : option attr) : option string :=
  match a with
  | Some (AttrS s) => Some s
  | _ => None
  end.

Definition get_approval_response (t : table) (session_id interrupt_id : string)
    : option string :=
  match t !! (session_id, interrupt_id) with
  | Some it =>
      match attr_str (it !! "status") with
      | Some s =>
          if str_in s ["approved"; "rejected"] then attr_str (it !! "response")
          else None
      | None => None
      end
  | None => None
  end.

Definition save_agent_result (now : Clock) (session_id : string) (result : TaskResult)
    (t : table) : table :=
  <[(session_id, "__result__") :=
      <["session_id" := AttrS session_id]>
      (<["interrupt_id" := AttrS "__result__"]>
      (<["status" := AttrS "completed"]>
      (<["result" := AttrResult result]>
      (<["created_at" := AttrS (isoformat now)]>
      (<["ttl" := AttrN (timestamp now + seven_days)]> ∅)))))]> t.

(** An item without the attribute is read as [json.loads("{}")], the empty
    dictionary, which every caller treats like [None]; both are [None] here. *)
Definition get_agent_result (t : table) (session_id : string) : option TaskResult :=
  match t !! (session_id, "__result__") with
  | Some it =>
      match it !! "result" with
      | Some (AttrResult r) => Some r
      | _ => None
      end
  | None => None
  end.

Definition save_agent_state (now : Clock) (session_id : string) (st : SavedState)
    (t : table) : table :=
  <[(session_id, "__state__") :=
      <["session_id" := AttrS session_id]>
      (<["interrupt_id" := AttrS "__state__"]>
      (<["status" := AttrS "interrupted"]>
      (<["state" := AttrState st]>
      (<["created_at" := AttrS (isoformat now)]>
      (<["ttl" := AttrN (timestamp now + seven_days)]> ∅)))))]> t.

Definition get_agent_state (t : table) (session_id : string) : option SavedState :=
  match t !! (session_id, "__state__") with
  | Some it =>
      match it !! "state" with
      | Some (AttrState s) => Some s
      | _ => None
      end
  | None => None
  end.

(** *** The orchestrator *)

(** An entry of [session_states]: a dictionary with the key status and,
    depending on the writer, agent and result, or message, or error. *)
Record SessionState : Type := mkSession {
  ss_status : string;
  ss_agent : option Agent;
  ss_result : option AgentResult;
  ss_message : option string;
  ss_error : option string
}.

Definition waiting (agent : Agent) (result : AgentResult) : SessionState :=
  mkSession "waiting_approval" (Some agent) (Some result) None None.

Definition completed (msg : string) : SessionState :=
  mkSession "completed" None None (Some msg) None.

Definition errored (e : string) : SessionState :=
  mkSession "error" None None None (Some e).

Record World : Type := mkWorld {
  tbl : table;
  session_states : gmap string SessionState;
  host : Host
}.

(** The closures handed to [threading.Thread]: the variables they capture. *)
Inductive work : Type :=
| BackgroundWork (session_id prompt : string) (task_id : Z)
| ResumeWorkCold (session_id : string) (pre_approved : pydict string)
    (original_prompt : string) (task_id : Z)
| ResumeWorkFast (session_id : string) (agent : Agent)
    (responses : list InterruptResponse) (task_id : Z).

Definition new_agent (session_id : string) (pre_approved : pydict string) : Agent :=
  mkAgent (mkHook "hitl-demo" session_id pre_approved) ∅.

(** The handle a closure enters and the input it enters it with. *)
Definition engine_entry (wk : work) : Agent * agent_input :=
  match wk with
  | BackgroundWork sid p _ => (new_agent sid [], Prompt p)
  | ResumeWorkCold sid pre p _ => (new_agent sid pre, Prompt p)
  | ResumeWorkFast _ agent responses _ => (agent, Responses responses)
  end.

Definition work_task_id (wk : work) : Z :=
  match wk with
  | BackgroundWork _ _ t => t
  | ResumeWorkCold _ _ _ t => t
  | ResumeWorkFast _ _ _ t => t
  end.

Definition save_interrupts (now : Clock) (sid : string) (ints : list Interrupt)
    (t : table) : table :=
  foldl (fun t i => save_pending_approval now sid (i_id i) (i_name i) (i_reason i) t)
        t ints.

Definition start_agent_task (payload : Payload) (sid : string) (w : World)
    : Reply * World * work :=
  let prompt := default_str "Hello!" (p_prompt payload) in
  let '(task_id, h) := add_async_task "agent_processing" sid (host w) in
  (ReplyStarted sid task_id,
   mkWorld (tbl w) (session_states w) h,
   BackgroundWork sid prompt task_id).

(** The body of [background_work] once the engine call has given [r]; the
    [finally] clause runs on every path. *)
Definition background_work (sid prompt : string) (task_id : Z)
    (r : engine_run) (now : Clock) (w : World) : World :=
  let w1 :=
    match r with
    | Yields st' result =>
        let agent := mkAgent (hooks (new_agent sid [])) st' in
        if String.eqb (stop_reason result) "interrupt" then
          let t1 := save_interrupts now sid (interrupts result) (tbl w) in
          let t2 := save_agent_state now sid
                      (mkSavedState prompt (interrupts result)) t1 in
          mkWorld t2 (<[sid := waiting agent result]> (session_states w)) (host w)
        else
          mkWorld (save_agent_result now sid
                     (ResultMessage (message result) (stop_reason result)) (tbl w))
                  (<[sid := completed (message result)]> (session_states w))
                  (host w)
    | Raises e =>
        mkWorld (save_agent_result now sid (ResultError e) (tbl w))
                (<[sid := errored e]> (session_states w))
                (host w)
    end in
  mkWorld (tbl w1) (session_states w1) (complete_async_task task_id (host w1)).

(** [resume_work] of the cold path. *)
Definition resume_work_cold (sid : string) (pre_approved : pydict string)
    (original_prompt : string) (task_id : Z)
    (r : engine_run) (now : Clock) (w : World) : World :=
  let w1 :=
    match r with
    | Yields st' result =>
        let agent := mkAgent (hooks (new_agent sid pre_approved)) st' in
        if String.eqb (stop_reason result) "interrupt" then
          let t1 := save_interrupts now sid (interrupts result) (tbl w) in
          let t2 := save_agent_state now sid
                      (mkSavedState original_prompt (interrupts result)) t1 in
          mkWorld t2 (<[sid := waiting agent result]> (session_states w)) (host w)
        else
          mkWorld (save_agent_result now sid
                     (ResultMessage (message result) (stop_reason result)) (tbl w))
                  (<[sid := completed (message result)]> (session_states w))
                  (host w)
    | Raises e =>
        mkWorld (save_agent_result now sid (ResultError e) (tbl w))
                (session_states w) (host w)
    end in
  mkWorld (tbl w1) (session_states w1) (complete_async_task task_id (host w1)).

(** [resume_work] of the fast path: the cached handle is entered again. *)
Definition resume_work_fast (sid : string) (agent0 : Agent)
    (responses : list InterruptResponse) (task_id : Z)
    (r : engine_run) (now : Clock) (w : World) : World :=
  let w1 :=
    match r with
    | Yields st' result =>
        let agent := mkAgent (hooks agent0) st' in
        if String.eqb (stop_reason result) "interrupt" then
          let t1 := save_interrupts now sid (interrupts result) (tbl w) in
          mkWorld t1 (<[sid := waiting agent result]> (session_states w)) (host w)
        else
          mkWorld (save_agent_result now sid
                     (ResultMessage (message result) (stop_reason result)) (tbl w))
                  (<[sid := completed (message result)]> (session_states w))
                  (host w)
    | Raises e =>
        mkWorld (save_agent_result now sid (ResultError e) (tbl w))
                (session_states w) (host w)
    end in
  mkWorld (tbl w1) (session_states w1) (complete_async_task task_id (host w1)).

Definition run_work (wk : work) (r : engine_run) (now : Clock) (w : World) : World :=
  match wk with
  | BackgroundWork sid p t => background_work sid p t r now w
  | ResumeWorkCold sid pre p t => resume_work_cold sid pre p t r now w
  | ResumeWorkFast sid agent responses t => resume_work_fast sid agent responses t r now w
  end.

Definition approve_request (sid : string) (payload : Payload) (now : Clock)
    (w : World) : Reply * World :=
  let interrupt_id := p_interrupt_id payload in
  let response := default_str "y" (p_response payload) in
  let approver := default_str "cli" (p_approver payload) in
  match interrupt_id with
  | Some iid =>
      if truthy iid then
        (ReplyApproved sid iid response,
         mkWorld (update_approval_status now sid iid "approved" response approver (tbl w))
                 (session_states w) (host w))
      else (ReplyError "interrupt_id is required" NoDetail, w)
  | None => (ReplyError "interrupt_id is required" NoDetail, w)
  end.

Definition reject_request (sid : string) (payload : Payload) (now : Clock)
    (w : World) : Reply * World :=
  let interrupt_id := p_interrupt_id payload in
  let reason := default_str "User rejected" (p_reason payload) in
  let approver := default_str "cli" (p_approver payload) in
  match interrupt_id with
  | Some iid =>
      if truthy iid then
        (ReplyRejected sid iid reason,
         mkWorld (update_approval_status now sid iid "rejected" "n" approver (tbl w))
                 (session_states w) (host w))
      else (ReplyError "interrupt_id is required" NoDetail, w)
  | None => (ReplyError "interrupt_id is required" NoDetail, w)
  end.

(** [reason.get("tool") if isinstance(reason, dict) else None] *)
Definition reason_tool (r : Reason) : option string :=
  match r with
  | ReasonDict tool _ _ => tool
  | ReasonOther _ => None
  end.

(** One round of the cold path's loop over the saved interrupts: the
    accumulator holds [pre_approved_tools] and [pending_interrupts]. *)
Definition cold_step (t : table) (sid : string)
    (acc : pydict string * list Interrupt) (i : Interrupt)
    : pydict string * list Interrupt :=
  let '(pre, pending) := acc in
  let approval_response := get_approval_response t sid (i_id i) in
  if truthy_opt approval_response then
    let tool_name := reason_tool (i_reason i) in
    if truthy_opt tool_name then
      (dict_set pre (default_str "" tool_name) (default_str "" approval_response),
       pending)
    else (pre, pending)
  else (pre, pending ++ [i]).

Definition cold_scan (t : table) (sid : string) (ints : list Interrupt)
    : pydict string * list Interrupt :=
  foldl (cold_step t sid) ([], []) ints.

(** The fast path's loop: it returns at the first interrupt without a usable
    answer, and otherwise appends one response per interrupt. *)
Fixpoint collect_responses (t : table) (sid : string) (ints : list Interrupt)
    (responses : list InterruptResponse) : Interrupt + list InterruptResponse :=
  match ints with
  | [] => inr responses
  | i :: rest =>
      let approval_response := get_approval_response t sid (i_id i) in
      if negb (truthy_opt approval_response) then inl i
      else collect_responses t sid rest
             (responses ++ [mkInterruptResponse (i_id i) (default_str "" approval_response)])
  end.

(** The reply, the world after the call and the closure started on a
    thread, if one is. *)
Definition resume_agent_task (sid : string) (w : World)
    : Reply * World * option work :=
  match session_states w !! sid with
  | None =>
      match get_agent_state (tbl w) sid with
      | None => (ReplyError ("No pending session found: " +:+ sid) NoDetail, w, None)
      | Some saved_state =>
          let '(pre_approved_tools, pending_interrupts) :=
            cold_scan (tbl w) sid (saved_interrupts saved_state) in
          match pending_interrupts with
          | _ :: _ =>
              (ReplyError "Not all approvals have been responded to"
                          (PendingList pending_interrupts), w, None)
          | [] =>
              let original_prompt := prompt saved_state in
              if negb (truthy original_prompt) then
                (ReplyError "Original prompt not found in saved state" NoDetail, w, None)
              else
                let '(task_id, h) := add_async_task "agent_resume" sid (host w) in
                (ReplyResuming sid task_id (Some (dict_keys pre_approved_tools)),
                 mkWorld (tbl w) (session_states w) h,
                 Some (ResumeWorkCold sid pre_approved_tools original_prompt task_id))
          end
      end
  | Some st =>
      if negb (String.eqb (ss_status st) "waiting_approval") then
        (ReplyError ("Session is not waiting for approval: " +:+ ss_status st) NoDetail,
         w, None)
      else
        match ss_agent st, ss_result st with
        | Some agent, Some prev_result =>
            match collect_responses (tbl w) sid (interrupts prev_result) [] with
            | inl interrupt =>
                (ReplyError ("Approval not found for interrupt: " +:+ i_id interrupt)
                            (OneInterrupt (i_id interrupt) (i_name interrupt)
                                          (Some (i_reason interrupt))), w, None)
            | inr responses =>
                let '(task_id, h) := add_async_task "agent_resume" sid (host w) in
                (ReplyResuming sid task_id None,
                 mkWorld (tbl w) (session_states w) h,
                 Some (ResumeWorkFast sid agent responses task_id))
            end
        | _, _ => (ReplyError "Invalid session state" NoDetail, w, None)
        end
  end.

Inductive StatusReply : Type :=
| StatusOf (session_id status : string) (in_memory : bool)
    (pending : option (list Interrupt))
| StatusError (error : string).

Definition get_status (sid : string) (w : World) : StatusReply :=
  match session_states w !! sid with
  | Some st => StatusOf sid (ss_status st) true None
  | None =>
      match get_agent_state (tbl w) sid with
      | Some saved_state =>
          StatusOf sid "interrupted" false (Some (saved_interrupts saved_state))
      | None =>
          match get_agent_result (tbl w) sid with
          | Some (ResultMessage _ _) => StatusOf sid "completed" false None
          | Some (ResultError _) => StatusOf sid "error" false None
          | None => StatusError ("Session not found: " +:+ sid)
          end
      end
  end.

(** *** Listing, results and the entry point *)

(** [Attr("status").eq("pending")] *)
Definition is_pending (it : item) : bool :=
  match it !! "status" with
  | Some (AttrS s) => String.eqb s "pending"
  | _ => false
  end.

(** [get_pending_approvals]: with a session id, the query on the partition
    key with the filter on status; without one, the query on the index over
    status. The reason of an item comes back decoded and its numbers
    converted from Decimal, which leaves the attribute values as they are
    represented here. The order of the items is the table's and is not
    modelled: the results are read through membership and length. *)
Definition get_pending_approvals (session_id : option string) (t : table) : list item :=
  if truthy_opt session_id then
    snd <$> map_to_list
      (filter (fun kv : string * string * item =>
                 kv.1.1 = default_str "" session_id /\ is_pending kv.2 = true) t)
  else
    snd <$> map_to_list
      (filter (fun kv : string * string * item => is_pending kv.2 = true) t).

Record PendingReply : Type := mkPendingReply {
  pr_pending_approvals : list item;
  pr_count : nat
}.

Definition list_pending_approvals (filter_session_id : option string) (w : World)
    : PendingReply :=
  let items := get_pending_approvals filter_session_id (tbl w) in
  mkPendingReply items (length items).

(** The reply of [get_result]: from the cache (the keys message and error
    only when truthy), from the table, or an error. *)
Inductive ResultReply : Type :=
| ResultCached (session_id status : string) (msg error : option string)
| ResultStored (session_id : string) (result : TaskResult)
| ResultMissing (error : string).

Definition keep_truthy (o : option string) : option string :=
  if truthy_opt o then o else None.

Definition get_result (sid : string) (w : World) : ResultReply :=
  match session_states w !! sid with
  | Some st =>
      ResultCached sid (ss_status st) (keep_truthy (ss_message st))
                   (keep_truthy (ss_error st))
  | None =>
      match get_agent_result (tbl w) sid with
      | Some result => ResultStored sid result
      | None => ResultMissing ("No result found for session: " +:+ sid)
      end
  end.

Inductive Response : Type :=
| RespReply (r : Reply)
| RespPending (r : PendingReply)
| RespResult (r : ResultReply)
| RespStatus (r : StatusReply).

(** [handler]: [uuid] is the value [str(uuid.uuid4())] would give, [now] the
    clock read by approve and reject. *)
Definition handler (rq : Request) (ctx : RequestContext) (uuid : string) (now : Clock)
    (w : World) : Response * World * option work :=
  let action := default_str "start" (rq_action rq) in
  let session_id := resolve_session_id rq ctx uuid in
  if String.eqb action "start" then
    let '(r, w', wk) := start_agent_task (rq_payload rq) session_id w in
    (RespReply r, w', Some wk)
  else if String.eqb action "list_pending" then
    (RespPending (list_pending_approvals (rq_filter_session_id rq) w), w, None)
  else if String.eqb action "approve" then
    let '(r, w') := approve_request session_id (rq_payload rq) now w in
    (RespReply r, w', None)
  else if String.eqb action "reject" then
    let '(r, w') := reject_request session_id (rq_payload rq) now w in
    (RespReply r, w', None)
  else if String.eqb action "resume" then
    let '(r, w', wk) := resume_agent_task session_id w in
    (RespReply r, w', wk)
  else if String.eqb action "result" then
    (RespResult (get_result session_id w), w, None)
  else if String.eqb action "status" then
    (RespStatus (get_status session_id w), w, None)
  else (RespReply (ReplyError ("Unknown action: " +:+ action) NoDetail), w, None).

End Durable.

(** ** Memory-only mode: [agent_without_dynamo.py] *)

Module MemoryOnly.
Import Gate.

(** *** The hook *)

Record ApprovalHook : Type := mkHook {
  app_name : string;
  session_id : string
}.

Definition is_trusted (v : option string) : bool :=
  match v with
  | Some s => String.eqb s "trusted"
  | None => false
  end.

Definition approve (self : ApprovalHook) (event : BeforeToolCallEvent) : gate unit :=
  let tool_name := tool_use_name event in
  if negb (str_in tool_name DANGEROUS_TOOLS) then Ret tt
  else
    let* trusted := trigger (StateGet (trust_key (app_name self) tool_name)) in
    if is_trusted trusted then Ret tt
    else
      let* approval :=
        trigger (InterruptE (approval_name (app_name self) tool_name)
                            (approval_reason event)) in
      process_approval (app_name self) tool_name approval.

(** This hook has no pre-approved answers: the map handed to [run] is empty
    and the body never asks for it. *)
Definition run_hook (self : ApprovalHook) (event : BeforeToolCallEvent)
    (answers : string -> option string) (st : gmap string string)
    : outcome unit * list access :=
  run (approve self event) [] answers (mkEnv st None).

Record Agent : Type := mkAgent {
  hooks : ApprovalHook;
  state : gmap string string
}.

(** *** The in-memory stores *)

(** An entry of a session's list in [pending_approvals]. The last four keys
    are absent until approve or reject writes them. *)
Record Approval : Type := mkApproval {
  a_session_id : string;
  a_interrupt_id : string;
  a_name : string;
  a_reason : Reason;
  a_status : string;
  a_created_at : string;
  a_response : option string;
  a_approver : option string;
  a_rejection_reason : option string;
  a_updated_at : option string
}.

Definition pending_of (now : Clock) (sid : string) (i : Interrupt) : Approval :=
  mkApproval sid (i_id i) (i_name i) (i_reason i) "pending" (isoformat now)
             None None None None.

Record SessionState : Type := mkSession {
  ss_status : string;
  ss_agent : option Agent;
  ss_result : option AgentResult;
  ss_message : option string;
  ss_error : option string;
  ss_prompt : option string;
  ss_task_id : option Z
}.

Definition waiting (agent : Agent) (result : AgentResult) (prompt : option string)
    (task_id : Z) : SessionState :=
  mkSession "waiting_approval" (Some agent) (Some result) None None prompt (Some task_id).

Definition completed (msg : string) : SessionState :=
  mkSession "completed" None None (Some msg) None None None.

Definition errored (e : string) : SessionState :=
  mkSession "error" None None None (Some e) None None.

Record World : Type := mkWorld {
  session_states : gmap string SessionState;
  pending_approvals : gmap string (list Approval);
  host : Host
}.

(** [pending_approvals.get(session_id, [])] *)
Definition approvals_of (w : World) (sid : string) : list Approval :=
  match pending_approvals w !! sid with
  | Some l => l
  | None => []
  end.

(** The loop of approve and reject: the first entry with the interrupt id is
    rewritten in place; [None] when the loop ends with [found] still false. *)
Fixpoint update_first (f : Approval -> Approval) (interrupt_id : string)
    (l : list Approval) : option (list Approval) :=
  match l with
  | [] => None
  | a :: rest =>
      if String.eqb (a_interrupt_id a) interrupt_id then Some (f a :: rest)
      else
        match update_first f interrupt_id rest with
        | Some rest' => Some (a :: rest')
        | None => None
        end
  end.

Definition set_approved (now : Clock) (response approver : string) (a : Approval)
    : Approval :=
  mkApproval (a_session_id a) (a_interrupt_id a) (a_name a) (a_reason a)
             "approved" (a_created_at a)
             (Some response) (Some approver) (a_rejection_reason a)
             (Some (isoformat now)).

Definition set_rejected (now : Clock) (reason approver : string) (a : Approval)
    : Approval :=
  mkApproval (a_session_id a) (a_interrupt_id a) (a_name a) (a_reason a)
             "rejected" (a_created_at a)
             (Some "n") (Some approver) (Some reason)
             (Some (isoformat now)).

(** The list is mutated in place, so the entry of [pending_approvals] exists
    whenever an element was found. *)
Definition approve_request (sid : string) (payload : Payload) (now : Clock)
    (w : World) : Reply * World :=
  let interrupt_id := p_interrupt_id payload in
  let response := default_str "y" (p_response payload) in
  let approver := default_str "cli" (p_approver payload) in
  match interrupt_id with
  | Some iid =>
      if truthy iid then
        match update_first (set_approved now response approver) iid (approvals_of w sid) with
        | Some l' =>
            (ReplyApproved sid iid response,
             mkWorld (session_states w) (<[sid := l']> (pending_approvals w)) (host w))
        | None => (ReplyError ("Approval not found: " +:+ iid) NoDetail, w)
        end
      else (ReplyError "interrupt_id is required" NoDetail, w)
  | None => (ReplyError "interrupt_id is required" NoDetail, w)
  end.

Definition reject_request (sid : string) (payload : Payload) (now : Clock)
    (w : World) : Reply * World :=
  let interrupt_id := p_interrupt_id payload in
  let reason := default_str "User rejected" (p_reason payload) in
  let approver := default_str "cli" (p_approver payload) in
  match interrupt_id with
  | Some iid =>
      if truthy iid then
        match update_first (set_rejected now reason approver) iid (approvals_of w sid) with
        | Some l' =>
            (ReplyRejected sid iid reason,
             mkWorld (session_states w) (<[sid := l']> (pending_approvals w)) (host w))
        | None => (ReplyError ("Approval not found: " +:+ iid) NoDetail, w)
        end
      else (ReplyError "interrupt_id is required" NoDetail, w)
  | None => (ReplyError "interrupt_id is required" NoDetail, w)
  end.

(** *** The orchestrator *)

Inductive work : Type :=
| BackgroundWork (session_id prompt : string) (task_id : Z)
| ResumeWork (session_id : string) (agent : Agent)
    (responses : list InterruptResponse) (prompt : option string) (task_id : Z).

Definition new_agent (session_id : string) : Agent :=
  mkAgent (mkHook "hitl-demo" session_id) ∅.

Definition engine_entry (wk : work) : Agent * agent_input :=
  match wk with
  | BackgroundWork sid p _ => (new_agent sid, Prompt p)
  | ResumeWork _ agent responses _ _ => (agent, Responses responses)
  end.

(** [pending_approvals.setdefault(session_id, []).append(...)], once for
    each interrupt of the result. *)
Definition append_pending (now : Clock) (sid : string) (ints : list Interrupt)
    (m : gmap string (list Approval)) : gmap string (list Approval) :=
  foldl (fun m i =>
           <[sid := match m !! sid with Some l => l | None => [] end
                    ++ [pending_of now sid i]]> m)
        m ints.

Definition start_agent_task (payload : Payload) (sid : string) (w : World)
    : Reply * World * work :=
  let prompt := default_str "Hello!" (p_prompt payload) in
  let '(task_id, h) := add_async_task "agent_processing" sid (host w) in
  (ReplyStarted sid task_id,
   mkWorld (session_states w) (pending_approvals w) h,
   BackgroundWork sid prompt task_id).

(** The [finally] clause of both closures: the completion is signalled
    unless [interrupt_occurred] was set. *)
Definition finally_complete (interrupt_occurred : bool) (task_id : Z) (w : World)
    : World :=
  if negb interrupt_occurred then
    mkWorld (session_states w) (pending_approvals w)
            (complete_async_task task_id (host w))
  else w.

(** The part of both closures after the engine call; [prompt] is what is
    stored under the key prompt of the new session state. The first
    component is [interrupt_occurred]. *)
Definition after_run (sid : string) (agent0 : Agent) (prompt : option string)
    (task_id : Z) (r : engine_run) (now : Clock) (w : World) : bool * World :=
  match r with
  | Yields st' result =>
      let agent := mkAgent (hooks agent0) st' in
      if String.eqb (stop_reason result) "interrupt" then
        (true,
         mkWorld (<[sid := waiting agent result prompt task_id]> (session_states w))
                 (append_pending now sid (interrupts result) (pending_approvals w))
                 (host w))
      else
        (false,
         mkWorld (<[sid := completed (message result)]> (session_states w))
                 (delete sid (pending_approvals w))
                 (host w))
  | Raises e =>
      (false,
       mkWorld (<[sid := errored e]> (session_states w)) (pending_approvals w) (host w))
  end.

Definition background_work (sid prompt : string) (task_id : Z)
    (r : engine_run) (now : Clock) (w : World) : World :=
  let '(interrupt_occurred, w1) :=
    after_run sid (new_agent sid) (Some prompt) task_id r now w in
  finally_complete interrupt_occurred task_id w1.

Definition resume_work (sid : string) (agent : Agent)
    (responses : list InterruptResponse) (prompt : option string) (task_id : Z)
    (r : engine_run) (now : Clock) (w : World) : World :=
  let '(interrupt_occurred, w1) := after_run sid agent prompt task_id r now w in
  finally_complete interrupt_occurred task_id w1.

Definition run_work (wk : work) (r : engine_run) (now : Clock) (w : World) : World :=
  match wk with
  | BackgroundWork sid p t => background_work sid p t r now w
  | ResumeWork sid agent responses p t => resume_work sid agent responses p t r now w
  end.

Definition work_task_id (wk : work) : Z :=
  match wk with
  | BackgroundWork _ _ t => t
  | ResumeWork _ _ _ _ t => t
  end.

(** The inner loop of resume: the response of the first entry with this
    interrupt id and a terminal status. *)
Fixpoint find_response (l : list Approval) (interrupt_id : string) : option string :=
  match l with
  | [] => None
  | a :: rest =>
      if String.eqb (a_interrupt_id a) interrupt_id
         && str_in (a_status a) ["approved"; "rejected"]
      then a_response a
      else find_response rest interrupt_id
  end.

Fixpoint collect_responses (l : list Approval) (ints : list Interrupt)
    (responses : list InterruptResponse) : Interrupt + list InterruptResponse :=
  match ints with
  | [] => inr responses
  | i :: rest =>
      let approval_response := find_response l (i_id i) in
      if negb (truthy_opt approval_response) then inl i
      else collect_responses l rest
             (responses ++ [mkInterruptResponse (i_id i) (default_str "" approval_response)])
  end.

(** [if not task_id]: an absent key and the number 0 are falsy. *)
Definition truthy_task (t : option Z) : bool :=
  match t with
  | Some n => negb (n =? 0)
  | None => false
  end.

Definition resume_agent_task (sid : string) (w : World)
    : Reply * World * option work :=
  match session_states w !! sid with
  | None =>
      (ReplyError ("No session found: " +:+ sid
                   +:+ ". Session may have expired or container restarted.") NoDetail,
       w, None)
  | Some st =>
      if negb (String.eqb (ss_status st) "waiting_approval") then
        (ReplyError ("Session is not waiting for approval: " +:+ ss_status st) NoDetail,
         w, None)
      else
        match ss_agent st, ss_result st with
        | Some agent, Some prev_result =>
            match collect_responses (approvals_of w sid) (interrupts prev_result) [] with
            | inl interrupt =>
                (ReplyError ("Approval not found for interrupt: " +:+ i_id interrupt)
                            (OneInterrupt (i_id interrupt) (i_name interrupt) None),
                 w, None)
            | inr responses =>
                match ss_task_id st with
                | Some task_id =>
                    if truthy_task (ss_task_id st) then
                      (ReplyResuming sid task_id None, w,
                       Some (ResumeWork sid agent responses (ss_prompt st) task_id))
                    else (ReplyError "No task_id found in session state" NoDetail, w, None)
                | None => (ReplyError "No task_id found in session state" NoDetail, w, None)
                end
            end
        | _, _ =>
            (ReplyError "Invalid session state: agent or result missing" NoDetail, w, None)
        end
  end.

Inductive StatusReply : Type :=
| StatusOf (session_id status : string) (has_agent : bool)
| StatusError (error : string).

Definition get_status (sid : string) (w : World) : StatusReply :=
  match session_states w !! sid with
  | Some st =>
      StatusOf sid (ss_status st)
               (match ss_agent st with Some _ => true | None => false end)
  | None =>
      StatusError ("Session not found: " +:+ sid
                   +:+ ". Session may have expired or container restarted.")
  end.

(** *** Listing, results and the entry point *)

Definition is_pending (a : Approval) : bool := String.eqb (a_status a) "pending".

(** [list_pending_approvals_handler]: with a session id, the pending entries
    of that session's list, in order; without one, those of every session.
    The order in which the sessions follow each other is the dictionary's
    and is not modelled. *)
Definition pending_items (filter_session_id : option string) (w : World)
    : list Approval :=
  if truthy_opt filter_session_id then
    List.filter is_pending (approvals_of w (default_str "" filter_session_id))
  else
    concat (map (fun kv : string * list Approval => List.filter is_pending kv.2)
                (map_to_list (pending_approvals w))).

Record PendingReply : Type := mkPendingReply {
  pr_pending_approvals : list Approval;
  pr_count : nat
}.

Definition list_pending_approvals_handler (filter_session_id : option string)
    (w : World) : PendingReply :=
  let items := pending_items filter_session_id w in
  mkPendingReply items (length items).

Inductive ResultReply : Type :=
| ResultCached (session_id status : string) (msg error : option string)
| ResultMissing (error : string).

Definition keep_truthy (o : option string) : option string :=
  if truthy_opt o then o else None.

Definition get_result (sid : string) (w : World) : ResultReply :=
  match session_states w !! sid with
  | Some st =>
      ResultCached sid (ss_status st) (keep_truthy (ss_message st))
                   (keep_truthy (ss_error st))
  | None =>
      ResultMissing ("No result found for session: " +:+ sid
                     +:+ ". Session may have expired or container restarted.")
  end.

Inductive Response : Type :=
| RespReply (r : Reply)
| RespPending (r : PendingReply)
| RespResult (r : ResultReply)
| RespStatus (r : StatusReply).

Definition handler (rq : Request) (ctx : RequestContext) (uuid : string) (now : Clock)
    (w : World) : Response * World * option work :=
  let action := default_str "start" (rq_action rq) in
  let session_id := resolve_session_id rq ctx uuid in
  if String.eqb action "start" then
    let '(r, w', wk) := start_agent_task (rq_payload rq) session_id w in
    (RespReply r, w', Some wk)
  else if String.eqb action "list_pending" then
    (RespPending (list_pending_approvals_handler (rq_filter_session_id rq) w), w, None)
  else if String.eqb action "approve" then
    let '(r, w') := approve_request session_id (rq_payload rq) now w in
    (RespReply r, w', None)
  else if String.eqb action "reject" then
    let '(r, w') := reject_request session_id (rq_payload rq) now w in
    (RespReply r, w', None)
  else if String.eqb action "resume" then
    let '(r, w', wk) := resume_agent_task session_id w in
    (RespReply r, w', wk)
  else if String.eqb action "result" then
    (RespResult (get_result session_id w), w, None)
  else if String.eqb action "status" then
    (RespStatus (get_status session_id w), w, None)
  else (RespReply (ReplyError ("Unknown action: " +:+ action) NoDetail), w, None).

End MemoryOnly.

(** * Vocabulary of the properties *)

Module GateSpec.
Import Gate.

(** The three verdicts of the gate on an event that starts with trust state
    [st] and the tool not cancelled. *)
Definition trusts_and_allows (app tool : string) (st : gmap string string)
    (o : outcome unit) : Prop :=
  o = Returned tt (mkEnv (<[trust_key app tool := "trusted"]> st) None).

Definition denies (tool : string) (st : gmap string string) (o : outcome unit) : Prop :=
  o = Returned tt (mkEnv st (Some (denied_message tool))).

Definition allows_once (st : gmap string string) (o : outcome unit) : Prop :=
  o = Returned tt (mkEnv st None).

(** The operation is gated: risky and not yet trusted. *)
Definition gated (app : string) (event : BeforeToolCallEvent)
    (st : gmap string string) : Prop :=
  In (tool_use_name event) DANGEROUS_TOOLS /\
  st !! trust_key app (tool_use_name event) <> Some "trusted".

(** Where the answer [a] to the durable hook comes from: the pre-approved
    map, or else the response the engine holds for the interrupt. *)
Definition answered_with (self : Durable.ApprovalHook) (event : BeforeToolCallEvent)
    (answers : string -> option string) (a : string) : Prop :=
  dict_get (Durable.pre_approved_tools self) (tool_use_name event) = Some a \/
  (dict_get (Durable.pre_approved_tools self) (tool_use_name event) = None /\
   answers (approval_name (Durable.app_name self) (tool_use_name event)) = Some a).

End GateSpec.

(** Reading a stored PendingApproval. *)
Module StoreSpec.

(** The three attributes an answer writes, as stored in the durable item. *)
Definition stored_answer (t : Durable.table) (sid iid : string)
    : option (option string * option string * option string) :=
  match t !! (sid, iid) with
  | Some it =>
      Some (Durable.attr_str (it !! "status"),
            Durable.attr_str (it !! "response"),
            Durable.attr_str (it !! "approver"))
  | None => None
  end.

(** The entry that approve and reject of the memory-only mode act on: the
    first of the session's list with the interrupt id. *)
Definition first_match (l : list MemoryOnly.Approval) (iid : string)
    : option MemoryOnly.Approval :=
  List.find (fun a => String.eqb (MemoryOnly.a_interrupt_id a) iid) l.

Definition memory_answer (w : MemoryOnly.World) (sid iid : string)
    : option (string * option string * option string) :=
  match first_match (MemoryOnly.approvals_of w sid) iid with
  | Some a =>
      Some (MemoryOnly.a_status a, MemoryOnly.a_response a, MemoryOnly.a_approver a)
  | None => None
  end.

End StoreSpec.

(** Concrete requests and engine results used in the examples. *)
Module Examples.

Definition clock0 : Clock := mkClock "2025-01-01T00:00:00" 1735689600.
Definition clock1 : Clock := mkClock "2025-01-01T00:05:00" 1735689900.
Definition host0 : Host := mkHost 1 [].

Definition delete_reason : Reason :=
  ReasonDict (Some "delete_files") "{paths: [/tmp/x]}"
             "Tool 'delete_files' requires human approval before execution".

Definition command_reason : Reason :=
  ReasonDict (Some "execute_command") "{command: ls}"
             "Tool 'execute_command' requires human approval before execution".

Definition i1 : Interrupt := mkInterrupt "i1" "hitl-demo-delete_files-approval" delete_reason.
Definition i2 : Interrupt := mkInterrupt "i2" "hitl-demo-execute_command-approval" command_reason.


Definition suspended_on (ints : list Interrupt) : engine_run :=
  Yields ∅ (mkAgentResult "interrupt" ints "").

Definition finished : engine_run :=
  Yields ∅ (mkAgentResult "end_turn" [] "done").

Definition start_payload (p : string) : Payload :=
  mkPayload (Some p) None None None None.

Definition approve_payload (iid r who : string) : Payload :=
  mkPayload None (Some iid) (Some r) (Some who) None.

Definition reject_payload (iid why who : string) : Payload :=
  mkPayload None (Some iid) None (Some who) (Some why).

(** Durable mode: a task is started and its first run suspends on [ints]. *)
Definition durable_suspended (p : string) (ints : list Interrupt) : Durable.World :=
  let '(_, w, wk) :=
    Durable.start_agent_task (start_payload p) "s1" (Durable.mkWorld ∅ ∅ host0) in
  Durable.run_work wk (suspended_on ints) clock0 w.

(** The process is replaced: the table stays, the memory cache is empty. *)
Definition restart (w : Durable.World) : Durable.World :=
  Durable.mkWorld (Durable.tbl w) ∅ host0.

(** Memory-only mode: the same start. *)
Definition memory_suspended (p : string) (ints : list Interrupt) : MemoryOnly.World :=
  let '(_, w, wk) :=
    MemoryOnly.start_agent_task (start_payload p) "s1" (MemoryOnly.mkWorld ∅ ∅ host0) in
  MemoryOnly.run_work wk (suspended_on ints) clock0 w.

End Examples.

(** Vocabulary of the resume properties. *)
Module ResumeSpec.

(** Durable mode: the interrupt has a PendingApproval in a terminal status. *)
Definition has_terminal_approval (t : Durable.table) (sid iid : string) : bool :=
  match t !! (sid, iid) with
  | Some it =>
      match Durable.attr_str (it !! "status") with
      | Some s => str_in s ["approved"; "rejected"]
      | None => false
      end
  | None => false
  end.

(** Durable mode: resume finds an answer it can use for the interrupt. *)
Definition usable_answer (t : Durable.table) (sid iid : string) : bool :=
  truthy_opt (Durable.get_approval_response t sid iid).

(** Durable mode: the suspension on record for a session, which is what a
    resume call reads: the interrupts of the cached result when the session
    is cached with its handle and waiting, those of the stored
    ResumableState when the session is not cached. The stored record is
    written by the initial closure and by the cold-path closure, not by the
    fast-path closure, so for a session that is not cached it is the
    suspension of the latest initial or cold-path run. *)
Definition recorded_suspension (w : Durable.World) (sid : string) : option (list Interrupt) :=
  match Durable.session_states w !! sid with
  | Some st =>
      if String.eqb (Durable.ss_status st) "waiting_approval" then
        match Durable.ss_agent st, Durable.ss_result st with
        | Some _, Some res => Some (interrupts res)
        | _, _ => None
        end
      else None
  | None =>
      match Durable.get_agent_state (Durable.tbl w) sid with
      | Some saved => Some (Durable.saved_interrupts saved)
      | None => None
      end
  end.

(** Memory-only mode: the same notions over a session's list. *)
Definition mem_has_terminal_approval (l : list MemoryOnly.Approval) (iid : string) : bool :=
  existsb (fun a => String.eqb (MemoryOnly.a_interrupt_id a) iid
                    && str_in (MemoryOnly.a_status a) ["approved"; "rejected"]) l.

Definition mem_usable_answer (l : list MemoryOnly.Approval) (iid : string) : bool :=
  truthy_opt (MemoryOnly.find_response l iid).

Definition mem_active_suspension (w : MemoryOnly.World) (sid : string)
    : option (list Interrupt) :=
  match MemoryOnly.session_states w !! sid with
  | Some st =>
      if String.eqb (MemoryOnly.ss_status st) "waiting_approval" then
        match MemoryOnly.ss_agent st, MemoryOnly.ss_result st with
        | Some _, Some res => Some (interrupts res)
        | _, _ => None
        end
      else None
  | None => None
  end.

(** The interrupt's reason names the operation [tool]. *)
Definition names_tool (tool : string) (i : Interrupt) : bool :=
  match Durable.reason_tool (i_reason i) with
  | Some tn => String.eqb tn tool
  | None => false
  end.

(** The recorded answer of the last interrupt of [ints] whose reason names
    the operation [tool]. *)
Definition last_answer_for (t : Durable.table) (sid : string) (ints : list Interrupt)
    (tool : string) : option string :=
  match List.find (names_tool tool) (rev ints) with
  | Some i => Durable.get_approval_response t sid (i_id i)
  | None => None
  end.

(** The interrupts an error reply names. *)
Definition named (d : error_detail) : list string :=
  match d with
  | NoDetail => []
  | PendingList pending => map i_id pending
  | OneInterrupt id _ _ => [id]
  end.

(** The interrupts of a suspension for which resume finds no usable answer,
    in the order of the suspension. *)
Definition unanswered (t : Durable.table) (sid : string) (ints : list Interrupt)
    : list Interrupt :=
  List.filter (fun i => negb (usable_answer t sid (i_id i))) ints.

Definition mem_unanswered (l : list MemoryOnly.Approval) (ints : list Interrupt)
    : list Interrupt :=
  List.filter (fun i => negb (mem_usable_answer l (i_id i))) ints.

(** The run of a closure ends in a suspension. *)
Definition suspends (r : engine_run) : bool :=
  match r with
  | Yields _ result => String.eqb (stop_reason result) "interrupt"
  | Raises _ => false
  end.

End ResumeSpec.

(** Vocabulary of the further properties. *)
Module MoreSpec.
Import Gate.

(** The hook raised an interrupt during the run. *)
Definition interrupt_raised (l : list access) : bool :=
  existsb (fun a => match a with RaisedInterrupt _ => true | _ => false end) l.

(** The trust state a run of a hook ends with. *)
Definition final_state {A} (o : outcome A) : gmap string string :=
  match o with
  | Returned _ e => agent_state e
  | Suspended _ _ e => agent_state e
  end.

(** The interrupt id attribute of a stored item. *)
Definition item_interrupt_id (it : gmap string Durable.attr) : option string :=
  Durable.attr_str (it !! "interrupt_id").

Definition item_session_id (it : gmap string Durable.attr) : option string :=
  Durable.attr_str (it !! "session_id").

(** An attribute of the item stored under a key, if both exist. *)
Definition stored_attr (t : Durable.table) (sid iid a : string) : option Durable.attr :=
  match t !! (sid, iid) with
  | Some it => it !! a
  | None => None
  end.

(** The session a durable closure works for. *)
Definition work_session (wk : Durable.work) : string :=
  match wk with
  | Durable.BackgroundWork sid _ _ => sid
  | Durable.ResumeWorkCold sid _ _ _ => sid
  | Durable.ResumeWorkFast sid _ _ _ => sid
  end.

Definition mem_work_session (wk : MemoryOnly.work) : string :=
  match wk with
  | MemoryOnly.BackgroundWork sid _ _ => sid
  | MemoryOnly.ResumeWork sid _ _ _ _ => sid
  end.

(** The key of an item passes the session filter of a listing. *)
Definition session_matches (f : option string) (k : string * string) : Prop :=
  truthy_opt f = true -> k.1 = default_str "" f.

(** The responses the fast path hands to the engine for a suspension. *)
Definition responses_for (t : Durable.table) (sid : string) (ints : list Interrupt)
    : list InterruptResponse :=
  map (fun i => mkInterruptResponse (i_id i)
                  (default_str "" (Durable.get_approval_response t sid (i_id i)))) ints.

Definition mem_responses_for (l : list MemoryOnly.Approval) (ints : list Interrupt)
    : list InterruptResponse :=
  map (fun i => mkInterruptResponse (i_id i)
                  (default_str "" (MemoryOnly.find_response l (i_id i)))) ints.

End MoreSpec.

(** * Properties *)

(** ** Strings and dictionaries *)

Lemma str_in_In (x : string) (xs : list string) : str_in x xs = true <-> In x xs.
Proof.
  unfold str_in. rewrite existsb_exists. split.
  - intros [y [Hy Heq]]. apply String.eqb_eq in Heq. by subst.
  - intros Hx. exists x. split; [done | apply String.eqb_refl].
Qed.

Lemma str_in_false (x : string) (xs : list string) : str_in x xs = false <-> ~ In x xs.
Proof.
  rewrite <- str_in_In. destruct (str_in x xs); split; congruence.
Qed.

Lemma lower_char_t (c : ascii) :
  lower_char c = "t"%char -> c = "t"%char \/ c = "T"%char.
Proof.
  destruct c as [[] [] [] [] [] [] [] []]; vm_compute; intros H;
    first [discriminate H | by left | by right].
Qed.

Lemma lower_char_y (c : ascii) :
  lower_char c = "y"%char -> c = "y"%char \/ c = "Y"%char.
Proof.
  destruct c as [[] [] [] [] [] [] [] []]; vm_compute; intros H;
    first [discriminate H | by left | by right].
Qed.

Lemma lower_is_t (a : string) : lower a = "t" <-> a = "t" \/ a = "T".
Proof.
  split.
  - destruct a as [|c [|c' a']]; simpl; intros H; try discriminate H.
    injection H as H. destruct (lower_char_t c H); subst; auto.
  - intros [-> | ->]; reflexivity.
Qed.

Lemma lower_is_y (a : string) : lower a = "y" <-> a = "y" \/ a = "Y".
Proof.
  split.
  - destruct a as [|c [|c' a']]; simpl; intros H; try discriminate H.
    injection H as H. destruct (lower_char_y c H); subst; auto.
  - intros [-> | ->]; reflexivity.
Qed.

Lemma truthy_opt_Some (o : option string) :
  truthy_opt o = true -> exists s, o = Some s /\ s <> "".
Proof.
  destruct o as [s|]; simpl; [|discriminate]. unfold truthy.
  destruct (String.eqb_spec s ""); simpl; [discriminate|]. eauto.
Qed.

(** ** The approval gate *)

Section GateProperties.
Import Gate GateSpec.

Lemma is_trusted_false (v : option string) :
  v <> Some "trusted" -> Durable.is_trusted v = false.
Proof.
  destruct v as [s|]; simpl; [|done]. intros H.
  destruct (String.eqb_spec s "trusted"); [subst; congruence | done].
Qed.

Lemma process_approval_run (app tool a : string) pre answers (e : env) :
  fst (run (process_approval app tool a) pre answers e) =
  if String.eqb (lower a) "t" then
    Returned tt (mkEnv (<[trust_key app tool := "trusted"]> (agent_state e)) (cancel_tool e))
  else if String.eqb (lower a) "y" then Returned tt e
  else Returned tt (mkEnv (agent_state e) (Some (denied_message tool))).
Proof.
  unfold process_approval.
  destruct (String.eqb (lower a) "t"); [reflexivity|].
  destruct (String.eqb (lower a) "y"); reflexivity.
Qed.

Lemma durable_hook_answered self event answers st a :
  gated (Durable.app_name self) event st ->
  answered_with self event answers a ->
  fst (Durable.run_hook self event answers st) =
  fst (run (process_approval (Durable.app_name self) (tool_use_name event) a)
           (Durable.pre_approved_tools self) answers (mkEnv st None)).
Proof.
  intros [Hin Hst] Hsrc. apply str_in_In in Hin. apply is_trusted_false in Hst.
  unfold Durable.run_hook, Durable.approve. rewrite Hin. cbn.
  rewrite Hst.
  destruct Hsrc as [Hpre | [Hpre Hans]]; cbn; rewrite Hpre.
  - destruct (run _ _ _ _); reflexivity.
  - cbn. rewrite Hans. destruct (run _ _ _ _); reflexivity.
Qed.

Lemma memory_hook_answered self event answers st a :
  gated (MemoryOnly.app_name self) event st ->
  answers (approval_name (MemoryOnly.app_name self) (tool_use_name event)) = Some a ->
  fst (MemoryOnly.run_hook self event answers st) =
  fst (run (process_approval (MemoryOnly.app_name self) (tool_use_name event) a)
           [] answers (mkEnv st None)).
Proof.
  intros [Hin Hst] Hans. apply str_in_In in Hin. apply is_trusted_false in Hst.
  unfold MemoryOnly.run_hook, MemoryOnly.approve. rewrite Hin. cbn.
  change (MemoryOnly.is_trusted ?x) with (Durable.is_trusted x). rewrite Hst.
  cbn. rewrite Hans. destruct (run _ _ _ _); reflexivity.
Qed.

Lemma verdicts (app tool a : string) pre answers (st : gmap string string) :
  let o := fst (run (process_approval app tool a) pre answers (mkEnv st None)) in
  (lower a = "t" -> trusts_and_allows app tool st o) /\
  (lower a <> "t" -> lower a <> "y" -> denies tool st o) /\
  (lower a = "y" -> allows_once st o).
Proof.
  cbn zeta. rewrite process_approval_run.
  unfold trusts_and_allows, denies, allows_once.
  destruct (String.eqb_spec (lower a) "t") as [Ht|Ht];
    destruct (String.eqb_spec (lower a) "y") as [Hy|Hy]; cbn;
    repeat split; intros; try congruence.
Qed.

End GateProperties.

Section GateTheorems.
Import Gate GateSpec.

(** C7: for an operation name outside the configured risky set, the hook
    body is the empty program: it asks nothing of the engine, so it does not
    suspend, does not read or write the trust cache and does not look into
    the pre-approved answers; run against any engine it returns at once with
    the trust state and the cancellation flag as they were. Both hooks. *)
Theorem ungated_tool_passes :
  forall (dself : Durable.ApprovalHook) (mself : MemoryOnly.ApprovalHook)
         (event : BeforeToolCallEvent) (pre : pydict string)
         (answers : string -> option string) (e : env),
    ~ In (tool_use_name event) DANGEROUS_TOOLS ->
    Durable.approve dself event = Ret tt /\
    MemoryOnly.approve mself event = Ret tt /\
    run (Durable.approve dself event) pre answers e = (Returned tt e, []) /\
    run (MemoryOnly.approve mself event) pre answers e = (Returned tt e, []).
Proof.
  intros dself mself event pre answers e Hout.
  apply str_in_false in Hout.
  unfold Durable.approve, MemoryOnly.approve. rewrite Hout. cbn. auto.
Qed.

Lemma ungated_tool_passes_witness :
  ~ In "list_files" DANGEROUS_TOOLS /\
  Durable.approve (Durable.mkHook "hitl-demo" "s1" [("list_files", "n")])
                  (mkEvent "list_files" "{}") = Ret tt.
Proof.
  assert (Hout : ~ In (tool_use_name (mkEvent "list_files" "{}")) DANGEROUS_TOOLS).
  { apply str_in_false. reflexivity. }
  split; [exact Hout|].
  exact (proj1 (ungated_tool_passes
                  (Durable.mkHook "hitl-demo" "s1" [("list_files", "n")])
                  (MemoryOnly.mkHook "hitl-demo" "s1")
                  (mkEvent "list_files" "{}") [] (fun _ => None) (mkEnv ∅ None) Hout)).
Defined.

(** C3, as stated, fails: the answer Y is neither y nor t, and the gate does
    not deny the operation: it allows it once. *)
Lemma gate_uppercase_answer_not_denied :
  let self := Durable.mkHook "hitl-demo" "s1" [] in
  let event := mkEvent "delete_files" "{}" in
  let answers := fun _ : string => Some "Y" in
  let o := fst (Durable.run_hook self event answers ∅) in
  "Y" <> "y" /\ "Y" <> "t" /\
  gated "hitl-demo" event ∅ /\
  answered_with self event answers "Y" /\
  allows_once ∅ o /\ ~ denies "delete_files" ∅ o.
Proof.
  cbv zeta. split; [discriminate|]. split; [discriminate|].
  split; [split; [simpl; auto | rewrite lookup_empty; discriminate]|].
  split; [right; split; reflexivity|].
  split; [reflexivity|].
  unfold denies. intros H. vm_compute in H. discriminate H.
Qed.

(** C3 (amended): for a gated risky operation, an answer whose lower-casing
    is t makes the gate mark (scope, op) trusted and allow the operation; an
    answer whose lower-casing is neither y nor t makes it deny exactly that
    occurrence, cancelling the tool with a message that names the operation
    and leaving the trust state alone; an answer whose lower-casing is y
    makes it allow exactly that occurrence without marking trust. This holds
    when the answer comes from the pre-approved map and when it comes from
    the interrupt, for the durable hook and for the memory-only hook. *)
Theorem gate_answer_verdicts :
  forall (self : Durable.ApprovalHook) (mself : MemoryOnly.ApprovalHook)
         (event : BeforeToolCallEvent) (answers : string -> option string)
         (st : gmap string string) (a : string),
    (gated (Durable.app_name self) event st ->
     answered_with self event answers a ->
     let o := fst (Durable.run_hook self event answers st) in
     (lower a = "t" ->
      trusts_and_allows (Durable.app_name self) (tool_use_name event) st o) /\
     (lower a <> "t" -> lower a <> "y" -> denies (tool_use_name event) st o) /\
     (lower a = "y" -> allows_once st o)) /\
    (gated (MemoryOnly.app_name mself) event st ->
     answers (approval_name (MemoryOnly.app_name mself) (tool_use_name event)) = Some a ->
     let o := fst (MemoryOnly.run_hook mself event answers st) in
     (lower a = "t" ->
      trusts_and_allows (MemoryOnly.app_name mself) (tool_use_name event) st o) /\
     (lower a <> "t" -> lower a <> "y" -> denies (tool_use_name event) st o) /\
     (lower a = "y" -> allows_once st o)).
Proof.
  intros self mself event answers st a. split.
  - intros Hg Hsrc. cbv zeta.
    rewrite (durable_hook_answered _ _ _ _ _ Hg Hsrc). apply verdicts.
  - intros Hg Hans. cbv zeta.
    rewrite (memory_hook_answered _ _ _ _ _ Hg Hans). apply verdicts.
Qed.

Lemma gate_answer_verdicts_witness :
  denies "delete_files" ∅
    (fst (Durable.run_hook (Durable.mkHook "hitl-demo" "s1" [("delete_files", "no")])
                           (mkEvent "delete_files" "{}") (fun _ => None) ∅)).
Proof.
  assert (Hg : gated "hitl-demo" (mkEvent "delete_files" "{}") ∅).
  { split; [simpl; auto | rewrite lookup_empty; discriminate]. }
  refine (proj1 (proj2 (proj1 (gate_answer_verdicts
            (Durable.mkHook "hitl-demo" "s1" [("delete_files", "no")])
            (MemoryOnly.mkHook "hitl-demo" "s1")
            (mkEvent "delete_files" "{}") (fun _ => None) ∅ "no") Hg _)) _ _).
  - left. reflexivity.
  - discriminate.
  - discriminate.
Defined.

(** C9: the gate compares answers case-insensitively. For a gated risky
    operation, every answer whose lower-casing equals t (T is one) makes the
    gate trust and allow the operation, and every answer whose lower-casing
    equals y (Y is one) makes it allow the operation once, whether the
    answer comes from the pre-approved map or from the interrupt, for both
    hooks. *)
Theorem gate_compares_case_insensitively :
  forall (self : Durable.ApprovalHook) (mself : MemoryOnly.ApprovalHook)
         (event : BeforeToolCallEvent) (answers : string -> option string)
         (st : gmap string string) (a : string),
    (lower "T" = "t" /\ lower "Y" = "y") /\
    (gated (Durable.app_name self) event st ->
     answered_with self event answers a ->
     let o := fst (Durable.run_hook self event answers st) in
     (lower a = "t" ->
      trusts_and_allows (Durable.app_name self) (tool_use_name event) st o) /\
     (lower a = "y" -> allows_once st o)) /\
    (gated (MemoryOnly.app_name mself) event st ->
     answers (approval_name (MemoryOnly.app_name mself) (tool_use_name event)) = Some a ->
     let o := fst (MemoryOnly.run_hook mself event answers st) in
     (lower a = "t" ->
      trusts_and_allows (MemoryOnly.app_name mself) (tool_use_name event) st o) /\
     (lower a = "y" -> allows_once st o)).
Proof.
  intros self mself event answers st a. split; [split; reflexivity|]. split.
  - intros Hg Hsrc. cbv zeta.
    rewrite (durable_hook_answered _ _ _ _ _ Hg Hsrc).
    pose proof (verdicts (Durable.app_name self) (tool_use_name event) a
                  (Durable.pre_approved_tools self) answers st) as H.
    cbv zeta in H. tauto.
  - intros Hg Hans. cbv zeta.
    rewrite (memory_hook_answered _ _ _ _ _ Hg Hans).
    pose proof (verdicts (MemoryOnly.app_name mself) (tool_use_name event) a
                  [] answers st) as H.
    cbv zeta in H. tauto.
Qed.

Lemma gate_compares_case_insensitively_witness :
  trusts_and_allows "hitl-demo" "execute_command" ∅
    (fst (MemoryOnly.run_hook (MemoryOnly.mkHook "hitl-demo" "s1")
                              (mkEvent "execute_command" "{}") (fun _ => Some "T") ∅)).
Proof.
  assert (Hg : gated "hitl-demo" (mkEvent "execute_command" "{}") ∅).
  { split; [simpl; auto | rewrite lookup_empty; discriminate]. }
  refine (proj1 (proj2 (proj2 (gate_compares_case_insensitively
            (Durable.mkHook "hitl-demo" "s1" [])
            (MemoryOnly.mkHook "hitl-demo" "s1")
            (mkEvent "execute_command" "{}") (fun _ => Some "T") ∅ "T")) Hg _) _).
  - reflexivity.
  - reflexivity.
Defined.

End GateTheorems.

(** ** Approve and reject *)

Section AnswerProperties.
Import StoreSpec.

Lemma update_first_absent f iid (l : list MemoryOnly.Approval) :
  first_match l iid = None -> MemoryOnly.update_first f iid l = None.
Proof.
  unfold first_match. induction l as [|a l IH]; simpl; [done|].
  destruct (String.eqb (MemoryOnly.a_interrupt_id a) iid); [discriminate|].
  intros H. by rewrite (IH H).
Qed.

Lemma update_first_present f iid (l : list MemoryOnly.Approval) a :
  (forall x, MemoryOnly.a_interrupt_id (f x) = MemoryOnly.a_interrupt_id x) ->
  first_match l iid = Some a ->
  exists l', MemoryOnly.update_first f iid l = Some l' /\ first_match l' iid = Some (f a).
Proof.
  intros Hid. unfold first_match. induction l as [|b l IH]; simpl; [discriminate|].
  destruct (String.eqb (MemoryOnly.a_interrupt_id b) iid) eqn:Hb.
  - intros [= ->]. exists (f a :: l). split; [done|]. simpl. by rewrite Hid, Hb.
  - intros H. destruct (IH H) as [l' [Hu Hf]]. rewrite Hu.
    exists (b :: l'). split; [done|]. simpl. by rewrite Hb.
Qed.

Lemma truthy_ne (s : string) : s <> "" -> truthy s = true.
Proof. unfold truthy. by destruct (String.eqb_spec s ""). Qed.

Lemma stored_after_update (now : Clock) (sid iid status response approver : string)
    (t : Durable.table) :
  stored_answer (Durable.update_approval_status now sid iid status response approver t)
                sid iid
  = Some (Some status, Some response, Some approver).
Proof.
  unfold stored_answer, Durable.update_approval_status.
  rewrite lookup_insert_eq. by simplify_map_eq.
Qed.

Lemma memory_answer_after (w : MemoryOnly.World) (sid iid : string)
    (l' : list MemoryOnly.Approval) (a : MemoryOnly.Approval) ss h :
  first_match l' iid = Some a ->
  memory_answer (MemoryOnly.mkWorld ss (<[sid := l']> (MemoryOnly.pending_approvals w)) h)
                sid iid
  = Some (MemoryOnly.a_status a, MemoryOnly.a_response a, MemoryOnly.a_approver a).
Proof.
  intros H. unfold memory_answer, MemoryOnly.approvals_of. simpl.
  rewrite lookup_insert_eq. by rewrite H.
Qed.

(** C1, as stated, fails: in both modes a reject that follows an approve of
    the same interrupt is accepted and replaces the stored status, response
    and approver. *)
Lemma second_answer_overwrites_first :
  let d0 := Examples.durable_suspended "delete the file /tmp/x" [Examples.i1] in
  let d1 := snd (Durable.approve_request "s1"
                   (Examples.approve_payload "i1" "y" "alice") Examples.clock1 d0) in
  let d2 := Durable.reject_request "s1"
              (Examples.reject_payload "i1" "changed my mind" "bob") Examples.clock1 d1 in
  let m0 := Examples.memory_suspended "delete the file /tmp/x" [Examples.i1] in
  let m1 := snd (MemoryOnly.approve_request "s1"
                   (Examples.approve_payload "i1" "y" "alice") Examples.clock1 m0) in
  let m2 := MemoryOnly.reject_request "s1"
              (Examples.reject_payload "i1" "changed my mind" "bob") Examples.clock1 m1 in
  (stored_answer (Durable.tbl d1) "s1" "i1"
     = Some (Some "approved", Some "y", Some "alice") /\
   is_error (fst d2) = false /\
   stored_answer (Durable.tbl (snd d2)) "s1" "i1"
     = Some (Some "rejected", Some "n", Some "bob")) /\
  (memory_answer m1 "s1" "i1" = Some ("approved", Some "y", Some "alice") /\
   is_error (fst m2) = false /\
   memory_answer (snd m2) "s1" "i1" = Some ("rejected", Some "n", Some "bob")).
Proof. vm_compute. repeat split. Qed.

(** C1 (amended): in memory-only mode an approve or reject call whose
    (session_id, interrupt_id) matches no PendingApproval fails with an
    error and changes nothing. Neither mode looks at the current status: an
    approve or reject call on an existing record, one already approved or
    rejected included, succeeds and overwrites the stored status, response
    and approver. *)
Theorem answer_fails_if_absent_else_overwrites :
  forall (now : Clock) (sid iid : string) (payload : Payload),
    p_interrupt_id payload = Some iid -> iid <> "" ->
    let response := default_str "y" (p_response payload) in
    let approver := default_str "cli" (p_approver payload) in
    let reason := default_str "User rejected" (p_reason payload) in
    (forall w : MemoryOnly.World,
        first_match (MemoryOnly.approvals_of w sid) iid = None ->
        (is_error (fst (MemoryOnly.approve_request sid payload now w)) = true /\
         snd (MemoryOnly.approve_request sid payload now w) = w) /\
        (is_error (fst (MemoryOnly.reject_request sid payload now w)) = true /\
         snd (MemoryOnly.reject_request sid payload now w) = w)) /\
    (forall w : MemoryOnly.World,
        first_match (MemoryOnly.approvals_of w sid) iid <> None ->
        (fst (MemoryOnly.approve_request sid payload now w)
           = ReplyApproved sid iid response /\
         memory_answer (snd (MemoryOnly.approve_request sid payload now w)) sid iid
           = Some ("approved", Some response, Some approver)) /\
        (fst (MemoryOnly.reject_request sid payload now w)
           = ReplyRejected sid iid reason /\
         memory_answer (snd (MemoryOnly.reject_request sid payload now w)) sid iid
           = Some ("rejected", Some "n", Some approver))) /\
    (forall w : Durable.World,
        stored_answer (Durable.tbl w) sid iid <> None ->
        (fst (Durable.approve_request sid payload now w)
           = ReplyApproved sid iid response /\
         stored_answer (Durable.tbl (snd (Durable.approve_request sid payload now w)))
                       sid iid
           = Some (Some "approved", Some response, Some approver)) /\
        (fst (Durable.reject_request sid payload now w)
           = ReplyRejected sid iid reason /\
         stored_answer (Durable.tbl (snd (Durable.reject_request sid payload now w)))
                       sid iid
           = Some (Some "rejected", Some "n", Some approver))).
Proof.
  intros now sid iid payload Hid Hne. cbv zeta.
  apply truthy_ne in Hne.
  unfold MemoryOnly.approve_request, MemoryOnly.reject_request,
    Durable.approve_request, Durable.reject_request.
  rewrite Hid, Hne. split; [|split].
  - intros w Habs. rewrite !(update_first_absent _ _ _ Habs). by cbn.
  - intros w Hpres.
    destruct (first_match (MemoryOnly.approvals_of w sid) iid) as [a|] eqn:Hf; [|done].
    split.
    + destruct (update_first_present
                  (MemoryOnly.set_approved now (default_str "y" (p_response payload))
                     (default_str "cli" (p_approver payload)))
                  iid _ a (fun _ => eq_refl) Hf) as [l' [-> Hl']].
      cbn. split; [done|]. by rewrite (memory_answer_after _ _ _ _ _ _ _ Hl').
    + destruct (update_first_present
                  (MemoryOnly.set_rejected now (default_str "User rejected" (p_reason payload))
                     (default_str "cli" (p_approver payload)))
                  iid _ a (fun _ => eq_refl) Hf) as [l' [-> Hl']].
      cbn. split; [done|]. by rewrite (memory_answer_after _ _ _ _ _ _ _ Hl').
  - intros w _. cbn. rewrite !stored_after_update. done.
Qed.

Lemma answer_fails_if_absent_else_overwrites_witness :
  let d1 := snd (Durable.approve_request "s1"
                   (Examples.approve_payload "i1" "y" "alice") Examples.clock1
                   (Examples.durable_suspended "delete the file /tmp/x" [Examples.i1])) in
  stored_answer
    (Durable.tbl (snd (Durable.approve_request "s1"
                         (Examples.approve_payload "i1" "t" "bob") Examples.clock1 d1)))
    "s1" "i1"
  = Some (Some "approved", Some "t", Some "bob").
Proof.
  cbv zeta.
  refine (proj2 (proj1 (proj2 (proj2
    (answer_fails_if_absent_else_overwrites Examples.clock1 "s1" "i1"
       (Examples.approve_payload "i1" "t" "bob") eq_refl _)) _ _))).
  - discriminate.
  - vm_compute. discriminate.
Defined.

End AnswerProperties.

(** ** Resume *)

Section ResumeProperties.
Import ResumeSpec.

Lemma usable_is_terminal (t : Durable.table) (sid iid : string) :
  usable_answer t sid iid = true -> has_terminal_approval t sid iid = true.
Proof.
  unfold usable_answer, has_terminal_approval, Durable.get_approval_response.
  destruct (t !! (sid, iid)) as [it|]; [|done].
  destruct (Durable.attr_str (it !! "status")) as [s|]; [|done].
  by destruct (str_in s ["approved"; "rejected"]).
Qed.

Lemma mem_usable_is_terminal (l : list MemoryOnly.Approval) (iid : string) :
  mem_usable_answer l iid = true -> mem_has_terminal_approval l iid = true.
Proof.
  unfold mem_usable_answer, mem_has_terminal_approval.
  induction l as [|a l IH]; cbn [MemoryOnly.find_response existsb]; [done|].
  destruct (String.eqb (MemoryOnly.a_interrupt_id a) iid
            && str_in (MemoryOnly.a_status a) ["approved"; "rejected"]); [done|].
  exact IH.
Qed.

(** The fast path's loop stops at the first interrupt without a usable
    answer, and completes exactly when there is none. *)
Lemma collect_responses_stops (t : Durable.table) (sid : string) (ints : list Interrupt) :
  forall acc j,
    Durable.collect_responses t sid ints acc = inl j ->
    exists before after,
      ints = before ++ j :: after /\
      usable_answer t sid (i_id j) = false /\
      Forall (fun i => usable_answer t sid (i_id i) = true) before.
Proof.
  induction ints as [|i rest IH]; simpl; intros acc j H; [discriminate|].
  fold (usable_answer t sid (i_id i)) in H.
  destruct (usable_answer t sid (i_id i)) eqn:Hi; simpl in H.
  - destruct (IH _ _ H) as [before [after [-> [Hj Hb]]]].
    exists (i :: before), after. split; [done|]. split; [done|]. by constructor.
  - injection H as <-. exists [], rest. split; [done|]. split; [done|]. constructor.
Qed.

Lemma collect_responses_all (t : Durable.table) (sid : string) (ints : list Interrupt) :
  forall acc rs,
    Durable.collect_responses t sid ints acc = inr rs ->
    Forall (fun i => usable_answer t sid (i_id i) = true) ints /\
    rs = acc ++ map (fun i => mkInterruptResponse (i_id i)
                       (default_str "" (Durable.get_approval_response t sid (i_id i)))) ints.
Proof.
  induction ints as [|i rest IH]; simpl; intros acc rs H.
  - injection H as <-. split; [constructor | by rewrite app_nil_r].
  - fold (usable_answer t sid (i_id i)) in H.
    destruct (usable_answer t sid (i_id i)) eqn:Hi; simpl in H; [|discriminate].
    destruct (IH _ _ H) as [Hall ->]. split; [by constructor|].
    by rewrite <- app_assoc.
Qed.

Lemma mem_collect_responses_stops (l : list MemoryOnly.Approval) (ints : list Interrupt) :
  forall acc j,
    MemoryOnly.collect_responses l ints acc = inl j ->
    exists before after,
      ints = before ++ j :: after /\
      mem_usable_answer l (i_id j) = false /\
      Forall (fun i => mem_usable_answer l (i_id i) = true) before.
Proof.
  induction ints as [|i rest IH]; simpl; intros acc j H; [discriminate|].
  fold (mem_usable_answer l (i_id i)) in H.
  destruct (mem_usable_answer l (i_id i)) eqn:Hi; simpl in H.
  - destruct (IH _ _ H) as [before [after [-> [Hj Hb]]]].
    exists (i :: before), after. split; [done|]. split; [done|]. by constructor.
  - injection H as <-. exists [], rest. split; [done|]. split; [done|]. constructor.
Qed.

Lemma mem_collect_responses_all (l : list MemoryOnly.Approval) (ints : list Interrupt) :
  forall acc rs,
    MemoryOnly.collect_responses l ints acc = inr rs ->
    Forall (fun i => mem_usable_answer l (i_id i) = true) ints /\
    rs = acc ++ map (fun i => mkInterruptResponse (i_id i)
                       (default_str "" (MemoryOnly.find_response l (i_id i)))) ints.
Proof.
  induction ints as [|i rest IH]; simpl; intros acc rs H.
  - injection H as <-. split; [constructor | by rewrite app_nil_r].
  - fold (mem_usable_answer l (i_id i)) in H.
    destruct (mem_usable_answer l (i_id i)) eqn:Hi; simpl in H; [|discriminate].
    destruct (IH _ _ H) as [Hall ->]. split; [by constructor|].
    by rewrite <- app_assoc.
Qed.

Lemma dict_get_set_eq {V} (d : pydict V) (k : string) (v : V) :
  dict_get (dict_set d k v) k = Some v.
Proof.
  induction d as [|[k' v'] d IH]; simpl.
  - by rewrite String.eqb_refl.
  - destruct (String.eqb k k') eqn:Hk; simpl; rewrite Hk; [done | exact IH].
Qed.

Lemma dict_get_set_ne {V} (d : pydict V) (k k' : string) (v : V) :
  k <> k' -> dict_get (dict_set d k v) k' = dict_get d k'.
Proof.
  intros Hne. induction d as [|[k0 v0] d IH]; simpl.
  - destruct (String.eqb_spec k' k); [congruence | done].
  - destruct (String.eqb_spec k k0) as [->|Hk]; simpl.
    + destruct (String.eqb_spec k' k0); [congruence | done].
    + destruct (String.eqb k' k0); [done | exact IH].
Qed.

Lemma dict_keys_get {V} (d : pydict V) (k : string) :
  In k (dict_keys d) <-> dict_get d k <> None.
Proof.
  unfold dict_keys. induction d as [|[k0 v0] d IH]; simpl; [tauto|].
  destruct (String.eqb_spec k k0) as [->|Hk].
  - split; [discriminate | auto].
  - rewrite <- IH. split; [intros [?|?]; [congruence | done] | auto].
Qed.

Lemma cold_step_pending (t : Durable.table) (sid : string) pre pend (i : Interrupt) :
  snd (Durable.cold_step t sid (pre, pend) i)
  = pend ++ (if usable_answer t sid (i_id i) then [] else [i]).
Proof.
  unfold Durable.cold_step, usable_answer.
  destruct (truthy_opt (Durable.get_approval_response t sid (i_id i))); [|done].
  destruct (truthy_opt _); simpl; by rewrite app_nil_r.
Qed.

Lemma cold_scan_pending_from (t : Durable.table) (sid : string) (ints : list Interrupt) :
  forall acc,
    snd (foldl (Durable.cold_step t sid) acc ints)
    = snd acc ++ List.filter (fun i => negb (usable_answer t sid (i_id i))) ints.
Proof.
  induction ints as [|i rest IH]; intros [pre pend]; cbn [foldl List.filter].
  - by rewrite app_nil_r.
  - rewrite IH. rewrite cold_step_pending.
    destruct (usable_answer t sid (i_id i)); cbn [negb snd].
    + by rewrite app_nil_r.
    + by rewrite <- app_assoc.
Qed.

Lemma cold_scan_pending (t : Durable.table) (sid : string) (ints : list Interrupt) :
  snd (Durable.cold_scan t sid ints)
  = List.filter (fun i => negb (usable_answer t sid (i_id i))) ints.
Proof. unfold Durable.cold_scan. by rewrite cold_scan_pending_from. Qed.

Lemma cold_scan_snoc (t : Durable.table) (sid : string) (ints : list Interrupt) i :
  Durable.cold_scan t sid (ints ++ [i])
  = Durable.cold_step t sid (Durable.cold_scan t sid ints) i.
Proof. unfold Durable.cold_scan. by rewrite foldl_app. Qed.

(** With every interrupt answered, the map built by the cold path sends an
    operation name to the answer of the last interrupt that names it. *)
Lemma cold_scan_map (t : Durable.table) (sid : string) (ints : list Interrupt) :
  Forall (fun i => usable_answer t sid (i_id i) = true) ints ->
  forall tool, tool <> "" ->
    dict_get (fst (Durable.cold_scan t sid ints)) tool = last_answer_for t sid ints tool.
Proof.
  unfold last_answer_for.
  induction ints as [|i ints IH] using rev_ind; intros Hall tool Htool; [done|].
  apply Forall_app in Hall as [Hall Hi]. inversion Hi as [|? ? Hu _]; subst.
  rewrite cold_scan_snoc, rev_app_distr. simpl.
  destruct (Durable.cold_scan t sid ints) as [pre pend] eqn:Hscan.
  specialize (IH Hall tool Htool). simpl in IH.
  unfold Durable.cold_step. unfold usable_answer in Hu. rewrite Hu.
  apply truthy_opt_Some in Hu as [a [Ha _]].
  unfold names_tool.
  destruct (Durable.reason_tool (i_reason i)) as [tn|] eqn:Htn; simpl; [|exact IH].
  unfold truthy. destruct (String.eqb_spec tn "") as [->|Hne]; simpl.
  - destruct tool; [congruence | exact IH].
  - destruct (String.eqb_spec tn tool) as [->|Hd].
    + rewrite dict_get_set_eq, Ha. done.
    + rewrite dict_get_set_ne by done. exact IH.
Qed.

Lemma filter_first_failure {A} (f : A -> bool) (before after : list A) (j : A) :
  Forall (fun i => f i = true) before -> f j = false ->
  List.filter (fun i => negb (f i)) (before ++ j :: after)
  = j :: List.filter (fun i => negb (f i)) after.
Proof.
  intros Hb Hj. induction Hb as [|x l Hx _ IH]; simpl.
  - by rewrite Hj.
  - by rewrite Hx.
Qed.

Lemma filter_no_failure {A} (f : A -> bool) (l : list A) :
  Forall (fun i => f i = true) l -> List.filter (fun i => negb (f i)) l = [].
Proof.
  intros H. induction H as [|x l Hx _ IH]; simpl; [done|]. by rewrite Hx.
Qed.

Lemma filter_some_failure {A} (f g : A -> bool) (l : list A) :
  (forall i, f i = true -> g i = true) ->
  Exists (fun i => g i = false) l ->
  List.filter (fun i => negb (f i)) l <> [].
Proof.
  intros Hfg H. induction H as [x l Hx|x l _ IH]; simpl.
  - destruct (f x) eqn:Hf; [|done]. apply Hfg in Hf. congruence.
  - by destruct (f x).
Qed.

Lemma unanswered_covers (t : Durable.table) (sid : string) (ints : list Interrupt) i :
  In i ints -> has_terminal_approval t sid (i_id i) = false ->
  In i (unanswered t sid ints).
Proof.
  intros Hin Hno. apply filter_In. split; [done|].
  destruct (usable_answer t sid (i_id i)) eqn:Hu; [|done].
  apply usable_is_terminal in Hu. congruence.
Qed.

Lemma mem_unanswered_covers (l : list MemoryOnly.Approval) (ints : list Interrupt) i :
  In i ints -> mem_has_terminal_approval l (i_id i) = false ->
  In i (mem_unanswered l ints).
Proof.
  intros Hin Hno. apply filter_In. split; [done|].
  destruct (mem_usable_answer l (i_id i)) eqn:Hu; [|done].
  apply mem_usable_is_terminal in Hu. congruence.
Qed.

(** What resume does on a suspension with an unanswered interrupt, durable
    mode: an error, nothing started, the world as it was; the fast path
    names the first interrupt without a usable answer, the cold path all. *)
Lemma durable_resume_unanswered (w : Durable.World) (sid : string) (ints : list Interrupt) :
  recorded_suspension w sid = Some ints ->
  unanswered (Durable.tbl w) sid ints <> [] ->
  exists e d,
    Durable.resume_agent_task sid w = (ReplyError e d, w, None) /\
    named d = map i_id
                (match Durable.session_states w !! sid with
                 | Some _ => firstn 1 (unanswered (Durable.tbl w) sid ints)
                 | None => unanswered (Durable.tbl w) sid ints
                 end).
Proof.
  unfold recorded_suspension, Durable.resume_agent_task.
  destruct (Durable.session_states w !! sid) as [st|].
  - destruct (String.eqb (Durable.ss_status st) "waiting_approval"); [|done].
    destruct (Durable.ss_agent st) as [agent|]; [|done].
    destruct (Durable.ss_result st) as [res|]; [|done].
    intros [= <-] Hne. cbn [negb].
    destruct (Durable.collect_responses (Durable.tbl w) sid (interrupts res) [])
      as [j|rs] eqn:Hc.
    + apply collect_responses_stops in Hc as [before [after [Heq [Hj Hb]]]].
      eexists _, _. split; [reflexivity|]. unfold unanswered. rewrite Heq.
      by rewrite (filter_first_failure _ _ _ _ Hb Hj).
    + apply collect_responses_all in Hc as [Hall _].
      unfold unanswered in Hne. by rewrite (filter_no_failure _ _ Hall) in Hne.
  - destruct (Durable.get_agent_state (Durable.tbl w) sid) as [saved|]; [|done].
    intros [= <-] Hne.
    pose proof (cold_scan_pending (Durable.tbl w) sid (Durable.saved_interrupts saved)) as Hp.
    fold (unanswered (Durable.tbl w) sid (Durable.saved_interrupts saved)) in Hp.
    destruct (Durable.cold_scan (Durable.tbl w) sid (Durable.saved_interrupts saved))
      as [pre pending]. simpl in Hp. subst pending.
    destruct (unanswered (Durable.tbl w) sid (Durable.saved_interrupts saved)) eqn:Hu;
      [done|].
    eexists _, _. split; reflexivity.
Qed.

Lemma memory_resume_unanswered (w : MemoryOnly.World) (sid : string) (ints : list Interrupt) :
  mem_active_suspension w sid = Some ints ->
  mem_unanswered (MemoryOnly.approvals_of w sid) ints <> [] ->
  exists e d,
    MemoryOnly.resume_agent_task sid w = (ReplyError e d, w, None) /\
    named d = map i_id (firstn 1 (mem_unanswered (MemoryOnly.approvals_of w sid) ints)).
Proof.
  unfold mem_active_suspension, MemoryOnly.resume_agent_task.
  destruct (MemoryOnly.session_states w !! sid) as [st|]; [|done].
  destruct (String.eqb (MemoryOnly.ss_status st) "waiting_approval"); [|done].
  destruct (MemoryOnly.ss_agent st) as [agent|]; [|done].
  destruct (MemoryOnly.ss_result st) as [res|]; [|done].
  intros [= <-] Hne. cbn [negb].
  destruct (MemoryOnly.collect_responses (MemoryOnly.approvals_of w sid) (interrupts res) [])
    as [j|rs] eqn:Hc.
  - apply mem_collect_responses_stops in Hc as [before [after [Heq [Hj Hb]]]].
    eexists _, _. split; [reflexivity|]. unfold mem_unanswered. rewrite Heq.
    by rewrite (filter_first_failure _ _ _ _ Hb Hj).
  - apply mem_collect_responses_all in Hc as [Hall _].
    unfold mem_unanswered in Hne. by rewrite (filter_no_failure _ _ Hall) in Hne.
Qed.

(** When resume starts a closure, every interrupt of the suspension had a
    usable answer. *)
Lemma durable_resume_started (w w' : Durable.World) (sid : string) r wk :
  Durable.resume_agent_task sid w = (r, w', Some wk) ->
  exists ints,
    recorded_suspension w sid = Some ints /\
    Forall (fun i => usable_answer (Durable.tbl w) sid (i_id i) = true) ints.
Proof.
  unfold recorded_suspension, Durable.resume_agent_task.
  destruct (Durable.session_states w !! sid) as [st|].
  - destruct (String.eqb (Durable.ss_status st) "waiting_approval"); [|done].
    destruct (Durable.ss_agent st) as [agent|]; [|done].
    destruct (Durable.ss_result st) as [res|]; [|done]. cbn [negb].
    destruct (Durable.collect_responses (Durable.tbl w) sid (interrupts res) [])
      as [j|rs] eqn:Hc; [done|].
    intros _. apply collect_responses_all in Hc as [Hall _]. eauto.
  - destruct (Durable.get_agent_state (Durable.tbl w) sid) as [saved|]; [|done].
    pose proof (cold_scan_pending (Durable.tbl w) sid (Durable.saved_interrupts saved)) as Hp.
    destruct (Durable.cold_scan (Durable.tbl w) sid (Durable.saved_interrupts saved))
      as [pre pending]. simpl in Hp. subst pending.
    destruct (List.filter _ _) eqn:Hf; [|done].
    intros _. eexists. split; [reflexivity|].
    apply Forall_forall. intros i Hi.
    destruct (usable_answer (Durable.tbl w) sid (i_id i)) eqn:Hu; [done|].
    assert (Hin : In i (List.filter
                   (fun i => negb (usable_answer (Durable.tbl w) sid (i_id i)))
                   (Durable.saved_interrupts saved))).
    { apply filter_In. split; [by apply list_elem_of_In | by rewrite Hu]. }
    rewrite Hf in Hin. destruct Hin.
Qed.

Lemma memory_resume_started (w w' : MemoryOnly.World) (sid : string) r wk :
  MemoryOnly.resume_agent_task sid w = (r, w', Some wk) ->
  exists ints,
    mem_active_suspension w sid = Some ints /\
    Forall (fun i => mem_usable_answer (MemoryOnly.approvals_of w sid) (i_id i) = true) ints.
Proof.
  unfold mem_active_suspension, MemoryOnly.resume_agent_task.
  destruct (MemoryOnly.session_states w !! sid) as [st|]; [|done].
  destruct (String.eqb (MemoryOnly.ss_status st) "waiting_approval"); [|done].
  destruct (MemoryOnly.ss_agent st) as [agent|]; [|done].
  destruct (MemoryOnly.ss_result st) as [res|]; [|done]. cbn [negb].
  destruct (MemoryOnly.collect_responses (MemoryOnly.approvals_of w sid) (interrupts res) [])
    as [j|rs] eqn:Hc; [done|].
  intros _. apply mem_collect_responses_all in Hc as [Hall _]. eauto.
Qed.

(** C2, as stated, fails on the fast path of both modes: with the first
    interrupt approved with an empty response and the second one not
    answered, the error names the first interrupt, which has a terminal
    PendingApproval, and not the unanswered one. *)
Lemma resume_names_an_answered_interrupt :
  let d0 := Examples.durable_suspended "delete /tmp/x and list it"
              [Examples.i1; Examples.i2] in
  let d := snd (Durable.approve_request "s1"
                  (Examples.approve_payload "i1" "" "alice") Examples.clock1 d0) in
  let m0 := Examples.memory_suspended "delete /tmp/x and list it"
              [Examples.i1; Examples.i2] in
  let m := snd (MemoryOnly.approve_request "s1"
                  (Examples.approve_payload "i1" "" "alice") Examples.clock1 m0) in
  (recorded_suspension d "s1" = Some [Examples.i1; Examples.i2] /\
   has_terminal_approval (Durable.tbl d) "s1" "i1" = true /\
   has_terminal_approval (Durable.tbl d) "s1" "i2" = false /\
   fst (fst (Durable.resume_agent_task "s1" d))
   = ReplyError "Approval not found for interrupt: i1"
       (OneInterrupt "i1" "hitl-demo-delete_files-approval"
                     (Some Examples.delete_reason))) /\
  (mem_active_suspension m "s1" = Some [Examples.i1; Examples.i2] /\
   mem_has_terminal_approval (MemoryOnly.approvals_of m "s1") "i1" = true /\
   mem_has_terminal_approval (MemoryOnly.approvals_of m "s1") "i2" = false /\
   fst (fst (MemoryOnly.resume_agent_task "s1" m))
   = ReplyError "Approval not found for interrupt: i1"
       (OneInterrupt "i1" "hitl-demo-delete_files-approval" None)).
Proof. vm_compute. repeat split. Qed.

(** C2 (amended): take as the suspension of a session the one on record, which
    is what a resume call reads: the interrupts of the cached result on the
    fast path, those of the stored ResumableState on the cold path. It is the
    suspension of the session's latest run (one whose writes the table
    accepts: session id and interrupt ids not empty) whenever the session
    is still cached, and after the cache is lost whenever that run was an
    initial or a cold-path run. For every resume call where that suspension contains at
    least one interrupt without a terminal PendingApproval, the call returns
    an error, leaves the world as it was and starts nothing, so the engine
    is not re-entered with any subset of the answers. The error names
    interrupts of the suspension for which no non-empty answer is recorded
    (no record, a pending record, or an empty response): the first of them
    on the fast path, all of them on the cold path; every interrupt without
    a terminal PendingApproval is among them. The engine is re-entered only
    when every interrupt of that suspension has a terminal answer. Durable
    mode and memory-only mode. *)
Theorem resume_rejects_partial_answers :
  (forall (w : Durable.World) (sid : string) (ints : list Interrupt),
      recorded_suspension w sid = Some ints ->
      Exists (fun i => has_terminal_approval (Durable.tbl w) sid (i_id i) = false) ints ->
      (exists e d,
          Durable.resume_agent_task sid w = (ReplyError e d, w, None) /\
          named d <> [] /\
          named d = map i_id
                      (match Durable.session_states w !! sid with
                       | Some _ => firstn 1 (unanswered (Durable.tbl w) sid ints)
                       | None => unanswered (Durable.tbl w) sid ints
                       end)) /\
      (forall i, In i ints ->
                 has_terminal_approval (Durable.tbl w) sid (i_id i) = false ->
                 In i (unanswered (Durable.tbl w) sid ints))) /\
  (forall (w w' : Durable.World) (sid : string) (r : Reply) (wk : Durable.work),
      Durable.resume_agent_task sid w = (r, w', Some wk) ->
      exists ints,
        recorded_suspension w sid = Some ints /\
        Forall (fun i => has_terminal_approval (Durable.tbl w) sid (i_id i) = true) ints) /\
  (forall (w : MemoryOnly.World) (sid : string) (ints : list Interrupt),
      mem_active_suspension w sid = Some ints ->
      Exists (fun i => mem_has_terminal_approval (MemoryOnly.approvals_of w sid) (i_id i)
                       = false) ints ->
      (exists e d,
          MemoryOnly.resume_agent_task sid w = (ReplyError e d, w, None) /\
          named d <> [] /\
          named d = map i_id
                      (firstn 1 (mem_unanswered (MemoryOnly.approvals_of w sid) ints))) /\
      (forall i, In i ints ->
                 mem_has_terminal_approval (MemoryOnly.approvals_of w sid) (i_id i) = false ->
                 In i (mem_unanswered (MemoryOnly.approvals_of w sid) ints))) /\
  (forall (w w' : MemoryOnly.World) (sid : string) (r : Reply) (wk : MemoryOnly.work),
      MemoryOnly.resume_agent_task sid w = (r, w', Some wk) ->
      exists ints,
        mem_active_suspension w sid = Some ints /\
        Forall (fun i => mem_has_terminal_approval (MemoryOnly.approvals_of w sid) (i_id i)
                         = true) ints) /\
  (forall (wk : Durable.work) (st' : gmap string string) (res : AgentResult)
          (now : Clock) (w w2 : Durable.World),
      stop_reason res = "interrupt" ->
      MoreSpec.work_session wk <> "" ->
      Forall (fun i => i_id i <> "") (interrupts res) ->
      let sid := MoreSpec.work_session wk in
      let w' := Durable.run_work wk (Yields st' res) now w in
      recorded_suspension w' sid = Some (interrupts res) /\
      (Durable.tbl w2 = Durable.tbl w' ->
       Durable.session_states w2 !! sid = None ->
       (forall agent rs t, wk <> Durable.ResumeWorkFast sid agent rs t) ->
       recorded_suspension w2 sid = Some (interrupts res))) /\
  (forall (wk : MemoryOnly.work) (st' : gmap string string) (res : AgentResult)
          (now : Clock) (w : MemoryOnly.World),
      stop_reason res = "interrupt" ->
      mem_active_suspension (MemoryOnly.run_work wk (Yields st' res) now w)
                            (MoreSpec.mem_work_session wk)
      = Some (interrupts res)).
Proof.
  split; [|split; [|split; [|split; [|split]]]].
  - intros w sid ints Hact Hex.
    assert (Hne : unanswered (Durable.tbl w) sid ints <> []).
    { eapply filter_some_failure; [|exact Hex].
      intros i. apply usable_is_terminal. }
    split; [|intros i; apply unanswered_covers].
    destruct (durable_resume_unanswered w sid ints Hact Hne) as [e [d [Hr Hd]]].
    exists e, d. split; [done|]. split; [|done]. rewrite Hd.
    destruct (unanswered (Durable.tbl w) sid ints); [done|].
    by destruct (Durable.session_states w !! sid).
  - intros w w' sid r wk Hr.
    destruct (durable_resume_started w w' sid r wk Hr) as [ints [Hact Hall]].
    exists ints. split; [done|].
    eapply Forall_impl; [exact Hall|]. intros i. apply usable_is_terminal.
  - intros w sid ints Hact Hex.
    assert (Hne : mem_unanswered (MemoryOnly.approvals_of w sid) ints <> []).
    { eapply filter_some_failure; [|exact Hex].
      intros i. apply mem_usable_is_terminal. }
    split; [|intros i; apply mem_unanswered_covers].
    destruct (memory_resume_unanswered w sid ints Hact Hne) as [e [d [Hr Hd]]].
    exists e, d. split; [done|]. split; [|done]. rewrite Hd.
    by destruct (mem_unanswered (MemoryOnly.approvals_of w sid) ints).
  - intros w w' sid r wk Hr.
    destruct (memory_resume_started w w' sid r wk Hr) as [ints [Hact Hall]].
    exists ints. split; [done|].
    eapply Forall_impl; [exact Hall|]. intros i. apply mem_usable_is_terminal.
  - intros wk st' res now w w2 Hstop _ _. cbv zeta.
    assert (Hs : String.eqb (stop_reason res) "interrupt" = true)
      by (rewrite Hstop; reflexivity).
    split.
    + unfold recorded_suspension.
      destruct wk; cbn; rewrite Hs; cbn; by rewrite lookup_insert_eq.
    + intros Htbl Hnone Hnf. unfold recorded_suspension. rewrite Hnone, Htbl.
      destruct wk as [s p t|s pre p t|s a rs t]; cbn in *;
        [| |by destruct (Hnf a rs t)];
        rewrite Hs; cbn; unfold Durable.get_agent_state, Durable.save_agent_state;
        rewrite lookup_insert_eq; by simplify_map_eq.
  - intros wk st' res now w Hstop.
    unfold mem_active_suspension, MemoryOnly.run_work, MemoryOnly.background_work,
      MemoryOnly.resume_work, MemoryOnly.after_run, MemoryOnly.finally_complete.
    destruct wk; cbn; rewrite Hstop; cbn; by rewrite lookup_insert_eq.
Qed.

Lemma resume_rejects_partial_answers_witness :
  let w := Examples.restart
             (Examples.durable_suspended "delete /tmp/x and list it"
                [Examples.i1; Examples.i2]) in
  (exists e d,
    Durable.resume_agent_task "s1" w = (ReplyError e d, w, None) /\
    named d <> [] /\
    named d = map i_id
                (match Durable.session_states w !! "s1" with
                 | Some _ => firstn 1 (unanswered (Durable.tbl w) "s1"
                                         [Examples.i1; Examples.i2])
                 | None => unanswered (Durable.tbl w) "s1" [Examples.i1; Examples.i2]
                 end)) /\
  recorded_suspension
    (Examples.restart
       (Durable.run_work
          (Durable.ResumeWorkCold "s1" [("delete_files", "y")] "delete /tmp/x and list it" 1)
          (Examples.suspended_on [Examples.i2]) Examples.clock1 w)) "s1"
  = Some [Examples.i2].
Proof.
  cbv zeta. split.
  - refine (proj1 (proj1 resume_rejects_partial_answers _ "s1"
                     [Examples.i1; Examples.i2] _ _)).
    + vm_compute. reflexivity.
    + apply Exists_cons_hd. vm_compute. reflexivity.
  - refine (proj2 (proj1 (proj2 (proj2 (proj2 (proj2 resume_rejects_partial_answers))))
                     (Durable.ResumeWorkCold "s1" [("delete_files", "y")]
                        "delete /tmp/x and list it" 1)
                     ∅ (mkAgentResult "interrupt" [Examples.i2] "") Examples.clock1
                     (Examples.restart
                        (Examples.durable_suspended "delete /tmp/x and list it"
                           [Examples.i1; Examples.i2]))
                     (Examples.restart
                        (Durable.run_work
                           (Durable.ResumeWorkCold "s1" [("delete_files", "y")]
                              "delete /tmp/x and list it" 1)
                           (Examples.suspended_on [Examples.i2]) Examples.clock1
                           (Examples.restart
                              (Examples.durable_suspended "delete /tmp/x and list it"
                                 [Examples.i1; Examples.i2]))))
                     eq_refl _ _) eq_refl _ _).
    + discriminate.
    + constructor; [discriminate | constructor].
    + vm_compute. reflexivity.
    + discriminate.
Defined.

(** The fast-path closure saves the new pending approvals but not the
    resumable state: when its run suspends again and the cache is then lost,
    the suspension on record is the previous one, and a resume call reads
    the answers of that one. *)
Lemma stored_suspension_after_fast_resuspension :
  let w0 := Examples.durable_suspended "delete /tmp/x and list it" [Examples.i1] in
  let w1 := snd (Durable.approve_request "s1"
                   (Examples.approve_payload "i1" "y" "alice") Examples.clock1 w0) in
  let out := Durable.resume_agent_task "s1" w1 in
  let w2 := match snd out with
            | Some wk => Durable.run_work wk (Examples.suspended_on [Examples.i2])
                           Examples.clock1 (snd (fst out))
            | None => snd (fst out)
            end in
  recorded_suspension w2 "s1" = Some [Examples.i2] /\
  has_terminal_approval (Durable.tbl w2) "s1" "i2" = false /\
  recorded_suspension (Examples.restart w2) "s1" = Some [Examples.i1] /\
  fst (fst (Durable.resume_agent_task "s1" (Examples.restart w2)))
  = ReplyResuming "s1" 1 (Some ["delete_files"]).
Proof. vm_compute. repeat split. Qed.

(** The cold path starts a closure as soon as a ResumableState record is
    stored, each of its interrupts has a non-empty answer and its prompt is
    not empty. *)
Lemma cold_resume_starts (w : Durable.World) (sid : string) (saved : Durable.SavedState) :
  Durable.session_states w !! sid = None ->
  Durable.get_agent_state (Durable.tbl w) sid = Some saved ->
  Forall (fun i => usable_answer (Durable.tbl w) sid (i_id i) = true)
         (Durable.saved_interrupts saved) ->
  Durable.prompt saved <> "" ->
  Durable.resume_agent_task sid w
  = (ReplyResuming sid (next_task_id (Durable.host w))
       (Some (dict_keys (fst (Durable.cold_scan (Durable.tbl w) sid
                                (Durable.saved_interrupts saved))))),
     Durable.mkWorld (Durable.tbl w) (Durable.session_states w)
       (snd (add_async_task "agent_resume" sid (Durable.host w))),
     Some (Durable.ResumeWorkCold sid
             (fst (Durable.cold_scan (Durable.tbl w) sid (Durable.saved_interrupts saved)))
             (Durable.prompt saved) (next_task_id (Durable.host w)))).
Proof.
  intros Hnone Hsaved Hall Hprompt.
  unfold Durable.resume_agent_task. rewrite Hnone, Hsaved.
  pose proof (cold_scan_pending (Durable.tbl w) sid (Durable.saved_interrupts saved)) as Hp.
  rewrite (filter_no_failure _ _ Hall) in Hp.
  destruct (Durable.cold_scan (Durable.tbl w) sid (Durable.saved_interrupts saved))
    as [pre pending]. simpl in Hp. subst pending.
  rewrite (truthy_ne _ Hprompt). reflexivity.
Qed.

(** C4, as stated, fails on the cold path: a session whose resumed run has
    finished (its status is completed and its result is stored) keeps its
    ResumableState record; once the cache is gone the status reported for
    it is interrupted, and a resume call starts a resumption again. *)
Lemma completed_session_is_resumed_again :
  let w0 := Examples.durable_suspended "delete the file /tmp/x" [Examples.i1] in
  let w1 := Examples.restart
              (snd (Durable.approve_request "s1"
                      (Examples.approve_payload "i1" "y" "alice") Examples.clock1 w0)) in
  let out := Durable.resume_agent_task "s1" w1 in
  let w2 := match snd out with
            | Some wk => Durable.run_work wk Examples.finished Examples.clock1 (snd (fst out))
            | None => snd (fst out)
            end in
  let w3 := Examples.restart w2 in
  Durable.get_status "s1" w2 = Durable.StatusOf "s1" "completed" true None /\
  Durable.get_agent_result (Durable.tbl w3) "s1"
  = Some (Durable.ResultMessage "done" "end_turn") /\
  Durable.session_states w3 !! "s1" = None /\
  Durable.get_status "s1" w3 = Durable.StatusOf "s1" "interrupted" false (Some [Examples.i1]) /\
  fst (fst (Durable.resume_agent_task "s1" w3))
  = ReplyResuming "s1" 1 (Some ["delete_files"]) /\
  snd (Durable.resume_agent_task "s1" w3)
  = Some (Durable.ResumeWorkCold "s1" [("delete_files", "y")] "delete the file /tmp/x" 1).
Proof. vm_compute. repeat split. Qed.

(** C4 (amended): on the fast path (a cached TaskSession; durable mode and
    memory-only mode) a resume call on a session whose status is not
    waiting_approval fails with the usage error "Session is not waiting
    for approval: <status>", changes nothing and starts no resumption. In
    memory-only mode a session that is not cached fails likewise, with "No
    session found". On the durable cold path (no cached TaskSession) no
    status is tested: the call fails with "No pending session found"
    when no ResumableState record is stored, and when one is stored, each
    of its interrupts has a non-empty answer and its prompt is not empty,
    the resumption is started. So a durable resume call that starts a
    resumption has found either a cached session in status waiting_approval
    or, with no cached session, a stored ResumableState record. *)
Theorem resume_status_guard :
  (forall (w : Durable.World) (sid : string) (st : Durable.SessionState),
      Durable.session_states w !! sid = Some st ->
      Durable.ss_status st <> "waiting_approval" ->
      Durable.resume_agent_task sid w
      = (ReplyError ("Session is not waiting for approval: " +:+ Durable.ss_status st)
                    NoDetail, w, None)) /\
  (forall (w : MemoryOnly.World) (sid : string) (st : MemoryOnly.SessionState),
      MemoryOnly.session_states w !! sid = Some st ->
      MemoryOnly.ss_status st <> "waiting_approval" ->
      MemoryOnly.resume_agent_task sid w
      = (ReplyError ("Session is not waiting for approval: " +:+ MemoryOnly.ss_status st)
                    NoDetail, w, None)) /\
  (forall (w : MemoryOnly.World) (sid : string),
      MemoryOnly.session_states w !! sid = None ->
      MemoryOnly.resume_agent_task sid w
      = (ReplyError ("No session found: " +:+ sid
                     +:+ ". Session may have expired or container restarted.") NoDetail,
         w, None)) /\
  (forall (w : Durable.World) (sid : string),
      Durable.session_states w !! sid = None ->
      Durable.get_agent_state (Durable.tbl w) sid = None ->
      Durable.resume_agent_task sid w
      = (ReplyError ("No pending session found: " +:+ sid) NoDetail, w, None)) /\
  (forall (w : Durable.World) (sid : string) (saved : Durable.SavedState),
      Durable.session_states w !! sid = None ->
      Durable.get_agent_state (Durable.tbl w) sid = Some saved ->
      Forall (fun i => usable_answer (Durable.tbl w) sid (i_id i) = true)
             (Durable.saved_interrupts saved) ->
      Durable.prompt saved <> "" ->
      exists pre : pydict string,
        let task_id := next_task_id (Durable.host w) in
        Durable.resume_agent_task sid w
        = (ReplyResuming sid task_id (Some (dict_keys pre)),
           Durable.mkWorld (Durable.tbl w) (Durable.session_states w)
             (snd (add_async_task "agent_resume" sid (Durable.host w))),
           Some (Durable.ResumeWorkCold sid pre (Durable.prompt saved) task_id))) /\
  (forall (w w' : Durable.World) (sid : string) (r : Reply) (wk : Durable.work),
      Durable.resume_agent_task sid w = (r, w', Some wk) ->
      match Durable.session_states w !! sid with
      | Some st => Durable.ss_status st = "waiting_approval"
      | None => Durable.get_agent_state (Durable.tbl w) sid <> None
      end).
Proof.
  split; [|split; [|split; [|split; [|split]]]].
  - intros w sid st Hst Hne. unfold Durable.resume_agent_task. rewrite Hst.
    apply String.eqb_neq in Hne. by rewrite Hne.
  - intros w sid st Hst Hne. unfold MemoryOnly.resume_agent_task. rewrite Hst.
    apply String.eqb_neq in Hne. by rewrite Hne.
  - intros w sid Hnone. unfold MemoryOnly.resume_agent_task. by rewrite Hnone.
  - intros w sid Hnone Hstate. unfold Durable.resume_agent_task. by rewrite Hnone, Hstate.
  - intros w sid saved Hnone Hsaved Hall Hprompt. eexists. cbv zeta.
    by apply cold_resume_starts.
  - intros w w' sid r wk. unfold Durable.resume_agent_task.
    destruct (Durable.session_states w !! sid) as [st|].
    + destruct (String.eqb_spec (Durable.ss_status st) "waiting_approval"); done.
    + by destruct (Durable.get_agent_state (Durable.tbl w) sid).
Qed.

Lemma resume_status_guard_witness :
  let w0 := Examples.durable_suspended "delete the file /tmp/x" [Examples.i1] in
  let w1 := Examples.restart
              (snd (Durable.approve_request "s1"
                      (Examples.approve_payload "i1" "y" "alice") Examples.clock1 w0)) in
  let out := Durable.resume_agent_task "s1" w1 in
  let w2 := match snd out with
            | Some wk => Durable.run_work wk Examples.finished Examples.clock1 (snd (fst out))
            | None => snd (fst out)
            end in
  Durable.resume_agent_task "s1" w2
  = (ReplyError "Session is not waiting for approval: completed" NoDetail, w2, None) /\
  Durable.resume_agent_task "s1" (Durable.mkWorld ∅ ∅ Examples.host0)
  = (ReplyError "No pending session found: s1" NoDetail,
     Durable.mkWorld ∅ ∅ Examples.host0, None) /\
  (exists pre : pydict string,
      fst (fst (Durable.resume_agent_task "s1" (Examples.restart w2)))
      = ReplyResuming "s1" 1 (Some (dict_keys pre))).
Proof.
  cbv zeta. split; [|split].
  - refine (proj1 resume_status_guard _ "s1" (Durable.completed "done") _ _).
    + vm_compute. reflexivity.
    + discriminate.
  - refine (proj1 (proj2 (proj2 (proj2 resume_status_guard))) _ "s1" _ _); reflexivity.
  - destruct (proj1 (proj2 (proj2 (proj2 (proj2 resume_status_guard))))
                (Examples.restart
                   (match snd (Durable.resume_agent_task "s1"
                      (Examples.restart
                         (snd (Durable.approve_request "s1"
                                 (Examples.approve_payload "i1" "y" "alice") Examples.clock1
                                 (Examples.durable_suspended "delete the file /tmp/x"
                                    [Examples.i1]))))) with
                    | Some wk =>
                        Durable.run_work wk Examples.finished Examples.clock1
                          (snd (fst (Durable.resume_agent_task "s1"
                             (Examples.restart
                                (snd (Durable.approve_request "s1"
                                        (Examples.approve_payload "i1" "y" "alice")
                                        Examples.clock1
                                        (Examples.durable_suspended "delete the file /tmp/x"
                                           [Examples.i1])))))))
                    | None =>
                        snd (fst (Durable.resume_agent_task "s1"
                             (Examples.restart
                                (snd (Durable.approve_request "s1"
                                        (Examples.approve_payload "i1" "y" "alice")
                                        Examples.clock1
                                        (Examples.durable_suspended "delete the file /tmp/x"
                                           [Examples.i1]))))))
                    end))
                "s1" (Durable.mkSavedState "delete the file /tmp/x" [Examples.i1]))
      as [pre Hr].
    + reflexivity.
    + vm_compute. reflexivity.
    + constructor; [vm_compute; reflexivity | constructor].
    + discriminate.
    + exists pre. cbv zeta in Hr. rewrite Hr. reflexivity.
Defined.

Lemma cold_scan_keys_sound (t : Durable.table) (sid : string) (ints : list Interrupt) :
  forall tool,
    dict_get (fst (Durable.cold_scan t sid ints)) tool <> None ->
    exists i, In i ints /\ Durable.reason_tool (i_reason i) = Some tool /\ tool <> "".
Proof.
  induction ints as [|i ints IH] using rev_ind; intros tool; [done|].
  rewrite cold_scan_snoc.
  destruct (Durable.cold_scan t sid ints) as [pre pend]. simpl in IH.
  assert (Hold : dict_get pre tool <> None ->
                 exists i0, In i0 (ints ++ [i]) /\
                   Durable.reason_tool (i_reason i0) = Some tool /\ tool <> "").
  { intros H. destruct (IH tool H) as [i0 [Hin Hr]]. exists i0.
    split; [apply in_or_app; by left | done]. }
  unfold Durable.cold_step.
  destruct (truthy_opt (Durable.get_approval_response t sid (i_id i))); [|exact Hold].
  destruct (Durable.reason_tool (i_reason i)) as [tn|] eqn:Htn; simpl; [|exact Hold].
  unfold truthy. destruct (String.eqb_spec tn "") as [->|Hne]; simpl; [exact Hold|].
  destruct (String.eqb_spec tn tool) as [->|Hd].
  - intros _. exists i. split; [apply in_or_app; right; by left | done].
  - rewrite dict_get_set_ne by done. exact Hold.
Qed.

Lemma find_names_tool (tool : string) (l : list Interrupt) i :
  In i l -> Durable.reason_tool (i_reason i) = Some tool ->
  exists j, List.find (names_tool tool) l = Some j /\ In j l.
Proof.
  intros Hin Hr. destruct (List.find (names_tool tool) l) as [j|] eqn:Hf.
  - exists j. split; [done|]. by apply find_some in Hf as [? _].
  - eapply find_none in Hf; [|exact Hin]. unfold names_tool in Hf.
    rewrite Hr, String.eqb_refl in Hf. discriminate.
Qed.

Lemma cold_scan_keys (t : Durable.table) (sid : string) (ints : list Interrupt) :
  Forall (fun i => usable_answer t sid (i_id i) = true) ints ->
  forall tool,
    In tool (dict_keys (fst (Durable.cold_scan t sid ints))) <->
    exists i, In i ints /\ Durable.reason_tool (i_reason i) = Some tool /\ tool <> "".
Proof.
  intros Hall tool. rewrite dict_keys_get. split; [apply cold_scan_keys_sound|].
  intros [i [Hin [Hr Hne]]]. rewrite (cold_scan_map t sid ints Hall tool Hne).
  unfold last_answer_for.
  destruct (find_names_tool tool (rev ints) i) as [j [-> Hj]];
    [by apply in_rev in Hin | done |].
  apply in_rev in Hj. rewrite Forall_forall in Hall.
  assert (Hu : usable_answer t sid (i_id j) = true).
  { apply Hall. by apply list_elem_of_In. }
  apply truthy_opt_Some in Hu as [a [-> _]]. discriminate.
Qed.

(** C8, as stated, fails: a cold-path resume with every interrupt approved
    returns an error when the saved prompt is empty, and also when an
    interrupt was approved with an empty response. *)
Lemma cold_resume_refused_though_answered :
  let a0 := Examples.durable_suspended "" [Examples.i1] in
  let a := Examples.restart
             (snd (Durable.approve_request "s1"
                     (Examples.approve_payload "i1" "y" "alice") Examples.clock1 a0)) in
  let b0 := Examples.durable_suspended "delete the file /tmp/x" [Examples.i1] in
  let b := Examples.restart
             (snd (Durable.approve_request "s1"
                     (Examples.approve_payload "i1" "" "alice") Examples.clock1 b0)) in
  (Durable.session_states a !! "s1" = None /\
   recorded_suspension a "s1" = Some [Examples.i1] /\
   has_terminal_approval (Durable.tbl a) "s1" "i1" = true /\
   fst (fst (Durable.resume_agent_task "s1" a))
   = ReplyError "Original prompt not found in saved state" NoDetail) /\
  (Durable.session_states b !! "s1" = None /\
   recorded_suspension b "s1" = Some [Examples.i1] /\
   has_terminal_approval (Durable.tbl b) "s1" "i1" = true /\
   fst (fst (Durable.resume_agent_task "s1" b))
   = ReplyError "Not all approvals have been responded to" (PendingList [Examples.i1])).
Proof. vm_compute. repeat split. Qed.

(** C8 (amended): for every cold-path resume (no cached TaskSession) in which
    every interrupt of the saved suspension has a terminal PendingApproval
    with a non-empty response and the saved prompt is not empty, the
    orchestrator builds a map from operation name (taken from each
    interrupt's reason) to the recorded answer, the last interrupt naming an
    operation deciding its entry; it registers a task, starts a closure that
    builds a fresh engine with that map as pre-approved answers and enters
    it with the original prompt, and returns the reply resuming with the
    task id and the operation names of the map. *)
Theorem cold_resume_replays_with_answers :
  forall (w : Durable.World) (sid : string) (saved : Durable.SavedState),
    Durable.session_states w !! sid = None ->
    Durable.get_agent_state (Durable.tbl w) sid = Some saved ->
    Forall (fun i => usable_answer (Durable.tbl w) sid (i_id i) = true)
           (Durable.saved_interrupts saved) ->
    Durable.prompt saved <> "" ->
    exists pre : pydict string,
      let task_id := next_task_id (Durable.host w) in
      let wk := Durable.ResumeWorkCold sid pre (Durable.prompt saved) task_id in
      Durable.resume_agent_task sid w
      = (ReplyResuming sid task_id (Some (dict_keys pre)),
         Durable.mkWorld (Durable.tbl w) (Durable.session_states w)
           (snd (add_async_task "agent_resume" sid (Durable.host w))),
         Some wk) /\
      Durable.engine_entry wk
      = (Durable.mkAgent (Durable.mkHook "hitl-demo" sid pre) ∅,
         Prompt (Durable.prompt saved)) /\
      (forall tool, tool <> "" ->
         dict_get pre tool
         = last_answer_for (Durable.tbl w) sid (Durable.saved_interrupts saved) tool) /\
      (forall tool,
         In tool (dict_keys pre) <->
         exists i, In i (Durable.saved_interrupts saved) /\
                   Durable.reason_tool (i_reason i) = Some tool /\ tool <> "").
Proof.
  intros w sid saved Hnone Hsaved Hall Hprompt.
  exists (fst (Durable.cold_scan (Durable.tbl w) sid (Durable.saved_interrupts saved))).
  cbv zeta. split; [|split; [reflexivity|split]].
  - unfold Durable.resume_agent_task. rewrite Hnone, Hsaved.
    pose proof (cold_scan_pending (Durable.tbl w) sid (Durable.saved_interrupts saved)) as Hp.
    rewrite (filter_no_failure _ _ Hall) in Hp.
    destruct (Durable.cold_scan (Durable.tbl w) sid (Durable.saved_interrupts saved))
      as [pre pending]. simpl in Hp. subst pending.
    rewrite (truthy_ne _ Hprompt). reflexivity.
  - intros tool Htool. by apply cold_scan_map.
  - by apply cold_scan_keys.
Qed.

Lemma cold_resume_replays_with_answers_witness :
  let w0 := Examples.durable_suspended "delete the file /tmp/x" [Examples.i1] in
  let w := Examples.restart
             (snd (Durable.reject_request "s1"
                     (Examples.reject_payload "i1" "too risky" "bob") Examples.clock1 w0)) in
  exists pre : pydict string,
    fst (fst (Durable.resume_agent_task "s1" w))
    = ReplyResuming "s1" 1 (Some (dict_keys pre)) /\
    dict_get pre "delete_files" = Some "n".
Proof.
  cbv zeta.
  destruct (cold_resume_replays_with_answers
              (Examples.restart
                 (snd (Durable.reject_request "s1"
                         (Examples.reject_payload "i1" "too risky" "bob") Examples.clock1
                         (Examples.durable_suspended "delete the file /tmp/x" [Examples.i1]))))
              "s1" (Durable.mkSavedState "delete the file /tmp/x" [Examples.i1]))
    as [pre [Hr [_ [Hmap _]]]].
  - vm_compute. reflexivity.
  - vm_compute. reflexivity.
  - constructor; [vm_compute; reflexivity | constructor].
  - discriminate.
  - exists pre. split.
    + rewrite Hr. reflexivity.
    + rewrite Hmap by discriminate. vm_compute. reflexivity.
Defined.

End ResumeProperties.

(** ** Background runs *)

Section RunProperties.
Import ResumeSpec.

Lemma state_key_ne_result (sid sid' : string) :
  (sid, "__result__") <> (sid', "__state__").
Proof. intros [= _ H]. Qed.

Lemma get_state_after_result (now : Clock) (sid sid' : string) (res : Durable.TaskResult)
    (t : Durable.table) :
  Durable.get_agent_state (Durable.save_agent_result now sid res t) sid'
  = Durable.get_agent_state t sid'.
Proof.
  unfold Durable.get_agent_state, Durable.save_agent_result.
  by rewrite lookup_insert_ne by apply state_key_ne_result.
Qed.

Lemma get_state_after_save (now : Clock) (sid : string) (st : Durable.SavedState)
    (t : Durable.table) :
  Durable.get_agent_state (Durable.save_agent_state now sid st t) sid = Some st.
Proof.
  unfold Durable.get_agent_state, Durable.save_agent_state.
  rewrite lookup_insert_eq. by simplify_map_eq.
Qed.

(** C6, as stated, fails: after a cold-path resumption that runs to
    completion, the session is completed, its result is stored, and the
    ResumableState record is still retrievable. *)
Lemma state_record_survives_completion :
  let w0 := Examples.durable_suspended "delete the file /tmp/x" [Examples.i1] in
  let w1 := Examples.restart
              (snd (Durable.approve_request "s1"
                      (Examples.approve_payload "i1" "y" "alice") Examples.clock1 w0)) in
  let out := Durable.resume_agent_task "s1" w1 in
  let w3 := match snd out with
            | Some wk => Durable.run_work wk Examples.finished Examples.clock1 (snd (fst out))
            | None => snd (fst out)
            end in
  fst (fst out) = ReplyResuming "s1" 1 (Some ["delete_files"]) /\
  Durable.session_states w3 !! "s1" = Some (Durable.completed "done") /\
  Durable.get_agent_result (Durable.tbl w3) "s1"
    = Some (Durable.ResultMessage "done" "end_turn") /\
  Durable.get_agent_state (Durable.tbl w3) "s1"
    = Some (Durable.mkSavedState "delete the file /tmp/x" [Examples.i1]).
Proof. vm_compute. repeat split. Qed.

(** C6 (amended): the orchestrator never deletes the durable ResumableState
    record. When a run reaches a terminal outcome (a result that is not a
    suspension, or an exception), the record of every session is
    retrievable exactly as before; when a cold-path resumed run suspends
    again, the record of its session is replaced by one holding the original
    prompt and the new interrupts. *)
Theorem resumable_state_is_kept :
  forall (wk : Durable.work) (r : engine_run) (now : Clock) (w : Durable.World),
    (suspends r = false ->
     forall sid' : string,
       Durable.get_agent_state (Durable.tbl (Durable.run_work wk r now w)) sid'
       = Durable.get_agent_state (Durable.tbl w) sid') /\
    (forall (sid : string) (pre : pydict string) (p : string) (tid : Z)
            (st' : gmap string string) (res : AgentResult),
       wk = Durable.ResumeWorkCold sid pre p tid ->
       r = Yields st' res ->
       suspends r = true ->
       Durable.get_agent_state (Durable.tbl (Durable.run_work wk r now w)) sid
       = Some (Durable.mkSavedState p (interrupts res))).
Proof.
  intros wk r now w. split.
  - intros Hterm sid'.
    destruct wk; destruct r as [st' res|e]; simpl in Hterm; simpl;
      rewrite ?Hterm; simpl; apply get_state_after_result.
  - intros sid pre p tid st' res -> -> Hs. simpl in Hs. simpl. rewrite Hs. simpl.
    apply get_state_after_save.
Qed.

Lemma resumable_state_is_kept_witness :
  Durable.get_agent_state
    (Durable.tbl (Durable.run_work (Durable.ResumeWorkFast "s1" (Durable.new_agent "s1" [])
                                      [mkInterruptResponse "i1" "y"] 2)
                    Examples.finished Examples.clock1
                    (Examples.durable_suspended "delete the file /tmp/x" [Examples.i1])))
    "s1"
  = Durable.get_agent_state
      (Durable.tbl (Examples.durable_suspended "delete the file /tmp/x" [Examples.i1])) "s1".
Proof.
  refine (proj1 (resumable_state_is_kept _ Examples.finished _ _) _ "s1").
  reflexivity.
Defined.

Lemma completions_complete (tid : Z) (h : Host) :
  completions tid (complete_async_task tid h) = S (completions tid h).
Proof.
  unfold completions, complete_async_task. simpl.
  rewrite List.filter_app, length_app. simpl. rewrite Z.eqb_refl. simpl. lia.
Qed.

(** C5: in memory-only mode, a run (initial or resumed) that ends in a
    suspension makes no call of [complete_async_task], so the task
    registered for it stays open; a run that ends without suspending
    (completed or error) calls it exactly once, for its task id. In durable
    mode every run calls it exactly once, suspension included. *)
Theorem completion_signal_by_mode :
  (forall (wk : MemoryOnly.work) (r : engine_run) (now : Clock) (w : MemoryOnly.World),
      MemoryOnly.host (MemoryOnly.run_work wk r now w)
      = (if suspends r then MemoryOnly.host w
         else complete_async_task (MemoryOnly.work_task_id wk) (MemoryOnly.host w)) /\
      completions (MemoryOnly.work_task_id wk)
                  (MemoryOnly.host (MemoryOnly.run_work wk r now w))
      = (completions (MemoryOnly.work_task_id wk) (MemoryOnly.host w)
         + if suspends r then 0 else 1)%nat) /\
  (forall (payload : Payload) (sid : string) (r : engine_run) (now : Clock)
          (w : MemoryOnly.World),
      let out := MemoryOnly.start_agent_task payload sid w in
      let tid := MemoryOnly.work_task_id (snd out) in
      host_calls (MemoryOnly.host (MemoryOnly.run_work (snd out) r now (snd (fst out))))
      = host_calls (MemoryOnly.host w)
        ++ AddAsyncTask "agent_processing" sid tid
           :: (if suspends r then [] else [CompleteAsyncTask tid])) /\
  (forall (wk : Durable.work) (r : engine_run) (now : Clock) (w : Durable.World),
      Durable.host (Durable.run_work wk r now w)
      = complete_async_task (Durable.work_task_id wk) (Durable.host w) /\
      completions (Durable.work_task_id wk) (Durable.host (Durable.run_work wk r now w))
      = S (completions (Durable.work_task_id wk) (Durable.host w))).
Proof.
  split; [|split].
  - intros wk r now w.
    assert (Hh : MemoryOnly.host (MemoryOnly.run_work wk r now w)
                 = if suspends r then MemoryOnly.host w
                   else complete_async_task (MemoryOnly.work_task_id wk) (MemoryOnly.host w)).
    { unfold MemoryOnly.run_work, MemoryOnly.background_work, MemoryOnly.resume_work,
        MemoryOnly.after_run, MemoryOnly.finally_complete.
      destruct wk; destruct r as [st' res|e]; cbn;
        try destruct (String.eqb (stop_reason res) "interrupt"); reflexivity. }
    split; [exact Hh|]. rewrite Hh.
    destruct (suspends r); [lia | rewrite completions_complete; lia].
  - intros payload sid r now w. cbv zeta.
    unfold MemoryOnly.start_agent_task, MemoryOnly.run_work, MemoryOnly.background_work,
      MemoryOnly.after_run, MemoryOnly.finally_complete.
    destruct r as [st' res|e]; cbn;
      try destruct (String.eqb (stop_reason res) "interrupt"); cbn;
      rewrite <- ?app_assoc; reflexivity.
  - intros wk r now w.
    assert (Hh : Durable.host (Durable.run_work wk r now w)
                 = complete_async_task (Durable.work_task_id wk) (Durable.host w)).
    { unfold Durable.run_work, Durable.background_work, Durable.resume_work_cold,
        Durable.resume_work_fast.
      destruct wk; destruct r as [st' res|e]; cbn;
        try destruct (String.eqb (stop_reason res) "interrupt"); reflexivity. }
    split; [exact Hh|]. rewrite Hh. apply completions_complete.
Qed.

End RunProperties.

(** ** Reject *)

Section RejectProperties.
Import Gate GateSpec StoreSpec ResumeSpec.












End RejectProperties.

(** * Further properties *)

(** ** The gate: trust, suspension and pre-approved answers *)

Section MoreGateProperties.
Import Gate GateSpec MoreSpec.

Lemma append_length (s1 s2 : string) :
  String.length (s1 +:+ s2) = (String.length s1 + String.length s2)%nat.
Proof. induction s1 as [|c s1 IH]; simpl; [done | by rewrite IH]. Qed.

Lemma append_inj_r (s1 s2 t : string) : s1 +:+ t = s2 +:+ t -> s1 = s2.
Proof.
  revert s2. induction s1 as [|c s1 IH]; intros [|c2 s2]; simpl; intros H.
  - done.
  - change (t = String c2 (s2 +:+ t)) in H.
    apply (f_equal String.length) in H. simpl in H.
    rewrite (append_length s2 t) in H. lia.
  - change (String c (s1 +:+ t) = t) in H.
    apply (f_equal String.length) in H. simpl in H.
    rewrite (append_length s1 t) in H. lia.
  - injection H as -> H. by rewrite (IH _ H).
Qed.

Lemma trust_key_inj (app t1 t2 : string) :
  trust_key app t1 = trust_key app t2 -> t1 = t2.
Proof.
  unfold trust_key. intros H.
  apply (String.app_inj app) in H. apply (String.app_inj "-") in H.
  by apply append_inj_r in H.
Qed.

Lemma is_trusted_true (st : gmap string string) (k : string) :
  st !! k = Some "trusted" -> Durable.is_trusted (st !! k) = true.
Proof. by intros ->. Qed.

(** X1: a risky operation that is already trusted passes the gate at once:
    the hook reads the trust key and nothing else, raises no interrupt,
    leaves the trust state alone and does not cancel the tool, whatever the
    pre-approved answers (a denial included) and the interrupt responses
    are. Both hooks. *)
Theorem trusted_tool_skips_gate :
  forall (dself : Durable.ApprovalHook) (mself : MemoryOnly.ApprovalHook)
         (event : BeforeToolCallEvent) (answers : string -> option string)
         (st : gmap string string),
    In (tool_use_name event) DANGEROUS_TOOLS ->
    (st !! trust_key (Durable.app_name dself) (tool_use_name event) = Some "trusted" ->
     Durable.run_hook dself event answers st
     = (Returned tt (mkEnv st None),
        [ReadState (trust_key (Durable.app_name dself) (tool_use_name event))])) /\
    (st !! trust_key (MemoryOnly.app_name mself) (tool_use_name event) = Some "trusted" ->
     MemoryOnly.run_hook mself event answers st
     = (Returned tt (mkEnv st None),
        [ReadState (trust_key (MemoryOnly.app_name mself) (tool_use_name event))])).
Proof.
  intros dself mself event answers st Hin. apply str_in_In in Hin.
  split; intros Ht.
  - unfold Durable.run_hook, Durable.approve. rewrite Hin. cbn. by rewrite Ht.
  - unfold MemoryOnly.run_hook, MemoryOnly.approve. rewrite Hin. cbn. by rewrite Ht.
Qed.

Lemma trusted_tool_skips_gate_witness :
  Durable.run_hook (Durable.mkHook "hitl-demo" "s1" [("delete_files", "n")])
                   (mkEvent "delete_files" "{}") (fun _ => Some "n")
                   {["hitl-demo-delete_files-trust" := "trusted"]}
  = (Returned tt (mkEnv {["hitl-demo-delete_files-trust" := "trusted"]} None),
     [ReadState "hitl-demo-delete_files-trust"]).
Proof.
  refine (proj1 (trusted_tool_skips_gate
                   (Durable.mkHook "hitl-demo" "s1" [("delete_files", "n")])
                   (MemoryOnly.mkHook "hitl-demo" "s1")
                   (mkEvent "delete_files" "{}") (fun _ => Some "n")
                   {["hitl-demo-delete_files-trust" := "trusted"]} _) _).
  - simpl. auto.
  - reflexivity.
Defined.

Lemma durable_hook_unanswered (self : Durable.ApprovalHook) (event : BeforeToolCallEvent)
    (answers : string -> option string) (st : gmap string string) :
  gated (Durable.app_name self) event st ->
  dict_get (Durable.pre_approved_tools self) (tool_use_name event) = None ->
  answers (approval_name (Durable.app_name self) (tool_use_name event)) = None ->
  Durable.run_hook self event answers st
  = (Suspended (approval_name (Durable.app_name self) (tool_use_name event))
               (approval_reason event) (mkEnv st None),
     [ReadState (trust_key (Durable.app_name self) (tool_use_name event));
      ReadPreApproved (tool_use_name event);
      RaisedInterrupt (approval_name (Durable.app_name self) (tool_use_name event))]).
Proof.
  intros [Hin Hst] Hpre Hans. apply str_in_In in Hin. apply is_trusted_false in Hst.
  unfold Durable.run_hook, Durable.approve. rewrite Hin. cbn.
  rewrite Hst. cbn. rewrite Hpre. cbn. by rewrite Hans.
Qed.

Lemma memory_hook_unanswered (self : MemoryOnly.ApprovalHook) (event : BeforeToolCallEvent)
    (answers : string -> option string) (st : gmap string string) :
  gated (MemoryOnly.app_name self) event st ->
  answers (approval_name (MemoryOnly.app_name self) (tool_use_name event)) = None ->
  MemoryOnly.run_hook self event answers st
  = (Suspended (approval_name (MemoryOnly.app_name self) (tool_use_name event))
               (approval_reason event) (mkEnv st None),
     [ReadState (trust_key (MemoryOnly.app_name self) (tool_use_name event));
      RaisedInterrupt (approval_name (MemoryOnly.app_name self) (tool_use_name event))]).
Proof.
  intros [Hin Hst] Hans. apply str_in_In in Hin. apply is_trusted_false in Hst.
  unfold MemoryOnly.run_hook, MemoryOnly.approve. rewrite Hin. cbn.
  change (MemoryOnly.is_trusted ?x) with (Durable.is_trusted x). rewrite Hst.
  cbn. by rewrite Hans.
Qed.

(** X2: a gated risky operation with no pre-approved answer and no response
    to its interrupt suspends: the hook raises the interrupt named
    app-tool-approval whose reason carries the operation name, its input and
    the prompt, and leaves the trust state and the cancellation flag
    untouched. Both hooks. *)
Theorem gate_suspends_without_answer :
  forall (dself : Durable.ApprovalHook) (mself : MemoryOnly.ApprovalHook)
         (event : BeforeToolCallEvent) (answers : string -> option string)
         (st : gmap string string),
    (gated (Durable.app_name dself) event st ->
     dict_get (Durable.pre_approved_tools dself) (tool_use_name event) = None ->
     answers (approval_name (Durable.app_name dself) (tool_use_name event)) = None ->
     fst (Durable.run_hook dself event answers st)
     = Suspended (Durable.app_name dself +:+ "-" +:+ tool_use_name event +:+ "-approval")
         (ReasonDict (Some (tool_use_name event)) (tool_use_input event)
            ("Tool '" +:+ tool_use_name event
             +:+ "' requires human approval before execution"))
         (mkEnv st None)) /\
    (gated (MemoryOnly.app_name mself) event st ->
     answers (approval_name (MemoryOnly.app_name mself) (tool_use_name event)) = None ->
     fst (MemoryOnly.run_hook mself event answers st)
     = Suspended (MemoryOnly.app_name mself +:+ "-" +:+ tool_use_name event +:+ "-approval")
         (ReasonDict (Some (tool_use_name event)) (tool_use_input event)
            ("Tool '" +:+ tool_use_name event
             +:+ "' requires human approval before execution"))
         (mkEnv st None)).
Proof.
  intros dself mself event answers st. split.
  - intros Hg Hpre Hans. by rewrite (durable_hook_unanswered _ _ _ _ Hg Hpre Hans).
  - intros Hg Hans. by rewrite (memory_hook_unanswered _ _ _ _ Hg Hans).
Qed.

Lemma gate_suspends_without_answer_witness :
  fst (MemoryOnly.run_hook (MemoryOnly.mkHook "hitl-demo" "s1")
                           (mkEvent "modify_database" "{query: drop}") (fun _ => None) ∅)
  = Suspended "hitl-demo-modify_database-approval"
      (ReasonDict (Some "modify_database") "{query: drop}"
         "Tool 'modify_database' requires human approval before execution")
      (mkEnv ∅ None).
Proof.
  refine (proj2 (gate_suspends_without_answer
                   (Durable.mkHook "hitl-demo" "s1" [])
                   (MemoryOnly.mkHook "hitl-demo" "s1")
                   (mkEvent "modify_database" "{query: drop}") (fun _ => None) ∅) _ _).
  - split; [simpl; auto | rewrite lookup_empty; discriminate].
  - reflexivity.
Defined.

(** X3: a pre-approved answer for a gated operation is used in place of the
    interrupt: the durable hook returns without raising an interrupt, and
    its result does not depend on the responses the engine holds, so a replay
    never suspends on an operation that was answered before. *)
Theorem pre_approved_answer_replaces_interrupt :
  forall (self : Durable.ApprovalHook) (event : BeforeToolCallEvent)
         (answers answers' : string -> option string) (st : gmap string string)
         (a : string),
    gated (Durable.app_name self) event st ->
    dict_get (Durable.pre_approved_tools self) (tool_use_name event) = Some a ->
    Durable.run_hook self event answers st = Durable.run_hook self event answers' st /\
    interrupt_raised (snd (Durable.run_hook self event answers st)) = false /\
    exists e, fst (Durable.run_hook self event answers st) = Returned tt e.
Proof.
  intros self event answers answers' st a [Hin Hst] Hpre.
  apply str_in_In in Hin. apply is_trusted_false in Hst.
  unfold Durable.run_hook, Durable.approve. rewrite Hin. cbn.
  rewrite Hst. cbn. rewrite Hpre. unfold process_approval.
  destruct (String.eqb (lower a) "t"); [cbn; eauto|].
  destruct (String.eqb (lower a) "y"); cbn; eauto.
Qed.

Lemma pre_approved_answer_replaces_interrupt_witness :
  interrupt_raised
    (snd (Durable.run_hook (Durable.mkHook "hitl-demo" "s1" [("delete_files", "y")])
                           (mkEvent "delete_files" "{}") (fun _ => None) ∅)) = false.
Proof.
  refine (proj1 (proj2 (pre_approved_answer_replaces_interrupt
            (Durable.mkHook "hitl-demo" "s1" [("delete_files", "y")])
            (mkEvent "delete_files" "{}") (fun _ => None) (fun _ => None) ∅ "y" _ _))).
  - split; [simpl; auto | rewrite lookup_empty; discriminate].
  - reflexivity.
Defined.

Lemma durable_hook_final (self : Durable.ApprovalHook) (event : BeforeToolCallEvent)
    (answers : string -> option string) (st : gmap string string) :
  final_state (fst (Durable.run_hook self event answers st)) = st \/
  final_state (fst (Durable.run_hook self event answers st))
  = <[trust_key (Durable.app_name self) (tool_use_name event) := "trusted"]> st.
Proof.
  unfold Durable.run_hook, Durable.approve, process_approval.
  destruct (str_in (tool_use_name event) DANGEROUS_TOOLS); cbn; [|by left].
  destruct (Durable.is_trusted _); cbn; [by left|].
  destruct (dict_get _ _) as [a|]; cbn.
  - destruct (String.eqb (lower a) "t"); cbn; [by right|].
    destruct (String.eqb (lower a) "y"); cbn; by left.
  - destruct (answers _) as [a|]; cbn; [|by left].
    destruct (String.eqb (lower a) "t"); cbn; [by right|].
    destruct (String.eqb (lower a) "y"); cbn; by left.
Qed.

Lemma memory_hook_final (self : MemoryOnly.ApprovalHook) (event : BeforeToolCallEvent)
    (answers : string -> option string) (st : gmap string string) :
  final_state (fst (MemoryOnly.run_hook self event answers st)) = st \/
  final_state (fst (MemoryOnly.run_hook self event answers st))
  = <[trust_key (MemoryOnly.app_name self) (tool_use_name event) := "trusted"]> st.
Proof.
  unfold MemoryOnly.run_hook, MemoryOnly.approve, process_approval.
  destruct (str_in (tool_use_name event) DANGEROUS_TOOLS); cbn; [|by left].
  destruct (MemoryOnly.is_trusted _); cbn; [by left|].
  destruct (answers _) as [a|]; cbn; [|by left].
  destruct (String.eqb (lower a) "t"); cbn; [by right|].
  destruct (String.eqb (lower a) "y"); cbn; by left.
Qed.

Lemma insert_trusted_keeps (st : gmap string string) (k k' : string) :
  st !! k' = Some "trusted" -> <[k := "trusted"]> st !! k' = Some "trusted".
Proof.
  intros H. destruct (decide (k = k')) as [->|Hne].
  - apply lookup_insert_eq.
  - by rewrite lookup_insert_ne.
Qed.

(** X4: whatever the event, the answers and the outcome (return or
    suspension), a run of the hook changes the engine's scratch area at most
    at the trust key of the operation it was called for, and never revokes
    trust: every key that held the mark trusted before still holds it
    afterwards. Both hooks. *)
Theorem gate_only_adds_own_trust :
  forall (dself : Durable.ApprovalHook) (mself : MemoryOnly.ApprovalHook)
         (event : BeforeToolCallEvent) (answers : string -> option string)
         (st : gmap string string),
    let d := final_state (fst (Durable.run_hook dself event answers st)) in
    let m := final_state (fst (MemoryOnly.run_hook mself event answers st)) in
    (forall k, k <> trust_key (Durable.app_name dself) (tool_use_name event) ->
               d !! k = st !! k) /\
    (forall k, st !! k = Some "trusted" -> d !! k = Some "trusted") /\
    (forall k, k <> trust_key (MemoryOnly.app_name mself) (tool_use_name event) ->
               m !! k = st !! k) /\
    (forall k, st !! k = Some "trusted" -> m !! k = Some "trusted").
Proof.
  intros dself mself event answers st. cbv zeta.
  destruct (durable_hook_final dself event answers st) as [-> | ->];
    destruct (memory_hook_final mself event answers st) as [-> | ->];
    repeat split; intros k Hk;
    first [done | by rewrite lookup_insert_ne | by apply insert_trusted_keeps].
Qed.

Lemma gate_only_adds_own_trust_witness :
  final_state
    (fst (Durable.run_hook (Durable.mkHook "hitl-demo" "s1" [])
            (mkEvent "delete_files" "{}") (fun _ => Some "t")
            {["hitl-demo-execute_command-trust" := "trusted"]}))
  !! "hitl-demo-execute_command-trust" = Some "trusted".
Proof.
  refine (proj1 (proj2 (gate_only_adds_own_trust
            (Durable.mkHook "hitl-demo" "s1" []) (MemoryOnly.mkHook "hitl-demo" "s1")
            (mkEvent "delete_files" "{}") (fun _ => Some "t")
            {["hitl-demo-execute_command-trust" := "trusted"]})) _ _).
  reflexivity.
Defined.

Lemma durable_hook_trusted (self : Durable.ApprovalHook) (event : BeforeToolCallEvent)
    (answers : string -> option string) (st : gmap string string) :
  In (tool_use_name event) DANGEROUS_TOOLS ->
  st !! trust_key (Durable.app_name self) (tool_use_name event) = Some "trusted" ->
  Durable.run_hook self event answers st
  = (Returned tt (mkEnv st None),
     [ReadState (trust_key (Durable.app_name self) (tool_use_name event))]).
Proof.
  intros Hin Ht. apply str_in_In in Hin.
  unfold Durable.run_hook, Durable.approve. rewrite Hin. cbn. by rewrite Ht.
Qed.

(** X5: trust persists and is per operation. After a gated operation is
    answered with an answer whose lower-casing is t, every later event of
    the same operation name on the resulting state passes the gate without
    an interrupt and without cancellation, whatever its input, whatever the
    pre-approved answers of the hook and with no response at hand; an
    event of another gated operation still suspends. Durable hook. *)
Theorem trust_persists_per_operation :
  forall (self self' : Durable.ApprovalHook) (event later other : BeforeToolCallEvent)
         (answers : string -> option string) (st : gmap string string) (a : string),
    gated (Durable.app_name self) event st ->
    answered_with self event answers a ->
    lower a = "t" ->
    Durable.app_name self' = Durable.app_name self ->
    let st1 := final_state (fst (Durable.run_hook self event answers st)) in
    (tool_use_name later = tool_use_name event ->
     forall answers',
       Durable.run_hook self' later answers' st1
       = (Returned tt (mkEnv st1 None),
          [ReadState (trust_key (Durable.app_name self) (tool_use_name event))])) /\
    (tool_use_name other <> tool_use_name event ->
     gated (Durable.app_name self) other st ->
     dict_get (Durable.pre_approved_tools self') (tool_use_name other) = None ->
     exists name reason,
       fst (Durable.run_hook self' other (fun _ => None) st1)
       = Suspended name reason (mkEnv st1 None)).
Proof.
  intros self self' event later other answers st a Hg Hsrc Ht Happ. cbv zeta.
  rewrite (durable_hook_answered _ _ _ _ _ Hg Hsrc).
  pose proof (verdicts (Durable.app_name self) (tool_use_name event) a
                (Durable.pre_approved_tools self) answers st) as Hv.
  cbv zeta in Hv. destruct Hv as [Hv _]. specialize (Hv Ht).
  unfold trusts_and_allows in Hv. rewrite Hv. cbn [final_state agent_state].
  split.
  - intros Hsame answers'.
    rewrite (durable_hook_trusted self' later answers').
    + by rewrite Happ, Hsame.
    + rewrite Hsame. by destruct Hg.
    + rewrite Happ, Hsame. apply lookup_insert_eq.
  - intros Hother [Hin Hst] Hpre.
    eexists _, _.
    rewrite (durable_hook_unanswered self' other (fun _ => None)); [reflexivity| |done|done].
    rewrite Happ. split; [done|].
    rewrite lookup_insert_ne; [done|].
    intros Heq. apply trust_key_inj in Heq. congruence.
Qed.

Lemma trust_persists_per_operation_witness :
  let st1 := final_state
               (fst (Durable.run_hook (Durable.mkHook "hitl-demo" "s1" [])
                       (mkEvent "delete_files" "{paths: [a]}") (fun _ => Some "T") ∅)) in
  Durable.run_hook (Durable.mkHook "hitl-demo" "s1" [("delete_files", "n")])
                   (mkEvent "delete_files" "{paths: [b]}") (fun _ => None) st1
  = (Returned tt (mkEnv st1 None), [ReadState "hitl-demo-delete_files-trust"]).
Proof.
  cbv zeta.
  refine (proj1 (trust_persists_per_operation
            (Durable.mkHook "hitl-demo" "s1" [])
            (Durable.mkHook "hitl-demo" "s1" [("delete_files", "n")])
            (mkEvent "delete_files" "{paths: [a]}")
            (mkEvent "delete_files" "{paths: [b]}")
            (mkEvent "execute_command" "{}")
            (fun _ => Some "T") ∅ "T" _ _ _ _) _ (fun _ => None)).
  - split; [simpl; auto | rewrite lookup_empty; discriminate].
  - right. split; reflexivity.
  - reflexivity.
  - reflexivity.
  - reflexivity.
Defined.

End MoreGateProperties.

(** ** The durable table *)

Section MoreStoreProperties.
Import StoreSpec ResumeSpec MoreSpec.

Lemma update_other_key (now : Clock) (sid iid status response approver : string)
    (t : Durable.table) (k : string * string) :
  k <> (sid, iid) ->
  Durable.update_approval_status now sid iid status response approver t !! k = t !! k.
Proof.
  intros Hne. unfold Durable.update_approval_status. by rewrite lookup_insert_ne.
Qed.

Lemma update_commute (now1 now2 : Clock)
    (sid1 iid1 s1 r1 a1 sid2 iid2 s2 r2 a2 : string) (t : Durable.table) :
  (sid1, iid1) <> (sid2, iid2) ->
  Durable.update_approval_status now1 sid1 iid1 s1 r1 a1
    (Durable.update_approval_status now2 sid2 iid2 s2 r2 a2 t)
  = Durable.update_approval_status now2 sid2 iid2 s2 r2 a2
      (Durable.update_approval_status now1 sid1 iid1 s1 r1 a1 t).
Proof.
  intros Hne. unfold Durable.update_approval_status.
  rewrite !lookup_insert_ne by congruence.
  by rewrite insert_insert_ne by congruence.
Qed.

(** X6: in durable mode an approve call with an interrupt id records its
    answer under exactly one key: afterwards the response read for that
    (session, interrupt) is the one supplied (y when none is), every other
    item of the table is as before, and neither the session cache nor the
    host is touched. *)
Theorem approve_records_one_answer :
  forall (now : Clock) (sid iid : string) (payload : Payload) (w : Durable.World),
    p_interrupt_id payload = Some iid -> iid <> "" ->
    let w' := snd (Durable.approve_request sid payload now w) in
    Durable.get_approval_response (Durable.tbl w') sid iid
    = Some (default_str "y" (p_response payload)) /\
    (forall k, k <> (sid, iid) -> Durable.tbl w' !! k = Durable.tbl w !! k) /\
    Durable.session_states w' = Durable.session_states w /\
    Durable.host w' = Durable.host w.
Proof.
  intros now sid iid payload w Hid Hne. cbv zeta.
  unfold Durable.approve_request. rewrite Hid, (truthy_ne _ Hne). cbn.
  split; [|split; [|done]].
  - unfold Durable.get_approval_response, Durable.update_approval_status.
    rewrite lookup_insert_eq. by simplify_map_eq.
  - intros k Hk. by apply update_other_key.
Qed.

Lemma approve_records_one_answer_witness :
  Durable.get_approval_response
    (Durable.tbl (snd (Durable.approve_request "s1"
                         (mkPayload None (Some "i1") None None None) Examples.clock1
                         (Examples.durable_suspended "delete the file /tmp/x"
                            [Examples.i1]))))
    "s1" "i1"
  = Some "y".
Proof.
  refine (proj1 (approve_records_one_answer Examples.clock1 "s1" "i1"
                   (mkPayload None (Some "i1") None None None) _ eq_refl _)).
  discriminate.
Defined.

(** X7: approve and reject rewrite only the attributes status, response,
    approver and updated_at of the item: its name, reason, creation time,
    expiry (ttl) and any other attribute keep their values, so answering
    does not extend the retention of the record. *)
Theorem answer_keeps_other_attributes :
  forall (now : Clock) (sid iid : string) (payload : Payload) (w : Durable.World)
         (a : string),
    StoreSpec.stored_answer (Durable.tbl w) sid iid <> None ->
    a <> "status" -> a <> "response" -> a <> "approver" -> a <> "updated_at" ->
    stored_attr (Durable.tbl (snd (Durable.approve_request sid payload now w))) sid iid a
    = stored_attr (Durable.tbl w) sid iid a /\
    stored_attr (Durable.tbl (snd (Durable.reject_request sid payload now w))) sid iid a
    = stored_attr (Durable.tbl w) sid iid a.
Proof.
  intros now sid iid payload w a Hex H1 H2 H3 H4.
  unfold StoreSpec.stored_answer in Hex.
  unfold stored_attr, Durable.approve_request, Durable.reject_request.
  destruct (Durable.tbl w !! (sid, iid)) as [it|] eqn:Hit; [|done].
  split;
    (destruct (p_interrupt_id payload) as [iid'|]; [|cbn; by rewrite Hit]);
    (destruct (truthy iid'); [|cbn; by rewrite Hit]);
    cbn; unfold Durable.update_approval_status;
    (destruct (decide (iid' = iid)) as [->|Hd];
     [ rewrite Hit, lookup_insert_eq; by rewrite !lookup_insert_ne by done
     | rewrite lookup_insert_ne by congruence; by rewrite Hit ]).
Qed.

Lemma answer_keeps_other_attributes_witness :
  let w := Examples.durable_suspended "delete the file /tmp/x" [Examples.i1] in
  stored_attr (Durable.tbl (snd (Durable.reject_request "s1"
                                   (Examples.reject_payload "i1" "no" "bob")
                                   Examples.clock1 w))) "s1" "i1" "ttl"
  = stored_attr (Durable.tbl w) "s1" "i1" "ttl".
Proof.
  cbv zeta.
  refine (proj2 (answer_keeps_other_attributes Examples.clock1 "s1" "i1"
                   (Examples.reject_payload "i1" "no" "bob") _ "ttl" _ _ _ _ _)).
  - vm_compute. discriminate.
  - discriminate.
  - discriminate.
  - discriminate.
  - discriminate.
Defined.

(** X8: answers to different (session, interrupt) keys commute: an approve
    and a reject, two approves or two rejects aimed at different keys leave
    the same world whichever is handled first, each with its own clock
    reading. *)
Theorem answers_to_different_interrupts_commute :
  forall (now1 now2 : Clock) (sid1 sid2 : string) (p1 p2 : Payload) (w : Durable.World),
    (sid1, p_interrupt_id p1) <> (sid2, p_interrupt_id p2) ->
    snd (Durable.approve_request sid1 p1 now1 (snd (Durable.reject_request sid2 p2 now2 w)))
    = snd (Durable.reject_request sid2 p2 now2 (snd (Durable.approve_request sid1 p1 now1 w)))
    /\
    snd (Durable.approve_request sid1 p1 now1 (snd (Durable.approve_request sid2 p2 now2 w)))
    = snd (Durable.approve_request sid2 p2 now2 (snd (Durable.approve_request sid1 p1 now1 w)))
    /\
    snd (Durable.reject_request sid1 p1 now1 (snd (Durable.reject_request sid2 p2 now2 w)))
    = snd (Durable.reject_request sid2 p2 now2 (snd (Durable.reject_request sid1 p1 now1 w))).
Proof.
  intros now1 now2 sid1 sid2 p1 p2 w Hne.
  unfold Durable.approve_request, Durable.reject_request.
  destruct (p_interrupt_id p1) as [i1|]; destruct (p_interrupt_id p2) as [i2|];
    try destruct (truthy i1); try destruct (truthy i2); cbn; try done;
    repeat split; f_equal; apply update_commute; congruence.
Qed.

Lemma answers_to_different_interrupts_commute_witness :
  let w := Examples.durable_suspended "delete /tmp/x and list it"
             [Examples.i1; Examples.i2] in
  snd (Durable.approve_request "s1" (Examples.approve_payload "i1" "y" "alice")
         Examples.clock1
         (snd (Durable.reject_request "s1" (Examples.reject_payload "i2" "no" "bob")
                 Examples.clock0 w)))
  = snd (Durable.reject_request "s1" (Examples.reject_payload "i2" "no" "bob")
           Examples.clock0
           (snd (Durable.approve_request "s1" (Examples.approve_payload "i1" "y" "alice")
                   Examples.clock1 w))).
Proof.
  cbv zeta.
  refine (proj1 (answers_to_different_interrupts_commute Examples.clock1 Examples.clock0
                   "s1" "s1" (Examples.approve_payload "i1" "y" "alice")
                   (Examples.reject_payload "i2" "no" "bob") _ _)).
  discriminate.
Defined.

Lemma result_key_ne_state (sid sid' : string) :
  (sid, "__state__") <> (sid', "__result__").
Proof. intros [= _ H]. Qed.

(** X9: the result and the resumable state of a session are read back as
    they were saved, the latest write winning, and the two record kinds and
    the sessions do not disturb each other: saving a result changes no
    stored state and no other session's result, and saving a state changes
    no stored result and no other session's state. *)
Theorem saved_records_round_trip :
  forall (now : Clock) (sid sid' : string) (r : Durable.TaskResult)
         (st : Durable.SavedState) (t : Durable.table),
    Durable.get_agent_result (Durable.save_agent_result now sid r t) sid = Some r /\
    Durable.get_agent_state (Durable.save_agent_state now sid st t) sid = Some st /\
    Durable.get_agent_state (Durable.save_agent_result now sid r t) sid'
    = Durable.get_agent_state t sid' /\
    Durable.get_agent_result (Durable.save_agent_state now sid st t) sid'
    = Durable.get_agent_result t sid' /\
    (sid' <> sid ->
     Durable.get_agent_result (Durable.save_agent_result now sid r t) sid'
     = Durable.get_agent_result t sid' /\
     Durable.get_agent_state (Durable.save_agent_state now sid st t) sid'
     = Durable.get_agent_state t sid').
Proof.
  intros now sid sid' r st t.
  unfold Durable.get_agent_result, Durable.get_agent_state,
    Durable.save_agent_result, Durable.save_agent_state.
  split; [rewrite lookup_insert_eq; by simplify_map_eq|].
  split; [rewrite lookup_insert_eq; by simplify_map_eq|].
  split; [by rewrite lookup_insert_ne by apply state_key_ne_result|].
  split; [by rewrite lookup_insert_ne by apply result_key_ne_state|].
  intros Hne. split; by rewrite lookup_insert_ne by congruence.
Qed.

Lemma saved_records_round_trip_witness :
  Durable.get_agent_result
    (Durable.save_agent_result Examples.clock0 "s1" (Durable.ResultError "boom") ∅) "s2"
  = Durable.get_agent_result ∅ "s2".
Proof.
  refine (proj1 (proj2 (proj2 (proj2 (proj2
            (saved_records_round_trip Examples.clock0 "s1" "s2" (Durable.ResultError "boom")
               (Durable.mkSavedState "p" []) ∅)))) _)).
  discriminate.
Defined.

Lemma listed_iff (f : option string) (t : Durable.table) (it : gmap string Durable.attr) :
  it ∈ Durable.get_pending_approvals f t <->
  exists k, t !! k = Some it /\ session_matches f k /\ Durable.is_pending it = true.
Proof.
  unfold Durable.get_pending_approvals, session_matches.
  destruct (truthy_opt f); rewrite list_elem_of_fmap; split.
  - intros [[k v] [-> Hin]]. apply elem_of_map_to_list in Hin.
    apply map_lookup_filter_Some in Hin as [Hl [Hk Hp]]. simpl in *. eauto.
  - intros [k [Hl [Hk Hp]]]. exists (k, it). split; [done|].
    apply elem_of_map_to_list, map_lookup_filter_Some. simpl. auto.
  - intros [[k v] [-> Hin]]. apply elem_of_map_to_list in Hin.
    apply map_lookup_filter_Some in Hin as [Hl Hp]. simpl in *.
    exists k. split; [done|]. split; [done|done].
  - intros [k [Hl [_ Hp]]]. exists (k, it). split; [done|].
    apply elem_of_map_to_list, map_lookup_filter_Some. simpl. auto.
Qed.

Lemma save_interrupts_snoc (now : Clock) (sid : string) (ints : list Interrupt)
    (i : Interrupt) (t : Durable.table) :
  Durable.save_interrupts now sid (ints ++ [i]) t
  = Durable.save_pending_approval now sid (i_id i) (i_name i) (i_reason i)
      (Durable.save_interrupts now sid ints t).
Proof. unfold Durable.save_interrupts. by rewrite foldl_app. Qed.

Lemma save_interrupts_other (now : Clock) (sid : string) (ints : list Interrupt)
    (t : Durable.table) (k : string * string) :
  (forall i, In i ints -> k <> (sid, i_id i)) ->
  Durable.save_interrupts now sid ints t !! k = t !! k.
Proof.
  induction ints as [|i ints IH] using rev_ind; intros Hk; [done|].
  rewrite save_interrupts_snoc. unfold Durable.save_pending_approval.
  rewrite lookup_insert_ne.
  - apply IH. intros j Hj. apply Hk. apply in_or_app. by left.
  - intros Heq. apply (Hk i); [apply in_or_app; right; by left | done].
Qed.

Lemma save_interrupts_pending (now : Clock) (sid : string) (ints : list Interrupt)
    (t : Durable.table) (i : Interrupt) :
  In i ints ->
  exists it,
    Durable.save_interrupts now sid ints t !! (sid, i_id i) = Some it /\
    it !! "status" = Some (Durable.AttrS "pending") /\
    it !! "response" = None /\
    it !! "interrupt_id" = Some (Durable.AttrS (i_id i)) /\
    it !! "session_id" = Some (Durable.AttrS sid).
Proof.
  induction ints as [|j ints IH] using rev_ind; intros Hin; [destruct Hin|].
  rewrite save_interrupts_snoc. unfold Durable.save_pending_approval.
  destruct (decide (i_id j = i_id i)) as [Heq|Hne].
  - rewrite Heq, lookup_insert_eq. eexists. split; [reflexivity|]. by simplify_map_eq.
  - rewrite lookup_insert_ne by congruence. apply IH.
    apply in_app_or in Hin as [Hin|[->|[]]]; [done | congruence].
Qed.

Lemma pending_item_is_pending (it : gmap string Durable.attr) :
  it !! "status" = Some (Durable.AttrS "pending") -> Durable.is_pending it = true.
Proof. unfold Durable.is_pending. by intros ->. Qed.

Lemma pending_item_unanswered (t : Durable.table) (sid iid : string)
    (it : gmap string Durable.attr) :
  t !! (sid, iid) = Some it ->
  it !! "status" = Some (Durable.AttrS "pending") ->
  Durable.get_approval_response t sid iid = None.
Proof.
  intros Hl Hs. unfold Durable.get_approval_response. by rewrite Hl, Hs.
Qed.

(** The table after a suspended run of a closure: the interrupts are saved,
    then, except on the fast path, the resumable state. *)
Lemma suspended_run_table (wk : Durable.work) (st' : gmap string string)
    (res : AgentResult) (now : Clock) (w : Durable.World) :
  String.eqb (stop_reason res) "interrupt" = true ->
  exists t1,
    (t1 = Durable.save_interrupts now (work_session wk) (interrupts res) (Durable.tbl w)) /\
    (Durable.tbl (Durable.run_work wk (Yields st' res) now w) = t1 \/
     exists s, Durable.tbl (Durable.run_work wk (Yields st' res) now w)
               = Durable.save_agent_state now (work_session wk) s t1) /\
    exists agent,
      Durable.session_states (Durable.run_work wk (Yields st' res) now w)
      = <[work_session wk := Durable.waiting agent res]> (Durable.session_states w).
Proof.
  intros Hs. eexists. split; [reflexivity|].
  destruct wk; cbn; rewrite Hs; cbn; split; eauto.
Qed.

(** X10: when a durable run (initial or resumed) ends in a suspension whose
    writes the table accepts (the session id and the id of every interrupt
    of the result are not empty), every interrupt of the result whose id is
    not the reserved key of the state record is stored as a pending item of
    the session: it appears in the listing of pending approvals, both the
    one filtered by the session and the unfiltered one, no answer is read
    for it, and the session is cached as waiting_approval. *)
Theorem suspension_is_recorded_and_listed :
  forall (wk : Durable.work) (st' : gmap string string) (res : AgentResult)
         (now : Clock) (w : Durable.World) (i : Interrupt),
    stop_reason res = "interrupt" ->
    In i (interrupts res) ->
    i_id i <> "__state__" ->
    work_session wk <> "" ->
    Forall (fun j => i_id j <> "") (interrupts res) ->
    let sid := work_session wk in
    let w' := Durable.run_work wk (Yields st' res) now w in
    (exists it,
        it ∈ Durable.get_pending_approvals (Some sid) (Durable.tbl w') /\
        it ∈ Durable.get_pending_approvals None (Durable.tbl w') /\
        item_session_id it = Some sid /\
        item_interrupt_id it = Some (i_id i)) /\
    Durable.get_approval_response (Durable.tbl w') sid (i_id i) = None /\
    Durable.get_status sid w' = Durable.StatusOf sid "waiting_approval" true None.
Proof.
  intros wk st' res now w i Hstop Hin Hid Hsid _. cbv zeta.
  assert (Hs : String.eqb (stop_reason res) "interrupt" = true)
    by (rewrite Hstop; reflexivity).
  destruct (suspended_run_table wk st' res now w Hs) as [t1 [Ht1 [Htbl [agent Hss]]]].
  destruct (save_interrupts_pending now (work_session wk) (interrupts res)
              (Durable.tbl w) i Hin) as [it [Hl [Hst [_ [Hiid Hsess]]]]].
  rewrite <- Ht1 in Hl.
  assert (Hl' : Durable.tbl (Durable.run_work wk (Yields st' res) now w)
                !! (work_session wk, i_id i) = Some it).
  { destruct Htbl as [-> | [s ->]]; [done|].
    unfold Durable.save_agent_state. rewrite lookup_insert_ne; [done|]. congruence. }
  split; [|split].
  - exists it. split; [|split; [|split]].
    + apply listed_iff. exists (work_session wk, i_id i).
      split; [done|]. split; [|by apply pending_item_is_pending].
      unfold session_matches. by intros _.
    + apply listed_iff. exists (work_session wk, i_id i).
      split; [done|]. split; [|by apply pending_item_is_pending].
      unfold session_matches. simpl. discriminate.
    + unfold item_session_id. by rewrite Hsess.
    + unfold item_interrupt_id. by rewrite Hiid.
  - by apply (pending_item_unanswered _ _ _ it).
  - unfold Durable.get_status. rewrite Hss, lookup_insert_eq. reflexivity.
Qed.

Lemma suspension_is_recorded_and_listed_witness :
  Durable.get_approval_response
    (Durable.tbl (Durable.run_work (Durable.BackgroundWork "s1" "delete /tmp/x" 1)
                    (Yields ∅ (mkAgentResult "interrupt" [Examples.i1; Examples.i2] ""))
                    Examples.clock0 (Durable.mkWorld ∅ ∅ Examples.host0)))
    "s1" "i2"
  = None.
Proof.
  refine (proj1 (proj2 (suspension_is_recorded_and_listed
            (Durable.BackgroundWork "s1" "delete /tmp/x" 1) ∅
            (mkAgentResult "interrupt" [Examples.i1; Examples.i2] "")
            Examples.clock0 (Durable.mkWorld ∅ ∅ Examples.host0) Examples.i2 _ _ _ _ _))).
  - reflexivity.
  - simpl. auto.
  - discriminate.
  - discriminate.
  - repeat constructor; discriminate.
Defined.

(** X11: once an approve or a reject with an interrupt id is recorded, the
    item under that key is no longer listed as pending, with or without a
    session filter, and the listing is otherwise unchanged: it holds exactly
    the pending items stored under the other keys. *)
Theorem answered_item_leaves_listing :
  forall (now : Clock) (sid iid : string) (payload : Payload) (w : Durable.World)
         (f : option string) (it : gmap string Durable.attr),
    p_interrupt_id payload = Some iid -> iid <> "" ->
    (it ∈ Durable.get_pending_approvals f
            (Durable.tbl (snd (Durable.approve_request sid payload now w))) <->
     exists k, k <> (sid, iid) /\ Durable.tbl w !! k = Some it /\
               session_matches f k /\ Durable.is_pending it = true) /\
    (it ∈ Durable.get_pending_approvals f
            (Durable.tbl (snd (Durable.reject_request sid payload now w))) <->
     exists k, k <> (sid, iid) /\ Durable.tbl w !! k = Some it /\
               session_matches f k /\ Durable.is_pending it = true).
Proof.
  intros now sid iid payload w f it Hid Hne.
  unfold Durable.approve_request, Durable.reject_request.
  rewrite Hid, (truthy_ne _ Hne). cbn [snd Durable.tbl].
  split; rewrite listed_iff; split.
  1, 3: intros [k [Hl [Hk Hp]]]; exists k;
    destruct (decide (k = (sid, iid))) as [->|Hd];
    [ exfalso; unfold Durable.update_approval_status in Hl;
      rewrite lookup_insert_eq in Hl; injection Hl as <-;
      unfold Durable.is_pending in Hp; by simplify_map_eq
    | rewrite update_other_key in Hl by done; auto ].
  1, 2: intros [k [Hd [Hl [Hk Hp]]]]; exists k;
    rewrite update_other_key by done; auto.
Qed.

Lemma answered_item_leaves_listing_witness :
  let t := Durable.save_pending_approval Examples.clock0 "s1" "i2"
             "hitl-demo-execute_command-approval" Examples.command_reason ∅ in
  exists it,
    t !! ("s1", "i2") = Some it /\
    it ∈ Durable.get_pending_approvals (Some "s1")
           (Durable.tbl (snd (Durable.approve_request "s1"
                                (Examples.approve_payload "i1" "y" "alice")
                                Examples.clock1
                                (Durable.mkWorld t ∅ Examples.host0)))).
Proof.
  cbv zeta. eexists. split; [apply lookup_insert_eq|].
  assert (Hne : "i1" <> "") by discriminate.
  refine (proj2 (proj1 (answered_item_leaves_listing Examples.clock1 "s1" "i1"
                          (Examples.approve_payload "i1" "y" "alice") _
                          (Some "s1") _ eq_refl Hne)) _).
  exists ("s1", "i2"). split; [discriminate|].
  split; [apply lookup_insert_eq|].
  split; [intros _; reflexivity|].
  apply pending_item_is_pending. by simplify_map_eq.
Defined.

Lemma save_interrupts_other_session (now : Clock) (sid : string) (ints : list Interrupt)
    (t : Durable.table) (k : string * string) :
  k.1 <> sid -> Durable.save_interrupts now sid ints t !! k = t !! k.
Proof.
  intros Hk. apply save_interrupts_other. intros i _ ->. by apply Hk.
Qed.

Lemma save_state_other_session (now : Clock) (sid : string) (s : Durable.SavedState)
    (t : Durable.table) (k : string * string) :
  k.1 <> sid -> Durable.save_agent_state now sid s t !! k = t !! k.
Proof.
  intros Hk. unfold Durable.save_agent_state. rewrite lookup_insert_ne; [done|].
  intros <-. by apply Hk.
Qed.

Lemma save_result_other_session (now : Clock) (sid : string) (r : Durable.TaskResult)
    (t : Durable.table) (k : string * string) :
  k.1 <> sid -> Durable.save_agent_result now sid r t !! k = t !! k.
Proof.
  intros Hk. unfold Durable.save_agent_result. rewrite lookup_insert_ne; [done|].
  intros <-. by apply Hk.
Qed.

(** X12: sessions are isolated in durable mode. A run of a closure, whatever
    the engine gives, and an approve or reject call change no item stored
    under another session and no other session's cache entry; approve and
    reject do not touch the cache at all, and a resume call writes neither
    the table nor the cache. *)
Theorem durable_sessions_are_isolated :
  forall (sid other : string) (k : string) (now : Clock) (w : Durable.World),
    other <> sid ->
    (forall (wk : Durable.work) (r : engine_run),
        work_session wk = sid ->
        Durable.tbl (Durable.run_work wk r now w) !! (other, k)
        = Durable.tbl w !! (other, k) /\
        Durable.session_states (Durable.run_work wk r now w) !! other
        = Durable.session_states w !! other) /\
    (forall payload : Payload,
        Durable.tbl (snd (Durable.approve_request sid payload now w)) !! (other, k)
        = Durable.tbl w !! (other, k) /\
        Durable.tbl (snd (Durable.reject_request sid payload now w)) !! (other, k)
        = Durable.tbl w !! (other, k) /\
        Durable.session_states (snd (Durable.approve_request sid payload now w))
        = Durable.session_states w /\
        Durable.session_states (snd (Durable.reject_request sid payload now w))
        = Durable.session_states w) /\
    Durable.tbl (snd (fst (Durable.resume_agent_task sid w))) = Durable.tbl w /\
    Durable.session_states (snd (fst (Durable.resume_agent_task sid w)))
    = Durable.session_states w.
Proof.
  intros sid other k now w Hne.
  assert (Hk : (other, k).1 <> sid) by done.
  split; [|split].
  - intros wk r <-.
    destruct wk; destruct r as [st' res|e]; cbn in *;
      try destruct (String.eqb (stop_reason res) "interrupt"); cbn;
      rewrite ?save_state_other_session, ?save_interrupts_other_session,
        ?save_result_other_session by done;
      rewrite ?lookup_insert_ne by done; done.
  - intros payload. unfold Durable.approve_request, Durable.reject_request.
    destruct (p_interrupt_id payload) as [iid|]; [|done].
    destruct (truthy iid); [|done]. cbn.
    rewrite !update_other_key by congruence. done.
  - unfold Durable.resume_agent_task.
    destruct (Durable.session_states w !! sid) as [st|].
    + destruct (negb _); [done|].
      destruct (Durable.ss_agent st); [|done].
      destruct (Durable.ss_result st); [|done].
      by destruct (Durable.collect_responses _ _ _ _).
    + destruct (Durable.get_agent_state _ _) as [saved|]; [|done].
      destruct (Durable.cold_scan _ _ _) as [pre [|? ?]]; [|done].
      by destruct (negb _).
Qed.

Lemma durable_sessions_are_isolated_witness :
  Durable.tbl (Durable.run_work (Durable.BackgroundWork "s1" "p" 1) (Raises "boom")
                 Examples.clock0 (Examples.durable_suspended "q" [Examples.i1]))
  !! ("s2", "i1")
  = Durable.tbl (Examples.durable_suspended "q" [Examples.i1]) !! ("s2", "i1").
Proof.
  refine (proj1 (proj1 (durable_sessions_are_isolated "s1" "s2" "i1" Examples.clock0
                          (Examples.durable_suspended "q" [Examples.i1]) _)
                   (Durable.BackgroundWork "s1" "p" 1) (Raises "boom") eq_refl)).
  discriminate.
Defined.

End MoreStoreProperties.

(** ** Resumption and results *)

Section MoreResumeProperties.
Import ResumeSpec MoreSpec.

Lemma collect_responses_usable (t : Durable.table) (sid : string) (ints : list Interrupt) :
  Forall (fun i => usable_answer t sid (i_id i) = true) ints ->
  forall acc,
    Durable.collect_responses t sid ints acc = inr (acc ++ responses_for t sid ints).
Proof.
  unfold responses_for.
  induction 1 as [|i ints Hi _ IH]; intros acc; simpl.
  - by rewrite app_nil_r.
  - unfold usable_answer in Hi. rewrite Hi. simpl. rewrite IH. by rewrite <- app_assoc.
Qed.

Lemma mem_collect_responses_usable (l : list MemoryOnly.Approval) (ints : list Interrupt) :
  Forall (fun i => mem_usable_answer l (i_id i) = true) ints ->
  forall acc,
    MemoryOnly.collect_responses l ints acc = inr (acc ++ mem_responses_for l ints).
Proof.
  unfold mem_responses_for.
  induction 1 as [|i ints Hi _ IH]; intros acc; simpl.
  - by rewrite app_nil_r.
  - unfold mem_usable_answer in Hi. rewrite Hi. simpl. rewrite IH. by rewrite <- app_assoc.
Qed.

(** X13: the fast path of durable mode. For a session cached as
    waiting_approval with its handle, when every interrupt of the cached
    suspension has a non-empty terminal answer, resume registers a task
    named agent_resume, replies resuming with its id and no list of
    pre-approved names, leaves the table and the cache as they are, and
    starts a closure that enters the cached handle itself with one response
    per interrupt, in the order of the suspension, each carrying the stored
    response of its interrupt. *)
Theorem fast_resume_reenters_cached_handle :
  forall (w : Durable.World) (sid : string) (st : Durable.SessionState)
         (agent : Durable.Agent) (res : AgentResult),
    Durable.session_states w !! sid = Some st ->
    Durable.ss_status st = "waiting_approval" ->
    Durable.ss_agent st = Some agent ->
    Durable.ss_result st = Some res ->
    Forall (fun i => usable_answer (Durable.tbl w) sid (i_id i) = true) (interrupts res) ->
    let tid := next_task_id (Durable.host w) in
    let rs := responses_for (Durable.tbl w) sid (interrupts res) in
    let wk := Durable.ResumeWorkFast sid agent rs tid in
    Durable.resume_agent_task sid w
    = (ReplyResuming sid tid None,
       Durable.mkWorld (Durable.tbl w) (Durable.session_states w)
         (mkHost (tid + 1)
                 (host_calls (Durable.host w) ++ [AddAsyncTask "agent_resume" sid tid])),
       Some wk) /\
    Durable.engine_entry wk = (agent, Responses rs) /\
    map interruptId rs = map i_id (interrupts res).
Proof.
  intros w sid st agent res Hst Hstatus Hagent Hres Hall. cbv zeta.
  split; [|split; [reflexivity|]].
  - unfold Durable.resume_agent_task.
    rewrite Hst, Hstatus, Hagent, Hres. cbn [String.eqb negb].
    change (String.eqb "waiting_approval" "waiting_approval") with true. cbn [negb].
    by rewrite (collect_responses_usable _ _ _ Hall).
  - unfold responses_for. rewrite map_map. reflexivity.
Qed.

Lemma fast_resume_reenters_cached_handle_witness :
  let w0 := Examples.durable_suspended "delete the file /tmp/x" [Examples.i1] in
  let w := snd (Durable.approve_request "s1"
                  (Examples.approve_payload "i1" "t" "alice") Examples.clock1 w0) in
  fst (fst (Durable.resume_agent_task "s1" w)) = ReplyResuming "s1" 2 None /\
  snd (Durable.resume_agent_task "s1" w)
  = Some (Durable.ResumeWorkFast "s1" (Durable.new_agent "s1" [])
            [mkInterruptResponse "i1" "t"] 2).
Proof.
  cbv zeta.
  destruct (fast_resume_reenters_cached_handle
              (snd (Durable.approve_request "s1"
                      (Examples.approve_payload "i1" "t" "alice") Examples.clock1
                      (Examples.durable_suspended "delete the file /tmp/x" [Examples.i1])))
              "s1"
              (Durable.waiting (Durable.new_agent "s1" [])
                 (mkAgentResult "interrupt" [Examples.i1] ""))
              (Durable.new_agent "s1" [])
              (mkAgentResult "interrupt" [Examples.i1] ""))
    as [Hr _].
  - vm_compute. reflexivity.
  - reflexivity.
  - reflexivity.
  - reflexivity.
  - cbn [interrupts]. constructor; [vm_compute; reflexivity | constructor].
  - rewrite Hr. split; vm_compute; reflexivity.
Defined.

(** X14: the fast path of memory-only mode. Under the same conditions, with
    a task id stored in the session state, resume registers no new task and
    changes nothing: it replies resuming with the task id of the original
    start and starts a closure that enters the cached handle with one
    response per interrupt, in order. *)
Theorem memory_resume_reuses_task :
  forall (w : MemoryOnly.World) (sid : string) (st : MemoryOnly.SessionState)
         (agent : MemoryOnly.Agent) (res : AgentResult) (tid : Z),
    MemoryOnly.session_states w !! sid = Some st ->
    MemoryOnly.ss_status st = "waiting_approval" ->
    MemoryOnly.ss_agent st = Some agent ->
    MemoryOnly.ss_result st = Some res ->
    MemoryOnly.ss_task_id st = Some tid -> tid <> 0 ->
    Forall (fun i => mem_usable_answer (MemoryOnly.approvals_of w sid) (i_id i) = true)
           (interrupts res) ->
    let rs := mem_responses_for (MemoryOnly.approvals_of w sid) (interrupts res) in
    let wk := MemoryOnly.ResumeWork sid agent rs (MemoryOnly.ss_prompt st) tid in
    MemoryOnly.resume_agent_task sid w = (ReplyResuming sid tid None, w, Some wk) /\
    MemoryOnly.engine_entry wk = (agent, Responses rs) /\
    map interruptId rs = map i_id (interrupts res).
Proof.
  intros w sid st agent res tid Hst Hstatus Hagent Hres Htid Hnz Hall. cbv zeta.
  split; [|split; [reflexivity|]].
  - unfold MemoryOnly.resume_agent_task.
    rewrite Hst, Hstatus, Hagent, Hres.
    change (String.eqb "waiting_approval" "waiting_approval") with true. cbn [negb].
    rewrite (mem_collect_responses_usable _ _ Hall). cbn [app].
    rewrite Htid. unfold MemoryOnly.truthy_task.
    destruct (Z.eqb_spec tid 0); [done|]. reflexivity.
  - unfold mem_responses_for. rewrite map_map. reflexivity.
Qed.

Lemma memory_resume_reuses_task_witness :
  let w0 := Examples.memory_suspended "delete the file /tmp/x" [Examples.i1] in
  let w := snd (MemoryOnly.approve_request "s1"
                  (Examples.approve_payload "i1" "y" "alice") Examples.clock1 w0) in
  fst (MemoryOnly.resume_agent_task "s1" w) = (ReplyResuming "s1" 1 None, w).
Proof.
  cbv zeta.
  destruct (memory_resume_reuses_task
              (snd (MemoryOnly.approve_request "s1"
                      (Examples.approve_payload "i1" "y" "alice") Examples.clock1
                      (Examples.memory_suspended "delete the file /tmp/x" [Examples.i1])))
              "s1"
              (MemoryOnly.waiting (MemoryOnly.new_agent "s1")
                 (mkAgentResult "interrupt" [Examples.i1] "")
                 (Some "delete the file /tmp/x") 1)
              (MemoryOnly.new_agent "s1")
              (mkAgentResult "interrupt" [Examples.i1] "") 1)
    as [Hr _].
  - vm_compute. reflexivity.
  - reflexivity.
  - reflexivity.
  - reflexivity.
  - reflexivity.
  - discriminate.
  - cbn [interrupts]. constructor; [vm_compute; reflexivity | constructor].
  - rewrite Hr. reflexivity.
Defined.

(** X15: an exception in a resumed run. In durable mode the closure stores
    the error as the session's result and signals completion, but leaves the
    session cache as it was: a session cached as waiting_approval is still
    reported as waiting_approval by [get_status] and [get_result], and the
    stored error is what [get_agent_result] reads. In memory-only mode the
    closure replaces the cache entry by one with status error. *)
Theorem failed_resume_and_the_cache :
  forall (sid e : string) (now : Clock),
    (forall (wk : Durable.work) (w : Durable.World) (st : Durable.SessionState),
        work_session wk = sid ->
        (forall p t, wk <> Durable.BackgroundWork sid p t) ->
        Durable.session_states w !! sid = Some st ->
        let w' := Durable.run_work wk (Raises e) now w in
        Durable.session_states w' = Durable.session_states w /\
        Durable.get_status sid w' = Durable.get_status sid w /\
        Durable.get_result sid w' = Durable.get_result sid w /\
        Durable.get_agent_result (Durable.tbl w') sid = Some (Durable.ResultError e)) /\
    (forall (agent : MemoryOnly.Agent) (rs : list InterruptResponse) (p : option string)
            (tid : Z) (w : MemoryOnly.World),
        let w' := MemoryOnly.run_work (MemoryOnly.ResumeWork sid agent rs p tid)
                    (Raises e) now w in
        MemoryOnly.session_states w' !! sid = Some (MemoryOnly.errored e) /\
        MemoryOnly.get_status sid w' = MemoryOnly.StatusOf sid "error" false).
Proof.
  intros sid e now. split.
  - intros wk w st Hsid Hnb Hst. cbv zeta.
    assert (Hss : Durable.session_states (Durable.run_work wk (Raises e) now w)
                  = Durable.session_states w).
    { destruct wk as [s p t|s pre p t|s a rs t]; cbn in *; subst;
        [by destruct (Hnb p t) | done | done]. }
    split; [exact Hss|].
    unfold Durable.get_status, Durable.get_result. rewrite Hss, Hst.
    split; [done|]. split; [done|].
    destruct wk as [s p t|s pre p t|s a rs t]; cbn in *; subst;
      [by destruct (Hnb p t) | |];
      unfold Durable.get_agent_result, Durable.save_agent_result;
      rewrite lookup_insert_eq; by simplify_map_eq.
  - intros agent rs p tid w. cbv zeta.
    unfold MemoryOnly.get_status. cbn. by rewrite lookup_insert_eq.
Qed.

Lemma failed_resume_and_the_cache_witness :
  let w := Examples.durable_suspended "delete the file /tmp/x" [Examples.i1] in
  Durable.get_status "s1"
    (Durable.run_work (Durable.ResumeWorkFast "s1" (Durable.new_agent "s1" [])
                         [mkInterruptResponse "i1" "y"] 2)
       (Raises "boom") Examples.clock1 w)
  = Durable.get_status "s1" w.
Proof.
  cbv zeta.
  refine (proj1 (proj2 (proj1 (failed_resume_and_the_cache "s1" "boom" Examples.clock1)
            (Durable.ResumeWorkFast "s1" (Durable.new_agent "s1" [])
               [mkInterruptResponse "i1" "y"] 2)
            (Examples.durable_suspended "delete the file /tmp/x" [Examples.i1])
            (Durable.waiting (Durable.new_agent "s1" [])
               (mkAgentResult "interrupt" [Examples.i1] ""))
            eq_refl _ _))).
  - intros p t. discriminate.
  - vm_compute. reflexivity.
Defined.

(** X16: the outcome of a durable run is retrievable twice over. After a run
    that does not suspend, [get_result] answers from the cache with status
    completed and the message (left out when empty); after an initial run
    that raises, with status error and the error text; and in any world with
    the same table where the session is not cached, as after a restart, it
    answers with the stored result: the message with its stop reason, or the
    error. *)
Theorem run_outcome_is_retrievable :
  forall (wk : Durable.work) (r : engine_run) (now : Clock) (w w2 : Durable.World),
    suspends r = false ->
    let sid := work_session wk in
    let w' := Durable.run_work wk r now w in
    Durable.tbl w2 = Durable.tbl w' ->
    Durable.session_states w2 !! sid = None ->
    match r with
    | Yields _ res =>
        Durable.get_result sid w'
        = Durable.ResultCached sid "completed"
            (Durable.keep_truthy (Some (message res))) None /\
        Durable.get_result sid w2
        = Durable.ResultStored sid (Durable.ResultMessage (message res) (stop_reason res))
    | Raises e =>
        (forall p t, wk = Durable.BackgroundWork sid p t ->
                     Durable.get_result sid w'
                     = Durable.ResultCached sid "error" None
                         (Durable.keep_truthy (Some e))) /\
        Durable.get_result sid w2 = Durable.ResultStored sid (Durable.ResultError e)
    end.
Proof.
  intros wk r now w w2 Hterm. cbv zeta. intros Htbl Hnone.
  unfold Durable.get_result at 2 4. rewrite Hnone, Htbl.
  destruct r as [st' res|e]; simpl in Hterm.
  - split.
    + unfold Durable.get_result.
      destruct wk; cbn; rewrite Hterm; cbn; by rewrite lookup_insert_eq.
    + destruct wk; cbn; rewrite Hterm; cbn;
        unfold Durable.get_agent_result, Durable.save_agent_result;
        rewrite lookup_insert_eq; by simplify_map_eq.
  - split.
    + intros p t ->. unfold Durable.get_result. cbn. by rewrite lookup_insert_eq.
    + destruct wk; cbn;
        unfold Durable.get_agent_result, Durable.save_agent_result;
        rewrite lookup_insert_eq; by simplify_map_eq.
Qed.

Lemma run_outcome_is_retrievable_witness :
  let w' := Durable.run_work (Durable.BackgroundWork "s1" "list files" 1)
              Examples.finished Examples.clock0 (Durable.mkWorld ∅ ∅ Examples.host0) in
  Durable.get_result "s1" w' = Durable.ResultCached "s1" "completed" (Some "done") None /\
  Durable.get_result "s1" (Examples.restart w')
  = Durable.ResultStored "s1" (Durable.ResultMessage "done" "end_turn").
Proof.
  cbv zeta.
  refine (run_outcome_is_retrievable (Durable.BackgroundWork "s1" "list files" 1)
            Examples.finished Examples.clock0 (Durable.mkWorld ∅ ∅ Examples.host0)
            (Examples.restart _) _ _ _); reflexivity.
Defined.

Lemma dict_keys_set {V} (d : pydict V) (k : string) (v : V) :
  dict_keys (dict_set d k v)
  = if str_in k (dict_keys d) then dict_keys d else dict_keys d ++ [k].
Proof.
  unfold dict_keys, str_in. induction d as [|[k' v'] d IH]; simpl; [done|].
  destruct (String.eqb k k'); simpl; [done|]. rewrite IH.
  by destruct (existsb (String.eqb k) (map fst d)).
Qed.

Lemma dict_set_NoDup {V} (d : pydict V) (k : string) (v : V) :
  List.NoDup (dict_keys d) -> List.NoDup (dict_keys (dict_set d k v)).
Proof.
  intros Hnd. rewrite dict_keys_set.
  destruct (str_in k (dict_keys d)) eqn:Hk; [done|].
  apply str_in_false in Hk.
  apply NoDup_ListNoDup, NoDup_app. apply NoDup_ListNoDup in Hnd.
  split; [done|]. split.
  - intros x Hx [->|[]]%list_elem_of_In. by apply list_elem_of_In in Hx.
  - apply NoDup_singleton.
Qed.

Lemma cold_scan_NoDup (t : Durable.table) (sid : string) (ints : list Interrupt) :
  List.NoDup (dict_keys (fst (Durable.cold_scan t sid ints))).
Proof.
  induction ints as [|i ints IH] using rev_ind; [constructor|].
  rewrite cold_scan_snoc.
  destruct (Durable.cold_scan t sid ints) as [pre pend]. simpl in IH.
  unfold Durable.cold_step.
  destruct (truthy_opt (Durable.get_approval_response t sid (i_id i))); [|done].
  destruct (truthy_opt (Durable.reason_tool (i_reason i))); [|done].
  by apply dict_set_NoDup.
Qed.

(** X17: the list of pre-approved operation names in a resuming reply has no
    duplicates, holds no empty name, and every name in it is the operation
    named by the reason of an interrupt of the stored suspension; the
    closure started with it is the cold-path one. *)
Theorem pre_approved_names_are_distinct :
  forall (w w' : Durable.World) (sid sid' : string) (tid : Z) (names : list string)
         (wk : option Durable.work),
    Durable.resume_agent_task sid w = (ReplyResuming sid' tid (Some names), w', wk) ->
    List.NoDup names /\
    (forall n, In n names ->
       n <> "" /\
       exists saved i,
         Durable.get_agent_state (Durable.tbl w) sid = Some saved /\
         In i (Durable.saved_interrupts saved) /\
         Durable.reason_tool (i_reason i) = Some n) /\
    exists pre p, wk = Some (Durable.ResumeWorkCold sid pre p tid) /\ names = dict_keys pre.
Proof.
  intros w w' sid sid' tid names wk. unfold Durable.resume_agent_task.
  destruct (Durable.session_states w !! sid) as [st|].
  - destruct (negb _); [done|].
    destruct (Durable.ss_agent st); [|done].
    destruct (Durable.ss_result st); [|done].
    by destruct (Durable.collect_responses _ _ _ _).
  - destruct (Durable.get_agent_state (Durable.tbl w) sid) as [saved|]; [|done].
    pose proof (cold_scan_NoDup (Durable.tbl w) sid (Durable.saved_interrupts saved)) as Hnd.
    pose proof (cold_scan_keys_sound (Durable.tbl w) sid (Durable.saved_interrupts saved))
      as Hsound.
    destruct (Durable.cold_scan _ _ _) as [pre [|? ?]]; [|done]. simpl in Hnd, Hsound.
    destruct (negb _); [done|].
    intros [= <- <- <- <- <-]. split; [done|]. split; [|eauto].
    intros n Hn. apply dict_keys_get in Hn.
    destruct (Hsound n Hn) as [i [Hi [Hr Hne]]]. split; [done|]. eauto.
Qed.

Lemma pre_approved_names_are_distinct_witness : List.NoDup ["delete_files"].
Proof.
  refine (proj1 (pre_approved_names_are_distinct
            (Examples.restart
               (snd (Durable.approve_request "s1"
                       (Examples.approve_payload "i1" "y" "alice") Examples.clock1
                       (Examples.durable_suspended "delete the file /tmp/x"
                          [Examples.i1]))))
            _ "s1" "s1" 1 ["delete_files"] _ _)).
  vm_compute. reflexivity.
Defined.

End MoreResumeProperties.

(** ** The entry point *)

Section HandlerProperties.

(** X18: only the actions start and resume can start the engine. For every
    other action the handler starts no closure; for list_pending, result,
    status and any unknown action it also leaves the world exactly as it
    was, and an unknown action is answered with an error that names it.
    A request without an action is handled as a start, in both modes: it
    gives what the action start gives, the reply started with the resolved
    session id and a new task id, the task registered with the host, and
    the initial closure on the prompt (Hello! when there is none). *)
Theorem handler_starts_engine_only_on_start_and_resume :
  forall (rq : Request) (ctx : RequestContext) (uuid : string) (now : Clock)
         (dw : Durable.World) (mw : MemoryOnly.World),
    let action := default_str "start" (rq_action rq) in
    let d := Durable.handler rq ctx uuid now dw in
    let m := MemoryOnly.handler rq ctx uuid now mw in
    (action <> "start" -> action <> "resume" -> snd d = None /\ snd m = None) /\
    (action <> "start" -> action <> "resume" -> action <> "approve" ->
     action <> "reject" -> snd (fst d) = dw /\ snd (fst m) = mw) /\
    (~ In action ["start"; "list_pending"; "approve"; "reject"; "resume"; "result";
                  "status"] ->
     fst (fst d) = Durable.RespReply (ReplyError ("Unknown action: " +:+ action) NoDetail) /\
     fst (fst m) = MemoryOnly.RespReply
                     (ReplyError ("Unknown action: " +:+ action) NoDetail)) /\
    (rq_action rq = None \/ rq_action rq = Some "start" ->
     let sid := resolve_session_id rq ctx uuid in
     let prompt := default_str "Hello!" (p_prompt (rq_payload rq)) in
     d = (Durable.RespReply (ReplyStarted sid (next_task_id (Durable.host dw))),
          Durable.mkWorld (Durable.tbl dw) (Durable.session_states dw)
            (snd (add_async_task "agent_processing" sid (Durable.host dw))),
          Some (Durable.BackgroundWork sid prompt (next_task_id (Durable.host dw)))) /\
     m = (MemoryOnly.RespReply (ReplyStarted sid (next_task_id (MemoryOnly.host mw))),
          MemoryOnly.mkWorld (MemoryOnly.session_states mw) (MemoryOnly.pending_approvals mw)
            (snd (add_async_task "agent_processing" sid (MemoryOnly.host mw))),
          Some (MemoryOnly.BackgroundWork sid prompt (next_task_id (MemoryOnly.host mw))))).
Proof.
  intros rq ctx uuid now dw mw. cbv zeta.
  unfold Durable.handler, MemoryOnly.handler.
  set (action := default_str "start" (rq_action rq)).
  set (sid := resolve_session_id rq ctx uuid).
  split; [|split; [|split]].
  - intros H1 H2.
    destruct (String.eqb_spec action "start"); [done|].
    destruct (String.eqb_spec action "list_pending"); [done|].
    destruct (String.eqb_spec action "approve").
    { destruct (Durable.approve_request _ _ _ _), (MemoryOnly.approve_request _ _ _ _).
      done. }
    destruct (String.eqb_spec action "reject").
    { destruct (Durable.reject_request _ _ _ _), (MemoryOnly.reject_request _ _ _ _).
      done. }
    destruct (String.eqb_spec action "resume"); [done|].
    destruct (String.eqb_spec action "result"); [done|].
    by destruct (String.eqb_spec action "status").
  - intros H1 H2 H3 H4.
    destruct (String.eqb_spec action "start"); [done|].
    destruct (String.eqb_spec action "list_pending"); [done|].
    destruct (String.eqb_spec action "approve"); [done|].
    destruct (String.eqb_spec action "reject"); [done|].
    destruct (String.eqb_spec action "resume"); [done|].
    destruct (String.eqb_spec action "result"); [done|].
    by destruct (String.eqb_spec action "status").
  - intros Hnot.
    destruct (String.eqb_spec action "start") as [e|];
      [exfalso; apply Hnot; rewrite e; simpl; auto 10|].
    destruct (String.eqb_spec action "list_pending") as [e|];
      [exfalso; apply Hnot; rewrite e; simpl; auto 10|].
    destruct (String.eqb_spec action "approve") as [e|];
      [exfalso; apply Hnot; rewrite e; simpl; auto 10|].
    destruct (String.eqb_spec action "reject") as [e|];
      [exfalso; apply Hnot; rewrite e; simpl; auto 10|].
    destruct (String.eqb_spec action "resume") as [e|];
      [exfalso; apply Hnot; rewrite e; simpl; auto 10|].
    destruct (String.eqb_spec action "result") as [e|];
      [exfalso; apply Hnot; rewrite e; simpl; auto 10|].
    destruct (String.eqb_spec action "status") as [e|];
      [exfalso; apply Hnot; rewrite e; simpl; auto 10|]. done.
  - intros Hstart.
    assert (Ha : action = "start") by (subst action; by destruct Hstart as [-> | ->]).
    rewrite Ha. cbn [String.eqb Ascii.eqb Bool.eqb]. split; reflexivity.
Qed.

Lemma handler_starts_engine_only_on_start_and_resume_witness :
  snd (Durable.handler
         (mkRequest (Some "approve") (Some "s1") None
            (Examples.approve_payload "i1" "y" "alice"))
         (mkContext None) "uuid-1" Examples.clock1
         (Examples.durable_suspended "delete the file /tmp/x" [Examples.i1]))
  = None /\
  MemoryOnly.handler (mkRequest None None None (Examples.start_payload "list /tmp"))
    (mkContext None) "uuid-1" Examples.clock1 (MemoryOnly.mkWorld ∅ ∅ Examples.host0)
  = (MemoryOnly.RespReply (ReplyStarted "uuid-1" 1),
     MemoryOnly.mkWorld ∅ ∅
       (snd (add_async_task "agent_processing" "uuid-1" Examples.host0)),
     Some (MemoryOnly.BackgroundWork "uuid-1" "list /tmp" 1)).
Proof.
  split.
  - refine (proj1 (proj1 (handler_starts_engine_only_on_start_and_resume
              (mkRequest (Some "approve") (Some "s1") None
                 (Examples.approve_payload "i1" "y" "alice"))
              (mkContext None) "uuid-1" Examples.clock1
              (Examples.durable_suspended "delete the file /tmp/x" [Examples.i1])
              (MemoryOnly.mkWorld ∅ ∅ Examples.host0)) _ _));
      discriminate.
  - refine (proj2 (proj2 (proj2 (proj2 (handler_starts_engine_only_on_start_and_resume
              (mkRequest None None None (Examples.start_payload "list /tmp"))
              (mkContext None) "uuid-1" Examples.clock1
              (Durable.mkWorld ∅ ∅ Examples.host0)
              (MemoryOnly.mkWorld ∅ ∅ Examples.host0)))) _)).
    by left.
Defined.

End HandlerProperties.

(** ** Memory-only mode *)

Section MoreMemoryProperties.
Import StoreSpec ResumeSpec MoreSpec.

Lemma append_pending_session (now : Clock) (sid : string) (ints : list Interrupt) :
  forall m : gmap string (list MemoryOnly.Approval),
    match MemoryOnly.append_pending now sid ints m !! sid with
    | Some l => l
    | None => []
    end
    = match m !! sid with Some l => l | None => [] end
      ++ map (MemoryOnly.pending_of now sid) ints.
Proof.
  unfold MemoryOnly.append_pending.
  induction ints as [|i ints IH]; intros m; cbn [foldl map].
  - by rewrite app_nil_r.
  - rewrite IH, lookup_insert_eq. by rewrite <- app_assoc.
Qed.

Lemma append_pending_other (now : Clock) (sid other : string) (ints : list Interrupt) :
  other <> sid ->
  forall m : gmap string (list MemoryOnly.Approval),
    MemoryOnly.append_pending now sid ints m !! other = m !! other.
Proof.
  intros Hne. unfold MemoryOnly.append_pending.
  induction ints as [|i ints IH]; intros m; cbn [foldl]; [done|].
  rewrite IH. by rewrite lookup_insert_ne.
Qed.

(** X19: when a memory-only run suspends, the new interrupts are appended as
    pending entries, in order, to the session's list, and the entries that
    were there, with the answers they carry, stay in front of them; the
    session is cached as waiting_approval with the task id of the run. *)
Theorem memory_suspension_appends_entries :
  forall (wk : MemoryOnly.work) (st' : gmap string string) (res : AgentResult)
         (now : Clock) (w : MemoryOnly.World),
    stop_reason res = "interrupt" ->
    let sid := mem_work_session wk in
    let w' := MemoryOnly.run_work wk (Yields st' res) now w in
    MemoryOnly.approvals_of w' sid
    = MemoryOnly.approvals_of w sid ++ map (MemoryOnly.pending_of now sid) (interrupts res) /\
    MemoryOnly.get_status sid w' = MemoryOnly.StatusOf sid "waiting_approval" true /\
    exists st, MemoryOnly.session_states w' !! sid = Some st /\
               MemoryOnly.ss_task_id st = Some (MemoryOnly.work_task_id wk) /\
               MemoryOnly.ss_result st = Some res.
Proof.
  intros wk st' res now w Hstop. cbv zeta.
  unfold MemoryOnly.run_work, MemoryOnly.background_work, MemoryOnly.resume_work,
    MemoryOnly.after_run, MemoryOnly.finally_complete, MemoryOnly.get_status,
    MemoryOnly.approvals_of.
  destruct wk; cbn; rewrite Hstop; cbn; rewrite lookup_insert_eq;
    (split; [apply append_pending_session|]); split; eauto.
Qed.

Lemma memory_suspension_appends_entries_witness :
  let w := Examples.memory_suspended "delete /tmp/x" [Examples.i1] in
  MemoryOnly.approvals_of
    (MemoryOnly.run_work
       (MemoryOnly.ResumeWork "s1" (MemoryOnly.new_agent "s1") [] None 1)
       (Examples.suspended_on [Examples.i2]) Examples.clock1 w) "s1"
  = MemoryOnly.approvals_of w "s1"
    ++ map (MemoryOnly.pending_of Examples.clock1 "s1") [Examples.i2].
Proof.
  cbv zeta.
  refine (proj1 (memory_suspension_appends_entries
                   (MemoryOnly.ResumeWork "s1" (MemoryOnly.new_agent "s1") [] None 1)
                   ∅ (mkAgentResult "interrupt" [Examples.i2] "") Examples.clock1 _ _)).
  reflexivity.
Defined.

(** X20: when a memory-only run completes, the session's list of approvals
    is removed, answered entries included, and the cache reports completed
    with the message; when it raises, the list is kept as it was and the
    cache reports error with the error text. Either way the completion is
    signalled for the task of the run. *)
Theorem memory_completion_clears_approvals :
  forall (wk : MemoryOnly.work) (r : engine_run) (now : Clock) (w : MemoryOnly.World),
    suspends r = false ->
    let sid := mem_work_session wk in
    let w' := MemoryOnly.run_work wk r now w in
    MemoryOnly.host w' = complete_async_task (MemoryOnly.work_task_id wk) (MemoryOnly.host w)
    /\
    match r with
    | Yields _ res =>
        MemoryOnly.pending_approvals w' !! sid = None /\
        MemoryOnly.approvals_of w' sid = [] /\
        MemoryOnly.get_result sid w'
        = MemoryOnly.ResultCached sid "completed"
            (MemoryOnly.keep_truthy (Some (message res))) None
    | Raises e =>
        MemoryOnly.pending_approvals w' = MemoryOnly.pending_approvals w /\
        MemoryOnly.get_result sid w'
        = MemoryOnly.ResultCached sid "error" None (MemoryOnly.keep_truthy (Some e))
    end.
Proof.
  intros wk r now w Hterm. cbv zeta.
  unfold MemoryOnly.run_work, MemoryOnly.background_work, MemoryOnly.resume_work,
    MemoryOnly.after_run, MemoryOnly.finally_complete, MemoryOnly.get_result,
    MemoryOnly.approvals_of.
  destruct r as [st' res|e]; simpl in Hterm;
    destruct wk; cbn; rewrite ?Hterm; cbn;
    rewrite ?lookup_insert_eq, ?lookup_delete_eq; done.
Qed.

Lemma memory_completion_clears_approvals_witness :
  MemoryOnly.approvals_of
    (MemoryOnly.run_work
       (MemoryOnly.ResumeWork "s1" (MemoryOnly.new_agent "s1")
          [mkInterruptResponse "i1" "y"] None 1)
       Examples.finished Examples.clock1
       (Examples.memory_suspended "delete /tmp/x" [Examples.i1])) "s1"
  = [].
Proof.
  refine (proj1 (proj2 (proj2 (memory_completion_clears_approvals
            (MemoryOnly.ResumeWork "s1" (MemoryOnly.new_agent "s1")
               [mkInterruptResponse "i1" "y"] None 1)
            Examples.finished Examples.clock1
            (Examples.memory_suspended "delete /tmp/x" [Examples.i1]) _)))).
  reflexivity.
Defined.

Lemma update_first_split (f : MemoryOnly.Approval -> MemoryOnly.Approval)
    (iid : string) (l l' : list MemoryOnly.Approval) :
  MemoryOnly.update_first f iid l = Some l' ->
  exists l1 a l2,
    l = l1 ++ a :: l2 /\ l' = l1 ++ f a :: l2 /\
    MemoryOnly.a_interrupt_id a = iid /\
    Forall (fun x => MemoryOnly.a_interrupt_id x <> iid) l1.
Proof.
  revert l'. induction l as [|b l IH]; intros l'; simpl; [discriminate|].
  destruct (String.eqb_spec (MemoryOnly.a_interrupt_id b) iid) as [Hb|Hb].
  - intros [= <-]. exists [], b, l. repeat split; [done|constructor].
  - destruct (MemoryOnly.update_first f iid l) as [r|]; [|discriminate].
    intros [= <-]. destruct (IH r eq_refl) as [l1 [a [l2 [-> [-> [Ha Hl1]]]]]].
    exists (b :: l1), a, l2. repeat split; [done|by constructor].
Qed.

(** X21: in memory-only mode a successful approve or reject rewrites one
    entry only: the first entry of the session's list that carries the
    interrupt id. The entries before it (none of which has that id) and all
    entries after it, a later entry with the same id included, are kept as
    they are, and so are the lists of the other sessions, the session cache
    and the host. *)
Theorem memory_answer_rewrites_first_entry :
  forall (now : Clock) (sid : string) (payload : Payload) (w : MemoryOnly.World),
    let changed (out : Reply * MemoryOnly.World)
                (f : MemoryOnly.Approval -> MemoryOnly.Approval) : Prop :=
      is_error (fst out) = false ->
      (exists iid l1 a l2,
          p_interrupt_id payload = Some iid /\
          MemoryOnly.approvals_of w sid = l1 ++ a :: l2 /\
          MemoryOnly.approvals_of (snd out) sid = l1 ++ f a :: l2 /\
          MemoryOnly.a_interrupt_id a = iid /\
          Forall (fun x => MemoryOnly.a_interrupt_id x <> iid) l1) /\
      (forall other, other <> sid ->
          MemoryOnly.pending_approvals (snd out) !! other
          = MemoryOnly.pending_approvals w !! other) /\
      MemoryOnly.session_states (snd out) = MemoryOnly.session_states w /\
      MemoryOnly.host (snd out) = MemoryOnly.host w in
    changed (MemoryOnly.approve_request sid payload now w)
            (MemoryOnly.set_approved now (default_str "y" (p_response payload))
               (default_str "cli" (p_approver payload))) /\
    changed (MemoryOnly.reject_request sid payload now w)
            (MemoryOnly.set_rejected now (default_str "User rejected" (p_reason payload))
               (default_str "cli" (p_approver payload))).
Proof.
  intros now sid payload w. cbv zeta.
  unfold MemoryOnly.approve_request, MemoryOnly.reject_request.
  destruct (p_interrupt_id payload) as [iid|]; [|split; by intros [=]].
  destruct (truthy iid); [|split; by intros [=]].
  split.
  - destruct (MemoryOnly.update_first _ iid _) as [l'|] eqn:Hu; [|by intros [=]].
    intros _. apply update_first_split in Hu as [l1 [a [l2 [Hl [-> [Ha Hl1]]]]]].
    cbn. split; [|split; [|done]].
    + exists iid, l1, a, l2. split; [done|]. split; [done|].
      split; [|done]. unfold MemoryOnly.approvals_of. cbn. by rewrite lookup_insert_eq.
    + intros other Hne. by rewrite lookup_insert_ne.
  - destruct (MemoryOnly.update_first _ iid _) as [l'|] eqn:Hu; [|by intros [=]].
    intros _. apply update_first_split in Hu as [l1 [a [l2 [Hl [-> [Ha Hl1]]]]]].
    cbn. split; [|split; [|done]].
    + exists iid, l1, a, l2. split; [done|]. split; [done|].
      split; [|done]. unfold MemoryOnly.approvals_of. cbn. by rewrite lookup_insert_eq.
    + intros other Hne. by rewrite lookup_insert_ne.
Qed.

Lemma memory_answer_rewrites_first_entry_witness :
  let w := Examples.memory_suspended "delete /tmp/x" [Examples.i1] in
  MemoryOnly.session_states
    (snd (MemoryOnly.approve_request "s1" (Examples.approve_payload "i1" "y" "alice")
            Examples.clock1 w))
  = MemoryOnly.session_states w.
Proof.
  cbv zeta.
  refine (proj1 (proj2 (proj2 (proj1 (memory_answer_rewrites_first_entry Examples.clock1
            "s1" (Examples.approve_payload "i1" "y" "alice")
            (Examples.memory_suspended "delete /tmp/x" [Examples.i1])) _)))).
  vm_compute. reflexivity.
Defined.

(** X22: sessions are isolated in memory-only mode, and resume is read-only.
    A run of a closure for one session changes neither the approvals list
    nor the cache entry of any other session, whatever the engine gives; a
    resume call returns the world exactly as it received it, whether it
    fails or starts a closure. *)
Theorem memory_sessions_are_isolated :
  forall (wk : MemoryOnly.work) (r : engine_run) (now : Clock) (w : MemoryOnly.World)
         (sid other : string),
    other <> mem_work_session wk ->
    MemoryOnly.pending_approvals (MemoryOnly.run_work wk r now w) !! other
    = MemoryOnly.pending_approvals w !! other /\
    MemoryOnly.session_states (MemoryOnly.run_work wk r now w) !! other
    = MemoryOnly.session_states w !! other /\
    snd (fst (MemoryOnly.resume_agent_task sid w)) = w.
Proof.
  intros wk r now w sid other Hne. split; [|split].
  - unfold MemoryOnly.run_work, MemoryOnly.background_work, MemoryOnly.resume_work,
      MemoryOnly.after_run, MemoryOnly.finally_complete.
    destruct wk; destruct r as [st' res|e]; cbn in *;
      try destruct (String.eqb (stop_reason res) "interrupt"); cbn;
      rewrite ?append_pending_other, ?lookup_delete_ne by done; done.
  - unfold MemoryOnly.run_work, MemoryOnly.background_work, MemoryOnly.resume_work,
      MemoryOnly.after_run, MemoryOnly.finally_complete.
    destruct wk; destruct r as [st' res|e]; cbn in *;
      try destruct (String.eqb (stop_reason res) "interrupt"); cbn;
      by rewrite lookup_insert_ne.
  - unfold MemoryOnly.resume_agent_task.
    destruct (MemoryOnly.session_states w !! sid) as [st|]; [|done].
    destruct (negb _); [done|].
    destruct (MemoryOnly.ss_agent st); [|done].
    destruct (MemoryOnly.ss_result st); [|done].
    destruct (MemoryOnly.collect_responses _ _ _); [done|].
    destruct (MemoryOnly.ss_task_id st); [|done].
    by destruct (MemoryOnly.truthy_task _).
Qed.

Lemma memory_sessions_are_isolated_witness :
  let w := Examples.memory_suspended "delete /tmp/x" [Examples.i1] in
  MemoryOnly.pending_approvals
    (MemoryOnly.run_work (MemoryOnly.BackgroundWork "s2" "list files" 2)
       Examples.finished Examples.clock1 w) !! "s1"
  = MemoryOnly.pending_approvals w !! "s1".
Proof.
  cbv zeta.
  refine (proj1 (memory_sessions_are_isolated
                   (MemoryOnly.BackgroundWork "s2" "list files" 2)
                   Examples.finished Examples.clock1 _ "s1" "s1" _)).
  discriminate.
Defined.

Lemma filter_rewritten (f : MemoryOnly.Approval -> MemoryOnly.Approval)
    (l1 l2 : list MemoryOnly.Approval) (a : MemoryOnly.Approval) :
  MemoryOnly.is_pending (f a) = false ->
  List.filter MemoryOnly.is_pending (l1 ++ f a :: l2)
  = List.filter MemoryOnly.is_pending l1 ++ List.filter MemoryOnly.is_pending l2.
Proof. intros H. rewrite List.filter_app. simpl. by rewrite H. Qed.

(** X23: in memory-only mode the listing of a session's pending approvals
    shows, in the order of the list, the entries with status pending; after
    a successful approve or reject the rewritten entry is gone from it and
    the pending entries before and after it are listed as before, and the
    count is the number of listed entries. *)
Theorem memory_listing_drops_answered_entry :
  forall (now : Clock) (sid : string) (payload : Payload) (w : MemoryOnly.World),
    sid <> "" ->
    let listing (out : Reply * MemoryOnly.World) : Prop :=
      is_error (fst out) = false ->
      exists l1 a l2,
        MemoryOnly.approvals_of w sid = l1 ++ a :: l2 /\
        Some (MemoryOnly.a_interrupt_id a) = p_interrupt_id payload /\
        MemoryOnly.pr_pending_approvals
          (MemoryOnly.list_pending_approvals_handler (Some sid) (snd out))
        = List.filter MemoryOnly.is_pending l1 ++ List.filter MemoryOnly.is_pending l2 /\
        MemoryOnly.pr_count (MemoryOnly.list_pending_approvals_handler (Some sid) (snd out))
        = length (List.filter MemoryOnly.is_pending l1
                  ++ List.filter MemoryOnly.is_pending l2) in
    listing (MemoryOnly.approve_request sid payload now w) /\
    listing (MemoryOnly.reject_request sid payload now w).
Proof.
  intros now sid payload w Hsid. cbv zeta.
  unfold MemoryOnly.list_pending_approvals_handler, MemoryOnly.pending_items.
  cbn [truthy_opt default_str]. rewrite (truthy_ne _ Hsid).
  cbn [MemoryOnly.pr_pending_approvals MemoryOnly.pr_count].
  unfold MemoryOnly.approve_request, MemoryOnly.reject_request.
  destruct (p_interrupt_id payload) as [iid|]; [|split; by intros [=]].
  destruct (truthy iid); [|split; by intros [=]].
  split.
  - destruct (MemoryOnly.update_first _ iid _) as [l'|] eqn:Hu; [|by intros [=]].
    intros _. apply update_first_split in Hu as [l1 [a [l2 [Hl [-> [Ha Hl1]]]]]].
    exists l1, a, l2. split; [done|]. split; [by rewrite Ha|].
    unfold MemoryOnly.approvals_of. cbn. rewrite lookup_insert_eq.
    by rewrite filter_rewritten.
  - destruct (MemoryOnly.update_first _ iid _) as [l'|] eqn:Hu; [|by intros [=]].
    intros _. apply update_first_split in Hu as [l1 [a [l2 [Hl [-> [Ha Hl1]]]]]].
    exists l1, a, l2. split; [done|]. split; [by rewrite Ha|].
    unfold MemoryOnly.approvals_of. cbn. rewrite lookup_insert_eq.
    by rewrite filter_rewritten.
Qed.

Lemma memory_listing_drops_answered_entry_witness :
  exists l1 a l2,
    MemoryOnly.approvals_of
      (Examples.memory_suspended "delete /tmp/x and list it" [Examples.i1; Examples.i2])
      "s1" = l1 ++ a :: l2 /\
    Some (MemoryOnly.a_interrupt_id a) = Some "i1" /\
    MemoryOnly.pr_pending_approvals
      (MemoryOnly.list_pending_approvals_handler (Some "s1")
         (snd (MemoryOnly.reject_request "s1" (Examples.reject_payload "i1" "no" "bob")
                 Examples.clock1
                 (Examples.memory_suspended "delete /tmp/x and list it"
                    [Examples.i1; Examples.i2]))))
    = List.filter MemoryOnly.is_pending l1 ++ List.filter MemoryOnly.is_pending l2.
Proof.
  assert (Hsid : "s1" <> "") by discriminate.
  destruct (proj2 (memory_listing_drops_answered_entry Examples.clock1 "s1"
                     (Examples.reject_payload "i1" "no" "bob")
                     (Examples.memory_suspended "delete /tmp/x and list it"
                        [Examples.i1; Examples.i2]) Hsid))
    as [l1 [a [l2 [H1 [H2 [H3 _]]]]]].
  - vm_compute. reflexivity.
  - exists l1, a, l2. split; [exact H1|]. split; [exact H2 | exact H3].
Defined.

End MoreMemoryProperties.

(** ** The two hooks *)

Section HooksAgree.
Import Gate.

(** X24: the two modes gate alike. With no pre-approved answers, the durable
    hook and the memory-only hook for the same application name give the
    same outcome on every event, trust state and set of responses: the same
    return or suspension, the same final trust state and the same
    cancellation message. *)
Theorem hooks_agree_without_pre_approval :
  forall (app sid sid' : string) (event : BeforeToolCallEvent)
         (answers : string -> option string) (st : gmap string string),
    fst (Durable.run_hook (Durable.mkHook app sid []) event answers st)
    = fst (MemoryOnly.run_hook (MemoryOnly.mkHook app sid') event answers st).
Proof.
  intros app sid sid' event answers st.
  unfold Durable.run_hook, Durable.approve, MemoryOnly.run_hook, MemoryOnly.approve.
  destruct (str_in (tool_use_name event) DANGEROUS_TOOLS); cbn; [|done].
  change (MemoryOnly.is_trusted ?x) with (Durable.is_trusted x).
  destruct (Durable.is_trusted _); cbn; [done|].
  destruct (answers _) as [a|]; cbn; [|done].
  by destruct (run _ _ _ _).
Qed.

End HooksAgree.
